(** * Group membership, leadership and cascade handlers of the church
      management backend, as a shallow embedding.

    The Express route handlers of [routes/group.js], [routes/subgroup.js]
    and [routes/churchUsers.js] and the Mongoose schema methods of
    [models/groupMember.js] and [models/churchUser.js] are written as
    functions over an explicit document store.  A collection is a finite
    map from [_id] to document; a handler takes the store and returns the
    HTTP response together with the store it leaves behind. *)

From stdpp Require Import gmap strings list fin_maps.
From Stdlib Require Import ZArith.

Open Scope string_scope.

(** ** Identifiers and JavaScript values *)

(** A MongoDB ObjectId.  Only well-formed ids are modelled, so the
    CastError branches of the handlers ([err.kind === 'ObjectId']) are
    outside the embedding. *)
Abbreviation ObjectId := nat (only parsing).

(** A reference as a handler holds it: the hex string taken from the URL,
    the body or the decoded token, or an ObjectId instance read from a
    document. *)
Inductive JsRef :=
  | HexString (i : ObjectId)
  | ObjectIdObj (i : ObjectId).

(** [Array.prototype.includes] on the plain arrays of the decoded token,
    whose elements are hex strings: comparison is SameValueZero, so an
    ObjectId instance is never found. *)
Definition includes (l : list ObjectId) (v : JsRef) : bool :=
  match v with
  | HexString i => bool_decide (i ∈ l)
  | ObjectIdObj _ => false
  end.

(** [includes] of a Mongoose array of ObjectIds: Mongoose compares the
    string forms, so the test is by value. *)
Definition mongooseIncludes (l : list ObjectId) (i : ObjectId) : bool :=
  bool_decide (i ∈ l).

(** [arr.push(x)] *)
Definition push {A} (l : list A) (x : A) : list A := l ++ [x].

(** [x || d] for a string that may be absent or empty. *)
Definition orDefault (x : option string) (d : string) : string :=
  match x with
  | Some v => if decide (v = "") then d else v
  | None => d
  end.

(** ** HTTP responses *)

Inductive Response (A : Type) :=
  | Json (body : A)
  | Status (code : nat) (msg : string).
Arguments Json {A} body.
Arguments Status {A} code msg.

(** ** Schemas *)

Module Person.
Record doc := mk { firstName : string; lastName : string }.
End Person.

Module Group.
Record doc := mk {
  name : string;
  description : option string;
  purpose : option string;
  meetingFrequency : string;
  customFrequency : option string;
  meetingDay : string;
  meetingTime : option string;
  meetingLocation : option string;
  isActive : bool;
  leaders : list ObjectId;
  createdBy : ObjectId;
  church : option ObjectId
}.

Definition set_leaders (l : list ObjectId) (g : doc) : doc :=
  mk (name g) (description g) (purpose g) (meetingFrequency g)
     (customFrequency g) (meetingDay g) (meetingTime g)
     (meetingLocation g) (isActive g) l (createdBy g) (church g).
End Group.

Module Subgroup.
Record doc := mk {
  name : string;
  description : option string;
  parentGroup : ObjectId;
  leaders : list ObjectId;
  meetingDay : string;
  meetingTime : option string;
  meetingLocation : option string;
  isActive : bool;
  createdBy : ObjectId;
  church : ObjectId
}.
End Subgroup.

Module Attendance.
Record entry := mk { date : Z; status : string; notes : string }.
End Attendance.

Module GroupMember.
Record doc := mk {
  person : ObjectId;
  group : ObjectId;
  subgroup : option ObjectId;
  role : string;
  joinDate : Z;
  isActive : bool;
  notes : option string;
  attendance : list Attendance.entry;
  church : ObjectId
}.

Definition set_subgroup (sg : option ObjectId) (m : doc) : doc :=
  mk (person m) (group m) sg (role m) (joinDate m) (isActive m)
     (notes m) (attendance m) (church m).
Definition set_role (r : string) (m : doc) : doc :=
  mk (person m) (group m) (subgroup m) r (joinDate m) (isActive m)
     (notes m) (attendance m) (church m).
Definition set_isActive (b : bool) (m : doc) : doc :=
  mk (person m) (group m) (subgroup m) (role m) (joinDate m) b
     (notes m) (attendance m) (church m).
Definition set_notes (n : option string) (m : doc) : doc :=
  mk (person m) (group m) (subgroup m) (role m) (joinDate m) (isActive m)
     n (attendance m) (church m).
Definition set_attendance (a : list Attendance.entry) (m : doc) : doc :=
  mk (person m) (group m) (subgroup m) (role m) (joinDate m) (isActive m)
     (notes m) a (church m).

(** [enum] of the [role] path. *)
Definition roleEnum : list string := ["member"; "leader"; "assistant"; "admin"].
(** [enum] of the [attendance.status] path. *)
Definition statusEnum : list string := ["present"; "absent"; "excused"].

(** [groupMemberSchema.methods.recordAttendance]: the document after
    the push (the caller's [save] writes it back). *)
Definition recordAttendance (date : Z) (status : string) (notes : string)
    (m : doc) : doc :=
  set_attendance (push (attendance m) (Attendance.mk date status notes)) m.
End GroupMember.

Module ChurchUser.
Record doc := mk {
  person : ObjectId;
  username : string;
  password : string;
  role : string;
  permissions : list string;
  teamLeaderships : list string;
  groupLeaderships : list ObjectId;
  subgroupLeaderships : list ObjectId
}.

Definition set_groupLeaderships (l : list ObjectId) (u : doc) : doc :=
  mk (person u) (username u) (password u) (role u) (permissions u)
     (teamLeaderships u) l (subgroupLeaderships u).
Definition set_subgroupLeaderships (l : list ObjectId) (u : doc) : doc :=
  mk (person u) (username u) (password u) (role u) (permissions u)
     (teamLeaderships u) (groupLeaderships u) l.

(** [churchUserSchema.methods.addGroupLeadership]: the document that
    [this.save()] writes. *)
Definition addGroupLeadership (groupId : ObjectId) (u : doc) : doc :=
  if negb (mongooseIncludes (groupLeaderships u) groupId)
  then set_groupLeaderships (push (groupLeaderships u) groupId) u
  else u.
End ChurchUser.

(** [req.user]: the decoded token with the defaults that the [auth]
    middleware fills in.  The token is issued outside the handlers; a
    claim it does not carry ([church]) reads as [undefined]. *)
Module ReqUser.
Record t := mk {
  _id : ObjectId;
  role : string;
  permissions : list string;
  groupLeaderships : list ObjectId;
  subgroupLeaderships : list ObjectId;
  church : option ObjectId
}.
End ReqUser.

(** ** utils/roles.js *)

Definition PERMISSIONS (role : string) : option (list string) :=
  if decide (role = "admin") then
    Some ["manage_users"; "manage_people"; "manage_households";
          "manage_events"; "manage_teams"; "manage_groups";
          "manage_group_members"; "view_people"; "view_households";
          "view_events"; "view_groups"; "perform_check_in";
          "register_newcomers"]
  else if decide (role = "event_manager") then
    Some ["manage_events"; "manage_teams"; "view_events"; "view_people";
          "view_groups"; "perform_check_in"; "register_newcomers"]
  else if decide (role = "team_lead") then
    Some ["manage_teams"; "view_events"; "view_people"; "view_groups"]
  else if decide (role = "group_leader") then
    Some ["manage_group_members"; "view_groups"; "view_people"; "view_events"]
  else if decide (role = "group_admin") then
    Some ["manage_groups"; "manage_group_members"; "view_groups";
          "view_people"; "view_events"]
  else if decide (role = "check_in_staff") then
    Some ["view_events"; "view_groups"; "perform_check_in";
          "register_newcomers"]
  else if decide (role = "user") then
    Some ["view_events"; "view_groups"]
  else None.

Definition hasPermission (role permission : string) : bool :=
  match PERMISSIONS role with
  | Some ps => bool_decide (permission ∈ ps)
  | None => false
  end.

(** ** The document store and the Mongoose model operations *)

Record Store := mkStore {
  groups : gmap ObjectId Group.doc;
  subgroups : gmap ObjectId Subgroup.doc;
  groupMembers : gmap ObjectId GroupMember.doc;
  churchUsers : gmap ObjectId ChurchUser.doc;
  people : gmap ObjectId Person.doc
}.

Definition set_groups (f : gmap ObjectId Group.doc → gmap ObjectId Group.doc)
    (s : Store) : Store :=
  mkStore (f (groups s)) (subgroups s) (groupMembers s) (churchUsers s) (people s).
Definition set_subgroups
    (f : gmap ObjectId Subgroup.doc → gmap ObjectId Subgroup.doc)
    (s : Store) : Store :=
  mkStore (groups s) (f (subgroups s)) (groupMembers s) (churchUsers s) (people s).
Definition set_groupMembers
    (f : gmap ObjectId GroupMember.doc → gmap ObjectId GroupMember.doc)
    (s : Store) : Store :=
  mkStore (groups s) (subgroups s) (f (groupMembers s)) (churchUsers s) (people s).
Definition set_churchUsers
    (f : gmap ObjectId ChurchUser.doc → gmap ObjectId ChurchUser.doc)
    (s : Store) : Store :=
  mkStore (groups s) (subgroups s) (groupMembers s) (f (churchUsers s)) (people s).

Section Model.
Context {D : Type}.
Implicit Types (c : gmap ObjectId D) (q : D → bool).

Definition findById (id : ObjectId) c : option D := c !! id.

(** [find(filter)]: the matching documents in store order. *)
Definition find q c : list (ObjectId * D) :=
  map_to_list (filter (λ kv, q kv.2 = true) c).

Definition findOne q c : option (ObjectId * D) := head (find q c).

(** [findOne({_id: id, ...rest})]: at most the document stored under
    [id] can match. *)
Definition findOneById (id : ObjectId) q c : option D :=
  match c !! id with
  | Some d => if q d then Some d else None
  | None => None
  end.

Definition deleteMany q c : gmap ObjectId D :=
  filter (λ kv, q kv.2 = false) c.

Definition updateMany q (u : D → D) c : gmap ObjectId D :=
  (λ d, if q d then u d else d) <$> c.

Definition deleteOne (id : ObjectId) c : gmap ObjectId D := delete id c.

(** [doc.save()] of a document read from (or created for) [id]. *)
Definition save (id : ObjectId) (d : D) c : gmap ObjectId D := <[id := d]> c.
End Model.

(** [$pull]: every occurrence of the value leaves the array. *)
Definition pull (x : ObjectId) (l : list ObjectId) : list ObjectId :=
  filter (λ y, y ≠ x) l.

(** ** Cascade handlers *)

(** The store writes a cascade issues, in program order. *)
Inductive DbWrite :=
  | SubgroupDeleteManyByParent (groupId : ObjectId)
  | GroupMemberDeleteManyByGroup (groupId : ObjectId)
  | ChurchUserPullGroupLeadership (groupId : ObjectId)
  | GroupDeleteOne (groupId : ObjectId)
  | GroupMemberUnsetSubgroup (subgroupId : ObjectId)
  | ChurchUserPullSubgroupLeadership (subgroupId : ObjectId)
  | SubgroupDeleteOne (subgroupId : ObjectId).

Definition write (w : DbWrite) (s : Store) : Store :=
  match w with
  | SubgroupDeleteManyByParent id =>
      set_subgroups
        (deleteMany (λ sg, bool_decide (Subgroup.parentGroup sg = id))) s
  | GroupMemberDeleteManyByGroup id =>
      set_groupMembers
        (deleteMany (λ m, bool_decide (GroupMember.group m = id))) s
  | ChurchUserPullGroupLeadership id =>
      set_churchUsers
        (updateMany (λ u, bool_decide (id ∈ ChurchUser.groupLeaderships u))
           (λ u, ChurchUser.set_groupLeaderships
                   (pull id (ChurchUser.groupLeaderships u)) u)) s
  | GroupDeleteOne id => set_groups (deleteOne id) s
  | GroupMemberUnsetSubgroup id =>
      set_groupMembers
        (updateMany (λ m, bool_decide (GroupMember.subgroup m = Some id))
           (GroupMember.set_subgroup None)) s
  | ChurchUserPullSubgroupLeadership id =>
      set_churchUsers
        (updateMany (λ u, bool_decide (id ∈ ChurchUser.subgroupLeaderships u))
           (λ u, ChurchUser.set_subgroupLeaderships
                   (pull id (ChurchUser.subgroupLeaderships u)) u)) s
  | SubgroupDeleteOne id => set_subgroups (deleteOne id) s
  end.

(** Running writes one after the other. *)
Definition writes (ws : list DbWrite) (s : Store) : Store :=
  foldl (λ acc w, write w acc) s ws.

(** [DELETE /api/groups/:id]: the writes after the group was found. *)
Definition deleteGroupWrites (id : ObjectId) : list DbWrite :=
  [ SubgroupDeleteManyByParent id;
    GroupMemberDeleteManyByGroup id;
    ChurchUserPullGroupLeadership id;
    GroupDeleteOne id ].

(** [DELETE /api/groups/:id], behind [checkPermission('manage_groups')]. *)
Definition deleteGroup (user : ReqUser.t) (id : ObjectId) (s : Store)
    : Response string * Store :=
  if negb (hasPermission (ReqUser.role user) "manage_groups")
  then (Status 403 "Permission denied", s)
  else
    match findOneById id
            (λ g, bool_decide (Group.church g = ReqUser.church user))
            (groups s) with
    | None => (Status 404 "Group not found", s)
    | Some _ => (Json "Group deleted", writes (deleteGroupWrites id) s)
    end.

(** [subgroupSchema.pre('remove')]: the hook of [models/subgroup.js].  It
    issues the same [updateMany] as the route below; [Model.deleteOne]
    does not fire it. *)
Definition subgroupPreRemove (id : ObjectId) (s : Store) : Store :=
  write (GroupMemberUnsetSubgroup id) s.

(** [DELETE /api/subgroups/:id]: the writes after the access check. *)
Definition deleteSubgroupWrites (id : ObjectId) : list DbWrite :=
  [ GroupMemberUnsetSubgroup id;
    ChurchUserPullSubgroupLeadership id;
    SubgroupDeleteOne id ].

(** [req.user.role === 'admin' || req.user.permissions.includes('manage_groups')] *)
Definition isAdmin (user : ReqUser.t) : bool :=
  bool_decide (ReqUser.role user = "admin")
  || bool_decide ("manage_groups" ∈ ReqUser.permissions user).

(** [DELETE /api/subgroups/:id] *)
Definition deleteSubgroup (user : ReqUser.t) (id : ObjectId) (s : Store)
    : Response string * Store :=
  match findById id (subgroups s) with
  | None => (Status 404 "Subgroup not found", s)
  | Some subgroup =>
      let isGroupLeader :=
        includes (ReqUser.groupLeaderships user)
                 (HexString (Subgroup.parentGroup subgroup)) in
      if negb (isAdmin user) && negb isGroupLeader
      then (Status 403 "Not authorized to delete this subgroup", s)
      else (Json "Subgroup deleted", writes (deleteSubgroupWrites id) s)
  end.

(** ** Access helpers of the routes *)

(** [authorizeGroupAccess] of [routes/group.js]. *)
Definition authorizeGroupAccess (user : ReqUser.t) (groupId : JsRef) : bool :=
  if isAdmin user then true
  else if includes (ReqUser.groupLeaderships user) groupId then true
  else false.

(** [authorizeSubgroupAccess] of [routes/subgroup.js]; [subgroupId] is the
    URL parameter. *)
Definition authorizeSubgroupAccess (user : ReqUser.t) (subgroupId : ObjectId)
    (s : Store) : bool :=
  if isAdmin user then true
  else if includes (ReqUser.subgroupLeaderships user) (HexString subgroupId)
  then true
  else
    match findById subgroupId (subgroups s) with
    | None => false
    | Some subgroup =>
        if includes (ReqUser.groupLeaderships user)
                    (HexString (Subgroup.parentGroup subgroup))
        then true else false
    end.

(** ** Membership handlers *)

(** The error responses that the specification names. *)
Definition DuplicateMembership {A} : Response A :=
  Status 400 "Person is already a member of this group".
Definition InvalidSubgroupAssignment {A} : Response A :=
  Status 400 "Person must be a member of the parent group before joining a subgroup".

(** The message of a Mongoose ValidationError; its text is composed by
    the library. *)
Definition validationMessage : string := "GroupMember validation failed".

Record AddMemberBody := mkAddMemberBody {
  personId : option ObjectId;
  subgroupId : option ObjectId;
  role : option string
}.

(** Validation of a new GroupMember on [save]: [person] and [church] are
    required, [role] is checked against its enum.  The result is the
    document with the schema defaults. *)
Definition newGroupMember (now : Z) (person : option ObjectId)
    (group : ObjectId) (subgroup : option ObjectId) (role : string)
    (church : option ObjectId) : option GroupMember.doc :=
  match person, church with
  | Some p, Some c =>
      if bool_decide (role ∈ GroupMember.roleEnum)
      then Some (GroupMember.mk p group subgroup role now true None [] c)
      else None
  | _, _ => None
  end.

(** The unique index [{person: 1, group: 1}] as the store checks it on
    insert. *)
Definition uniqueIndexFree (m : GroupMember.doc)
    (c : gmap ObjectId GroupMember.doc) : bool :=
  bool_decide (findOne (λ m', bool_decide (GroupMember.person m' = GroupMember.person m)
                              && bool_decide (GroupMember.group m' = GroupMember.group m)) c
               = None).

(** [POST /api/groups/:id/members]; [now] is the clock read by the
    [joinDate] default. *)
Definition addMember (now : Z) (user : ReqUser.t) (id : ObjectId)
    (body : AddMemberBody) (s : Store)
    : Response (ObjectId * GroupMember.doc) * Store :=
  if negb (authorizeGroupAccess user (HexString id))
  then (Status 403 "Not authorized to add members to this group", s)
  else
    match findOne (λ m, bool_decide (Some (GroupMember.person m) = personId body)
                        && bool_decide (GroupMember.group m = id))
                  (groupMembers s) with
    | Some _ => (DuplicateMembership, s)
    | None =>
        match newGroupMember now (personId body) id (subgroupId body)
                (orDefault (role body) "member") (ReqUser.church user) with
        | None => (Status 400 validationMessage, s)
        | Some newMember =>
            if uniqueIndexFree newMember (groupMembers s) then
              let _id := fresh (dom (groupMembers s)) in
              (Json (_id, newMember),
               set_groupMembers (save _id newMember) s)
            else (Status 500 "Server Error", s)
        end
    end.

(** White space removed by the [trim] setter of the schemas (the ASCII
    part of what [String.prototype.trim] removes). *)
Definition isSpace (a : Ascii.ascii) : bool :=
  let n := Ascii.nat_of_ascii a in
  bool_decide (n = 32%nat) || (bool_decide (9 ≤ n)%nat && bool_decide (n ≤ 13)%nat).

Fixpoint trimStart (s : string) : string :=
  match s with
  | String a r => if isSpace a then trimStart r else s
  | EmptyString => EmptyString
  end.

Definition trim (s : string) : string :=
  String.rev (trimStart (String.rev (trimStart s))).

Record UpdateMemberBody := mkUpdateMemberBody {
  (** [None]: undefined; [Some None]: null or the empty string *)
  upd_subgroupId : option (option ObjectId);
  upd_role : option string;
  upd_isActive : option bool;
  (** [None]: undefined; [Some None]: null *)
  upd_notes : option (option string)
}.

(** [PUT /api/groups/members/:memberId].  [populate('group')] leaves
    [null] for a group that is not stored, and reading [member.group._id]
    then throws into the 500 branch. *)
Definition updateMember (user : ReqUser.t) (memberId : ObjectId)
    (body : UpdateMemberBody) (s : Store)
    : Response (ObjectId * GroupMember.doc) * Store :=
  match findById memberId (groupMembers s) with
  | None => (Status 404 "Group member not found", s)
  | Some member =>
      match findById (GroupMember.group member) (groups s) with
      | None => (Status 500 "Server Error", s)
      | Some _ =>
          if negb (authorizeGroupAccess user
                     (ObjectIdObj (GroupMember.group member)))
          then (Status 403 "Not authorized to update this group member", s)
          else
            let m1 := match upd_subgroupId body with
                      | Some sg => GroupMember.set_subgroup sg member
                      | None => member
                      end in
            let roleSet := orDefault (upd_role body) "" in
            let m2 := if decide (roleSet = "") then m1
                      else GroupMember.set_role roleSet m1 in
            let m3 := match upd_isActive body with
                      | Some b => GroupMember.set_isActive b m2
                      | None => m2
                      end in
            let m4 := match upd_notes body with
                      | Some n => GroupMember.set_notes (trim <$> n) m3
                      | None => m3
                      end in
            if bool_decide (roleSet = "")
               || bool_decide (roleSet ∈ GroupMember.roleEnum)
            then (Json (memberId, m4), set_groupMembers (save memberId m4) s)
            else (Status 500 "Server Error", s)
      end
  end.

(** [POST /api/subgroups/:id/members/:personId] *)
Definition addToSubgroup (user : ReqUser.t) (id personId : ObjectId)
    (s : Store) : Response (ObjectId * GroupMember.doc) * Store :=
  if negb (authorizeSubgroupAccess user id s)
  then (Status 403 "Not authorized to manage this subgroup", s)
  else
    match findById id (subgroups s) with
    | None => (Status 404 "Subgroup not found", s)
    | Some subgroup =>
        match findOne (λ m, bool_decide (GroupMember.person m = personId)
                            && bool_decide (GroupMember.group m
                                            = Subgroup.parentGroup subgroup))
                      (groupMembers s) with
        | None => (InvalidSubgroupAssignment, s)
        | Some (mid, groupMember) =>
            let m' := GroupMember.set_subgroup (Some id) groupMember in
            (Json (mid, m'), set_groupMembers (save mid m') s)
        end
    end.

(** ** Attendance *)

Record AttendanceRecord := mkAttendanceRecord {
  rec_memberId : ObjectId;
  rec_status : option string;
  rec_notes : option string
}.

Record AttendanceResult := mkAttendanceResult {
  res_memberId : ObjectId;
  success : bool;
  message : string
}.

Record AttendanceBody := mkAttendanceBody {
  (** the instant [new Date(date)] denotes; [None] when [date] is falsy *)
  body_date : option Z;
  (** [None] when [attendanceData] is missing or not an array *)
  attendanceData : option (list AttendanceRecord)
}.

(** Validation of the pushed subdocument on [save]: [status] is required
    and checked against its enum. *)
Definition validStatus (status : option string) : option string :=
  match status with
  | Some st => if bool_decide (st ∈ GroupMember.statusEnum) then Some st else None
  | None => None
  end.

(** The [for ... of] loop of [POST /api/groups/:id/attendance].  A
    rejected [save] throws out of the loop ([None]); the members saved
    before it stay saved. *)
Fixpoint recordAttendanceLoop (user : ReqUser.t) (id : ObjectId) (date : Z)
    (data : list AttendanceRecord) (results : list AttendanceResult)
    (s : Store) : option (list AttendanceResult) * Store :=
  match data with
  | [] => (Some results, s)
  | record :: rest =>
      let memberId := rec_memberId record in
      match findOneById memberId
              (λ m, bool_decide (GroupMember.group m = id)
                    && bool_decide (Some (GroupMember.church m) = ReqUser.church user))
              (groupMembers s) with
      | None =>
          recordAttendanceLoop user id date rest
            (push results (mkAttendanceResult memberId false "Member not found")) s
      | Some member =>
          match validStatus (rec_status record) with
          | None => (None, s)
          | Some status =>
              let member' :=
                GroupMember.set_attendance
                  (push (GroupMember.attendance member)
                     (Attendance.mk date status (orDefault (rec_notes record) "")))
                  member in
              recordAttendanceLoop user id date rest
                (push results (mkAttendanceResult memberId true "Attendance recorded"))
                (set_groupMembers (save memberId member') s)
          end
      end
  end.

(** [POST /api/groups/:id/attendance] *)
Definition recordGroupAttendance (user : ReqUser.t) (id : ObjectId)
    (body : AttendanceBody) (s : Store)
    : Response (list AttendanceResult) * Store :=
  match body_date body, attendanceData body with
  | Some date, Some data =>
      if negb (authorizeGroupAccess user (HexString id))
      then (Status 403 "Not authorized to record attendance for this group", s)
      else
        match recordAttendanceLoop user id date data [] s with
        | (Some results, s') => (Json results, s')
        | (None, s') => (Status 500 "Server Error", s')
        end
  | _, _ => (Status 400 "Date and attendance data array required", s)
  end.

(** A row of an attendance report.  The aggregation of the group report
    names the member [_id], the subgroup route [memberId]. *)
Module Report.
Record row := mk {
  memberId : ObjectId;
  firstName : string;
  lastName : string;
  attendance : list Attendance.entry
}.
End Report.

(** The [$gte]/[$lte] condition on one attendance entry. *)
Definition inRange (startDate endDate : Z) (e : Attendance.entry) : bool :=
  bool_decide (startDate ≤ Attendance.date e)%Z
  && bool_decide (Attendance.date e ≤ endDate)%Z.

(** The [$match] stage.  On the array path ['attendance.date'] each of the
    two bounds has to be met by some entry, not necessarily the same. *)
Definition matchStage (groupId : ObjectId) (startDate endDate : Z)
    (m : GroupMember.doc) : bool :=
  bool_decide (GroupMember.group m = groupId)
  && existsb (λ e, bool_decide (startDate ≤ Attendance.date e)%Z)
       (GroupMember.attendance m)
  && existsb (λ e, bool_decide (Attendance.date e ≤ endDate)%Z)
       (GroupMember.attendance m).

(** [$lookup] into [people], [$unwind] and [$project] for one member: a
    member whose person is not stored yields no row. *)
Definition projectStage (startDate endDate : Z) (people : gmap ObjectId Person.doc)
    (im : ObjectId * GroupMember.doc) : option Report.row :=
  match people !! GroupMember.person im.2 with
  | Some personData =>
      Some (Report.mk im.1 (Person.firstName personData)
              (Person.lastName personData)
              (filter (λ e, inRange startDate endDate e = true)
                 (GroupMember.attendance im.2)))
  | None => None
  end.

(** [groupMemberSchema.statics.getGroupAttendance] *)
Definition getGroupAttendance (groupId : ObjectId) (startDate endDate : Z)
    (s : Store) : list Report.row :=
  omap (projectStage startDate endDate (people s))
    (find (matchStage groupId startDate endDate) (groupMembers s)).

(** [GET /api/groups/:id/attendance] *)
Definition groupAttendanceReport (user : ReqUser.t) (id : ObjectId)
    (startDate endDate : option Z) (s : Store) : Response (list Report.row) :=
  match startDate, endDate with
  | Some a, Some b =>
      if negb (authorizeGroupAccess user (HexString id))
      then Status 403 "Not authorized to view attendance for this group"
      else Json (getGroupAttendance id a b s)
  | _, _ => Status 400 "Start date and end date are required"
  end.

(** [GET /api/subgroups/:id/attendance].  Reading [person.firstName] of a
    person that is not stored throws, and the request ends in the 500
    branch. *)
Definition subgroupAttendanceReport (user : ReqUser.t) (id : ObjectId)
    (startDate endDate : option Z) (s : Store) : Response (list Report.row) :=
  match startDate, endDate with
  | Some a, Some b =>
      if negb (authorizeSubgroupAccess user id s)
      then Status 403 "Not authorized to view attendance for this subgroup"
      else
        let members :=
          find (λ m, bool_decide (GroupMember.subgroup m = Some id)
                     && bool_decide (Some (GroupMember.church m) = ReqUser.church user))
               (groupMembers s) in
        match mapM (projectStage a b (people s)) members with
        | Some attendanceData => Json attendanceData
        | None => Status 500 "Server Error"
        end
  | _, _ => Status 400 "Start date and end date are required"
  end.

(** ** Leadership handlers of [routes/churchUsers.js] *)

(** [POST /api/church-users/assign-group-leadership] *)
Definition assignGroupLeadership (caller : ReqUser.t) (userId groupId : ObjectId)
    (s : Store) : Response (ObjectId * ChurchUser.doc) * Store :=
  if negb (hasPermission (ReqUser.role caller) "manage_groups")
  then (Status 403 "Permission denied", s)
  else
    match findById userId (churchUsers s) with
    | None => (Status 404 "User not found", s)
    | Some user =>
        match findById groupId (groups s) with
        | None => (Status 404 "Group not found", s)
        | Some group =>
            let s1 :=
              if negb (mongooseIncludes (Group.leaders group) (ChurchUser.person user))
              then set_groups
                     (save groupId
                        (Group.set_leaders
                           (push (Group.leaders group) (ChurchUser.person user))
                           group)) s
              else s in
            let user' := ChurchUser.addGroupLeadership groupId user in
            (Json (userId, user'), set_churchUsers (save userId user') s1)
        end
    end.

(** [POST /api/church-users/remove-group-leadership] *)
Definition removeGroupLeadership (caller : ReqUser.t) (userId groupId : ObjectId)
    (s : Store) : Response (ObjectId * ChurchUser.doc) * Store :=
  if negb (hasPermission (ReqUser.role caller) "manage_groups")
  then (Status 403 "Permission denied", s)
  else
    match findById userId (churchUsers s) with
    | None => (Status 404 "User not found", s)
    | Some user =>
        match findById groupId (groups s) with
        | None => (Status 404 "Group not found", s)
        | Some group =>
            let group' :=
              Group.set_leaders
                (filter (λ leaderId, leaderId ≠ ChurchUser.person user)
                   (Group.leaders group)) group in
            let s1 := set_groups (save groupId group') s in
            let user' :=
              ChurchUser.set_groupLeaderships
                (filter (λ leaderGroupId, leaderGroupId ≠ groupId)
                   (ChurchUser.groupLeaderships user)) user in
            (Json (userId, user'), set_churchUsers (save userId user') s1)
        end
    end.

(** ** Group update *)

Record UpdateGroupBody := mkUpdateGroupBody {
  ug_name : option string;
  ug_description : option (option string);
  ug_purpose : option (option string);
  ug_meetingFrequency : option string;
  ug_customFrequency : option (option string);
  ug_meetingDay : option string;
  ug_meetingTime : option (option string);
  ug_meetingLocation : option (option string);
  ug_leaders : option (list ObjectId);
  ug_isActive : option bool
}.

(** [if (x)] on a string field of the body: absent and empty are falsy. *)
Definition truthy (x : option string) : option string :=
  match x with
  | Some v => if decide (v = "") then None else Some v
  | None => None
  end.

(** [{ $set: groupFields }]: the fields the handler collected replace
    those of the document; string paths with [trim: true] are trimmed. *)
Definition setGroupFields (b : UpdateGroupBody) (g : Group.doc) : Group.doc :=
  Group.mk
    (from_option trim (Group.name g) (truthy (ug_name b)))
    (from_option (fmap trim) (Group.description g) (ug_description b))
    (from_option (fmap trim) (Group.purpose g) (ug_purpose b))
    (from_option id (Group.meetingFrequency g) (truthy (ug_meetingFrequency b)))
    (from_option (fmap trim) (Group.customFrequency g) (ug_customFrequency b))
    (from_option id (Group.meetingDay g) (truthy (ug_meetingDay b)))
    (from_option (fmap trim) (Group.meetingTime g) (ug_meetingTime b))
    (from_option (fmap trim) (Group.meetingLocation g) (ug_meetingLocation b))
    (from_option id (Group.isActive g) (ug_isActive b))
    (from_option id (Group.leaders g) (ug_leaders b))
    (Group.createdBy g)
    (Group.church g).

(** [PUT /api/groups/:id] *)
Definition updateGroup (user : ReqUser.t) (id : ObjectId)
    (body : UpdateGroupBody) (s : Store)
    : Response (ObjectId * Group.doc) * Store :=
  if negb (authorizeGroupAccess user (HexString id))
  then (Status 403 "Not authorized to update this group", s)
  else
    match findOneById id
            (λ g, bool_decide (Group.church g = ReqUser.church user))
            (groups s) with
    | None => (Status 404 "Group not found", s)
    | Some g =>
        let g' := setGroupFields body g in
        (Json (id, g'), set_groups (save id g') s)
    end.

(** The mirror between the two leadership lists: a stored user lists a
    stored group exactly when the group lists the user's person. *)
Definition leadershipMirror (s : Store) : Prop :=
  ∀ uid u gid g,
    churchUsers s !! uid = Some u →
    groups s !! gid = Some g →
    gid ∈ ChurchUser.groupLeaderships u ↔ ChurchUser.person u ∈ Group.leaders g.

(** ** Predicates used in the statements *)

(** The store just before the group document itself is deleted. *)
Definition beforeGroupDelete (id : ObjectId) (s : Store) : Store :=
  writes [ SubgroupDeleteManyByParent id;
           GroupMemberDeleteManyByGroup id;
           ChurchUserPullGroupLeadership id ] s.

(** No subgroup, membership or leadership list refers to group [id]. *)
Definition noDependents (id : ObjectId) (s : Store) : Prop :=
  (∀ i sg, subgroups s !! i = Some sg → Subgroup.parentGroup sg ≠ id) ∧
  (∀ i m, groupMembers s !! i = Some m → GroupMember.group m ≠ id) ∧
  (∀ i u, churchUsers s !! i = Some u → id ∉ ChurchUser.groupLeaderships u).

(** Person [p] has a GroupMember record in group [g]. *)
Definition hasMembership (p g : ObjectId) (s : Store) : Prop :=
  ∃ i m, groupMembers s !! i = Some m ∧
         GroupMember.person m = p ∧ GroupMember.group m = g.

(** How often [x] occurs in a list of references. *)
Definition occurrences (x : ObjectId) (l : list ObjectId) : nat :=
  length (filter (λ y, y = x) l).

(** The rows of a report that belong to member [mid]. *)
Definition rowsOf (mid : ObjectId) (report : list Report.row) : list Report.row :=
  filter (λ r, Report.memberId r = mid) report.

(** The row the reports are to show for member [mid]: the in-range
    entries of the member in stored order, with the person's names. *)
Definition expectedRow (startDate endDate : Z) (mid : ObjectId)
    (m : GroupMember.doc) (p : Person.doc) : Report.row :=
  Report.mk mid (Person.firstName p) (Person.lastName p)
    (filter (λ e, inRange startDate endDate e = true) (GroupMember.attendance m)).

(** ** A small congregation, used to run the handlers

    Group "Youth" (1) is led by person 50, whose account is church user 5;
    "Worship Team" (10) is its subgroup and "Altos" (20) a subgroup of
    group "Choir" (2).  Person 51 is a member of "Youth" in "Worship
    Team"; person 52 has no membership. *)

Definition theAdmin : ReqUser.t :=
  ReqUser.mk 100 "admin" [] [] [] (Some 900).

Definition youth : Group.doc :=
  Group.mk "Youth" None None "weekly" None "sunday" None None true
    [50] 100 (Some 900).
Definition choir : Group.doc :=
  Group.mk "Choir" None None "weekly" None "friday" None None true
    [] 100 (Some 900).

Definition worshipTeam : Subgroup.doc :=
  Subgroup.mk "Worship Team" None 1 [] "sunday" None None true 100 900.
Definition altos : Subgroup.doc :=
  Subgroup.mk "Altos" None 2 [] "friday" None None true 100 900.

Definition youthLeader : ChurchUser.doc :=
  ChurchUser.mk 50 "u1" "secret" "group_leader"
    ["manage_group_members"; "view_groups"; "view_people"] [] [1] [].

Definition member51 : GroupMember.doc :=
  GroupMember.mk 51 1 (Some 10) "member" 0 true None [] 900.

Definition congregation : Store :=
  mkStore {[1 := youth; 2 := choir]}
          {[10 := worshipTeam; 20 := altos]}
          {[7 := member51]}
          {[5 := youthLeader]}
          {[50 := Person.mk "Ada" "Obi"; 51 := Person.mk "Ben" "Cole";
            52 := Person.mk "Cy" "Dunn"]}.

(** The store after person 52 was added to "Youth". *)
Definition afterFirstAdd : Store :=
  (addMember 0 theAdmin 1 (mkAddMemberBody (Some 52) None None) congregation).2.

(** The congregation after three attendance entries were recorded for
    member 7, on days 5, 20 and 7 in that order. *)
Definition member51Attended : GroupMember.doc :=
  GroupMember.set_attendance
    [ Attendance.mk 5 "present" ""; Attendance.mk 20 "absent" "";
      Attendance.mk 7 "excused" "ill" ] member51.

Definition attended : Store :=
  set_groupMembers (save 7 member51Attended) congregation.

(** A group update whose body carries only a new [leaders] list. *)
Definition newLeadersBody (leaders : list ObjectId) : UpdateGroupBody :=
  mkUpdateGroupBody None None None None None None None None (Some leaders) None.

(** * The remaining handlers of the group, subgroup, account and people
      routes *)

(** ** Members of a group *)

(** [GET /api/groups/:id/members]: the memberships of the group in the
    caller's church. *)
Definition listGroupMembers (user : ReqUser.t) (id : ObjectId) (s : Store)
    : list (ObjectId * GroupMember.doc) :=
  find (λ m, bool_decide (GroupMember.group m = id)
             && bool_decide (Some (GroupMember.church m) = ReqUser.church user))
       (groupMembers s).

(** [GET /api/subgroups/:id/members] *)
Definition listSubgroupMembers (user : ReqUser.t) (id : ObjectId) (s : Store)
    : list (ObjectId * GroupMember.doc) :=
  find (λ m, bool_decide (GroupMember.subgroup m = Some id)
             && bool_decide (Some (GroupMember.church m) = ReqUser.church user))
       (groupMembers s).

(** [DELETE /api/groups/members/:memberId].  As in the update, a member
    whose group is not stored makes [member.group._id] throw. *)
Definition removeMember (user : ReqUser.t) (memberId : ObjectId) (s : Store)
    : Response string * Store :=
  match findById memberId (groupMembers s) with
  | None => (Status 404 "Group member not found", s)
  | Some member =>
      match findById (GroupMember.group member) (groups s) with
      | None => (Status 500 "Server Error", s)
      | Some _ =>
          if negb (authorizeGroupAccess user
                     (ObjectIdObj (GroupMember.group member)))
          then (Status 403 "Not authorized to remove members from this group", s)
          else (Json "Member removed from group",
                set_groupMembers (deleteOne memberId) s)
      end
  end.

(** [DELETE /api/subgroups/:id/members/:personId] *)
Definition removeFromSubgroup (user : ReqUser.t) (id personId : ObjectId)
    (s : Store) : Response string * Store :=
  if negb (authorizeSubgroupAccess user id s)
  then (Status 403 "Not authorized to manage this subgroup", s)
  else
    match findOne (λ m, bool_decide (GroupMember.person m = personId)
                        && bool_decide (GroupMember.subgroup m = Some id))
                  (groupMembers s) with
    | None => (Status 404 "Member not found in this subgroup", s)
    | Some (mid, groupMember) =>
        (Json "Member removed from subgroup",
         set_groupMembers
           (save mid (GroupMember.set_subgroup None groupMember)) s)
    end.

(** ** Attendance of a subgroup *)

(** The loop of [POST /api/subgroups/:id/attendance]; it differs from the
    one of the group route in the filter and in the message. *)
Fixpoint recordSubgroupAttendanceLoop (user : ReqUser.t) (id : ObjectId)
    (date : Z) (data : list AttendanceRecord) (results : list AttendanceResult)
    (s : Store) : option (list AttendanceResult) * Store :=
  match data with
  | [] => (Some results, s)
  | record :: rest =>
      let memberId := rec_memberId record in
      match findOneById memberId
              (λ m, bool_decide (GroupMember.subgroup m = Some id)
                    && bool_decide (Some (GroupMember.church m) = ReqUser.church user))
              (groupMembers s) with
      | None =>
          recordSubgroupAttendanceLoop user id date rest
            (push results
               (mkAttendanceResult memberId false "Member not found in this subgroup"))
            s
      | Some member =>
          match validStatus (rec_status record) with
          | None => (None, s)
          | Some status =>
              let member' :=
                GroupMember.set_attendance
                  (push (GroupMember.attendance member)
                     (Attendance.mk date status (orDefault (rec_notes record) "")))
                  member in
              recordSubgroupAttendanceLoop user id date rest
                (push results (mkAttendanceResult memberId true "Attendance recorded"))
                (set_groupMembers (save memberId member') s)
          end
      end
  end.

(** [POST /api/subgroups/:id/attendance] *)
Definition recordSubgroupAttendance (user : ReqUser.t) (id : ObjectId)
    (body : AttendanceBody) (s : Store)
    : Response (list AttendanceResult) * Store :=
  match body_date body, attendanceData body with
  | Some date, Some data =>
      if negb (authorizeSubgroupAccess user id s)
      then (Status 403 "Not authorized to record attendance for this subgroup", s)
      else
        match recordSubgroupAttendanceLoop user id date data [] s with
        | (Some results, s') => (Json results, s')
        | (None, s') => (Status 500 "Server Error", s')
        end
  | _, _ => (Status 400 "Date and attendance data array required", s)
  end.

(** ** Creating groups and subgroups *)

Record CreateGroupBody := mkCreateGroupBody {
  cg_name : option string;
  cg_description : option string;
  cg_purpose : option string;
  cg_meetingFrequency : option string;
  cg_customFrequency : option string;
  cg_meetingDay : option string;
  cg_meetingTime : option string;
  cg_meetingLocation : option string;
  cg_leaders : option (list ObjectId)
}.

Definition meetingFrequencyEnum : list string :=
  ["weekly"; "biweekly"; "monthly"; "quarterly"; "custom"].
Definition meetingDayEnum : list string :=
  ["monday"; "tuesday"; "wednesday"; "thursday"; "friday"; "saturday";
   "sunday"; "varies"].

(** A path with an [enum] and a [default]: an absent value takes the
    default, a given one has to be in the enum. *)
Definition enumOrDefault (enum : list string) (d : string) (x : option string)
    : option string :=
  match x with
  | None => Some d
  | Some v => if bool_decide (v ∈ enum) then Some v else None
  end.

(** A required string path with [trim: true]: absent and empty (after the
    trim) are rejected. *)
Definition requiredTrimmed (x : option string) : option string :=
  match x with
  | Some v => if decide (trim v = "") then None else Some (trim v)
  | None => None
  end.

(** [new Group({...})] and the validation of its [save]. *)
Definition newGroup (body : CreateGroupBody) (createdBy : ObjectId)
    (church : option ObjectId) : option Group.doc :=
  match requiredTrimmed (cg_name body),
        enumOrDefault meetingFrequencyEnum "weekly" (cg_meetingFrequency body),
        enumOrDefault meetingDayEnum "sunday" (cg_meetingDay body) with
  | Some name, Some frequency, Some day =>
      Some (Group.mk name (trim <$> cg_description body)
              (trim <$> cg_purpose body) frequency
              (trim <$> cg_customFrequency body) day
              (trim <$> cg_meetingTime body)
              (trim <$> cg_meetingLocation body)
              true (default [] (cg_leaders body)) createdBy church)
  | _, _, _ => None
  end.

(** [ChurchUser.find({ person: { $in: leaders } })], asked only when
    [leaders] is a non-empty array. *)
Definition accountsOf (leaders : option (list ObjectId)) (s : Store)
    : list (ObjectId * ChurchUser.doc) :=
  match leaders with
  | Some (p :: ps) =>
      find (λ u, bool_decide (ChurchUser.person u ∈ p :: ps)) (churchUsers s)
  | _ => []
  end.

(** [POST /api/groups], behind [checkPermission('manage_groups')]. *)
Definition createGroup (user : ReqUser.t) (body : CreateGroupBody) (s : Store)
    : Response (ObjectId * Group.doc) * Store :=
  if negb (hasPermission (ReqUser.role user) "manage_groups")
  then (Status 403 "Permission denied", s)
  else
    match newGroup body (ReqUser._id user) (ReqUser.church user) with
    | None => (Status 400 "Group validation failed", s)
    | Some group =>
        let _id := fresh (dom (groups s)) in
        let s1 := set_groups (save _id group) s in
        (Json (_id, group),
         foldl (λ acc iu,
                  set_churchUsers
                    (save iu.1 (ChurchUser.addGroupLeadership _id iu.2)) acc)
               s1 (accountsOf (cg_leaders body) s1))
    end.

Record CreateSubgroupBody := mkCreateSubgroupBody {
  cs_name : option string;
  cs_description : option string;
  cs_parentGroup : option ObjectId;
  cs_leaders : option (list ObjectId);
  cs_meetingDay : option string;
  cs_meetingTime : option string;
  cs_meetingLocation : option string
}.

(** [new Subgroup({...})] and the validation of its [save]: [name],
    [parentGroup] and [church] are required. *)
Definition newSubgroup (body : CreateSubgroupBody) (parentGroup : option ObjectId)
    (createdBy : ObjectId) (church : option ObjectId) : option Subgroup.doc :=
  match requiredTrimmed (cs_name body), parentGroup, church,
        enumOrDefault meetingDayEnum "sunday" (cs_meetingDay body) with
  | Some name, Some parent, Some c, Some day =>
      Some (Subgroup.mk name (trim <$> cs_description body) parent
              (default [] (cs_leaders body)) day
              (trim <$> cs_meetingTime body)
              (trim <$> cs_meetingLocation body) true createdBy c)
  | _, _, _, _ => None
  end.

(** The part the two creating routes share: the [save] of the subgroup
    and the loop that pushes its id onto the [subgroupLeaderships] of the
    leaders' accounts. *)
Definition saveSubgroup (user : ReqUser.t) (body : CreateSubgroupBody)
    (parentGroup : option ObjectId) (s : Store)
    : Response (ObjectId * Subgroup.doc) * Store :=
  match newSubgroup body parentGroup (ReqUser._id user) (ReqUser.church user) with
  | None => (Status 400 "Subgroup validation failed", s)
  | Some subgroup =>
      let _id := fresh (dom (subgroups s)) in
      let s1 := set_subgroups (save _id subgroup) s in
      (Json (_id, subgroup),
       foldl (λ acc iu,
                set_churchUsers
                  (save iu.1
                     (ChurchUser.set_subgroupLeaderships
                        (push (ChurchUser.subgroupLeaderships iu.2) _id) iu.2))
                  acc)
             s1 (accountsOf (cs_leaders body) s1))
  end.

(** [POST /api/subgroups] *)
Definition createSubgroup (user : ReqUser.t) (body : CreateSubgroupBody)
    (s : Store) : Response (ObjectId * Subgroup.doc) * Store :=
  match cs_parentGroup body ≫= λ g, findById g (groups s) with
  | None => (Status 404 "Parent group not found", s)
  | Some _ =>
      let isGroupLeader :=
        match cs_parentGroup body with
        | Some g => includes (ReqUser.groupLeaderships user) (HexString g)
        | None => false
        end in
      if negb (isAdmin user) && negb isGroupLeader
      then (Status 403 "Not authorized to create subgroups for this group", s)
      else saveSubgroup user body (cs_parentGroup body) s
  end.

(** [POST /api/groups/:id/subgroups]; a [parentGroup] in the body is not
    read. *)
Definition createSubgroupOfGroup (user : ReqUser.t) (id : ObjectId)
    (body : CreateSubgroupBody) (s : Store)
    : Response (ObjectId * Subgroup.doc) * Store :=
  if negb (authorizeGroupAccess user (HexString id))
  then (Status 403 "Not authorized to create subgroups for this group", s)
  else saveSubgroup user body (Some id) s.

(** ** Accounts *)

(** [churchUserSchema.methods.isGroupLeaderFor] *)
Definition isGroupLeaderFor (groupId : ObjectId) (u : ChurchUser.doc) : bool :=
  existsb (λ id, bool_decide (id = groupId)) (ChurchUser.groupLeaderships u).

(** [churchUserSchema.methods.isSubgroupLeaderFor] *)
Definition isSubgroupLeaderFor (subgroupId : ObjectId) (u : ChurchUser.doc) : bool :=
  existsb (λ id, bool_decide (id = subgroupId)) (ChurchUser.subgroupLeaderships u).

(** [churchUserSchema.methods.addSubgroupLeadership]: the document that
    [this.save()] writes. *)
Definition addSubgroupLeadership (subgroupId : ObjectId) (u : ChurchUser.doc)
    : ChurchUser.doc :=
  if negb (mongooseIncludes (ChurchUser.subgroupLeaderships u) subgroupId)
  then ChurchUser.set_subgroupLeaderships
         (push (ChurchUser.subgroupLeaderships u) subgroupId) u
  else u.

(** [Object.values(ROLES)], the enum of the account's [role]. *)
Definition ROLES : list string :=
  ["admin"; "user"; "event_manager"; "team_lead"; "check_in_staff";
   "group_leader"; "group_admin"].

(** [ROLE_PERMISSIONS] of [models/churchUser.js], from which the
    [pre('save')] hook fills [permissions]. *)
Definition ROLE_PERMISSIONS (role : string) : option (list string) :=
  if decide (role = "admin") then
    Some ["manage_users"; "manage_people"; "manage_households";
          "manage_events"; "manage_teams"; "manage_groups"; "view_people";
          "view_households"; "view_events"; "view_groups"; "perform_check_in"]
  else if decide (role = "event_manager") then
    Some ["manage_events"; "manage_teams"; "view_events"; "view_people";
          "perform_check_in"]
  else if decide (role = "team_lead") then
    Some ["manage_teams"; "view_events"; "view_people"]
  else if decide (role = "group_leader") then
    Some ["manage_group_members"; "view_groups"; "view_people"]
  else if decide (role = "group_admin") then
    Some ["manage_groups"; "manage_group_members"; "view_groups"; "view_people"]
  else if decide (role = "check_in_staff") then
    Some ["view_events"; "perform_check_in"]
  else if decide (role = "user") then
    Some ["view_events"; "view_groups"]
  else None.

(** [this.permissions = ROLE_PERMISSIONS[this.role] || []] *)
Definition rolePermissions (role : string) : list string :=
  default [] (ROLE_PERMISSIONS role).

(** [POST /api/auth/login], as the request user that the [auth]
    middleware builds from the token it signs: the payload carries the
    account's id, role and permissions and the ids of the populated
    leadership lists ([populate] drops references to documents that are
    not stored), and no [church]. *)
Definition login (username password : string) (s : Store) : Response ReqUser.t :=
  match findOne (λ u, bool_decide (ChurchUser.username u = username))
                (churchUsers s) with
  | None => Status 401 "User not found"
  | Some (uid, user) =>
      if negb (bool_decide (ChurchUser.password user = password))
      then Status 401 "Invalid password"
      else
        Json (ReqUser.mk uid (ChurchUser.role user) (ChurchUser.permissions user)
                (filter (λ g, is_Some (groups s !! g))
                   (ChurchUser.groupLeaderships user))
                (filter (λ sg, is_Some (subgroups s !! sg))
                   (ChurchUser.subgroupLeaderships user))
                None)
  end.


(** [DELETE /api/church-users/:id], behind [auth] only. *)
Definition deleteUser (id : ObjectId) (s : Store) : Response string * Store :=
  match findById id (churchUsers s) with
  | None => (Status 404 "User not found", s)
  | Some _ =>
      (Json "User deleted successfully", set_churchUsers (deleteOne id) s)
  end.

(** ** People *)

(** [DELETE /api/people/:id]: the memberships go first, then the person
    is looked up and deleted. *)
Definition deletePerson (id : ObjectId) (s : Store) : Response string * Store :=
  let s1 :=
    set_groupMembers
      (deleteMany (λ m, bool_decide (GroupMember.person m = id))) s in
  match findById id (people s1) with
  | None => (Status 404 "Person not found", s1)
  | Some _ =>
      (Json "Person deleted successfully",
       mkStore (groups s1) (subgroups s1) (groupMembers s1) (churchUsers s1)
               (deleteOne id (people s1)))
  end.

(** An entry of [asMember] in the answer of [GET /api/people/:id/groups];
    a populated document is represented by its id, a reference that does
    not resolve by [None]. *)
Record Membership := mkMembership {
  ms_group : option ObjectId;
  ms_subgroup : option ObjectId;
  ms_role : string;
  ms_joinDate : Z
}.

Record PersonGroups := mkPersonGroups {
  asMember : list Membership;
  asLeader : list ObjectId;
  asSubgroupLeader : list ObjectId
}.

(** [GET /api/people/:id/groups].  [asLeader] and [asSubgroupLeader] are
    the virtual populates of the Person schema: the groups and subgroups
    whose [leaders] hold the person. *)
Definition personGroups (id : ObjectId) (s : Store) : Response PersonGroups :=
  match findById id (people s) with
  | None => Status 404 "Person not found"
  | Some _ =>
      Json (mkPersonGroups
              ((λ im : ObjectId * GroupMember.doc,
                  mkMembership
                    (if bool_decide (is_Some (groups s !! GroupMember.group im.2))
                     then Some (GroupMember.group im.2) else None)
                    (GroupMember.subgroup im.2 ≫= λ sg,
                       if bool_decide (is_Some (subgroups s !! sg))
                       then Some sg else None)
                    (GroupMember.role im.2) (GroupMember.joinDate im.2))
                 <$> find (λ m, bool_decide (GroupMember.person m = id))
                       (groupMembers s))
              ((find (λ g, bool_decide (id ∈ Group.leaders g)) (groups s)).*1)
              ((find (λ sg, bool_decide (id ∈ Subgroup.leaders sg)) (subgroups s)).*1))
  end.

(** ** Statement predicates and requests for the further properties *)

(** The request user of the leader of "Youth": not an admin, listed as
    leader of group 1. *)
Definition youthLeaderToken : ReqUser.t :=
  ReqUser.mk 5 "group_leader"
    ["manage_group_members"; "view_groups"; "view_people"] [1] [] (Some 900).

(** Store [s'] differs from [s] at most in attendance entries added at
    the end: the other collections are equal, the same members are
    stored, and each member has the attendance it had followed by entries
    for [date]; members that do not satisfy [q] got none. *)
Definition attendanceGrown (date : option Z) (q : GroupMember.doc → Prop)
    (s s' : Store) : Prop :=
  groups s' = groups s ∧ subgroups s' = subgroups s ∧
  churchUsers s' = churchUsers s ∧ people s' = people s ∧
  ∀ i,
    match groupMembers s !! i with
    | Some m =>
        ∃ suffix,
          groupMembers s' !! i =
            Some (GroupMember.set_attendance
                    (GroupMember.attendance m ++ suffix)%list m) ∧
          Forall (λ e, Some (Attendance.date e) = date) suffix ∧
          (suffix ≠ [] → q m)
    | None => groupMembers s' !! i = None
    end.

(** The members the attendance route of group [id] may touch for [user]. *)
Definition inGroupOfCaller (user : ReqUser.t) (id : ObjectId)
    (m : GroupMember.doc) : Prop :=
  GroupMember.group m = id ∧ Some (GroupMember.church m) = ReqUser.church user.

(** Church user 6 leads the "Worship Team" subgroup and nothing else. *)
Definition teamLeader : ChurchUser.doc :=
  ChurchUser.mk 51 "u2" "secret" "user" ["view_events"; "view_groups"] [] [] [10].

(** The congregation with that account added. *)
Definition congregationWithTeamLeader : Store :=
  set_churchUsers (save 6 teamLeader) congregation.

(** The request user of a subgroup leader: not an admin, listed as leader
    of subgroup 10 only. *)
Definition teamLeaderToken : ReqUser.t :=
  ReqUser.mk 6 "user" ["view_events"; "view_groups"] [] [10] (Some 900).

(** Member [i] is the only stored membership of its person. *)
Definition onlyMembershipOf (i : ObjectId) (m : GroupMember.doc) (s : Store) : Prop :=
  groupMembers s !! i = Some m ∧
  ∀ j m', groupMembers s !! j = Some m' →
          GroupMember.person m' = GroupMember.person m → j = i.

(** The congregation with member 7 outside any subgroup. *)
Definition member51Plain : GroupMember.doc := GroupMember.set_subgroup None member51.
Definition congregationPlain : Store :=
  set_groupMembers (save 7 member51Plain) congregation.

(** No two accounts belong to the same person. *)
Definition distinctPersons (s : Store) : Prop :=
  ∀ i j u v,
    churchUsers s !! i = Some u → churchUsers s !! j = Some v →
    ChurchUser.person u = ChurchUser.person v → i = j.

(** Every group an account lists in [groupLeaderships] is stored. *)
Definition leadershipsStored (s : Store) : Prop :=
  ∀ i u g,
    churchUsers s !! i = Some u → g ∈ ChurchUser.groupLeaderships u →
    is_Some (groups s !! g).

(** The leadership lists are consistent: they mirror each other, accounts
    have distinct persons and list stored groups only. *)
Definition leadershipConsistent (s : Store) : Prop :=
  leadershipMirror s ∧ distinctPersons s ∧ leadershipsStored s.

(** A body for a new group with a name and leaders only. *)
Definition namedGroupBody (name : string) (leaders : list ObjectId)
    : CreateGroupBody :=
  mkCreateGroupBody (Some name) None None None None None None None (Some leaders).

(** A body for a new subgroup with a name and a parent only. *)
Definition namedSubgroupBody (name : string) (parent : ObjectId)
    : CreateSubgroupBody :=
  mkCreateSubgroupBody (Some name) None (Some parent) None None None None.

(** The user name is that of one account only. *)
Definition usernameOf (userId : ObjectId) (u : ChurchUser.doc) (s : Store) : Prop :=
  churchUsers s !! userId = Some u ∧
  ∀ j v, churchUsers s !! j = Some v →
         ChurchUser.username v = ChurchUser.username u → j = userId.

(** A body of a group update without any field. *)
Definition emptyGroupBody : UpdateGroupBody :=
  mkUpdateGroupBody None None None None None None None None None None.

(** The request user of a group administrator whose permissions are those
    of the role. *)
Definition groupAdminToken : ReqUser.t :=
  ReqUser.mk 8 "group_admin" (rolePermissions "group_admin") [] [] None.

(** Case analysis on a role string against one name of the tables. *)
Ltac role_case role name :=
  destruct (decide (role = name)) as [->|?];
  [ | unfold rolePermissions, ROLE_PERMISSIONS, hasPermission, PERMISSIONS in *;
      rewrite ?(decide_False (P := role = name)) in * by done ].

(** A body for a new subgroup of "Youth" led by persons 50 and 51. *)
Definition ledSubgroupBody : CreateSubgroupBody :=
  mkCreateSubgroupBody (Some "Band") None None (Some [50; 51]) None None None.
(** * Properties *)

(** ** The model operations *)

Section ModelFacts.
Context {D : Type}.
Implicit Types (c : gmap ObjectId D) (q : D → bool).

Lemma elem_of_find q c i d :
  (i, d) ∈ find q c ↔ c !! i = Some d ∧ q d = true.
Proof.
  unfold find. rewrite elem_of_map_to_list, map_lookup_filter_Some.
  naive_solver.
Qed.

Lemma NoDup_fst_find q c : NoDup (find q c).*1.
Proof. apply NoDup_fst_map_to_list. Qed.

Lemma findOne_Some q c i d :
  findOne q c = Some (i, d) → c !! i = Some d ∧ q d = true.
Proof.
  unfold findOne. intros Hhd. apply elem_of_find.
  destruct (find q c) as [|x l]; [done|].
  simpl in Hhd. injection Hhd as ->. left.
Qed.

Lemma findOne_None q c :
  findOne q c = None ↔ ∀ i d, c !! i = Some d → q d = false.
Proof.
  unfold findOne. split.
  - intros Hhd i d Hi. destruct (q d) eqn:Hq; [|done].
    assert ((i, d) ∈ find q c) as Hin by (by apply elem_of_find).
    destruct (find q c); [by apply elem_of_nil in Hin | done].
  - intros Hall. destruct (find q c) as [|[i d] l] eqn:Hf; [done|].
    assert ((i, d) ∈ find q c) as [Hi Hq]%elem_of_find by (rewrite Hf; left).
    rewrite (Hall _ _ Hi) in Hq. done.
Qed.

Lemma lookup_deleteMany q c i d :
  deleteMany q c !! i = Some d ↔ c !! i = Some d ∧ q d = false.
Proof. unfold deleteMany. by rewrite map_lookup_filter_Some. Qed.

Lemma lookup_updateMany q (u : D → D) c i :
  updateMany q u c !! i = (λ d, if q d then u d else d) <$> c !! i.
Proof. unfold updateMany. by rewrite lookup_fmap. Qed.

Lemma save_same id d c : c !! id = Some d → save id d c = c.
Proof. apply insert_id. Qed.
End ModelFacts.

Lemma not_elem_of_pull x l : x ∉ pull x l.
Proof. unfold pull. intros [Hne _]%list_elem_of_filter. by apply Hne. Qed.

(** ** Deleting a group *)

Lemma beforeGroupDelete_noDependents id s :
  noDependents id (beforeGroupDelete id s).
Proof.
  unfold beforeGroupDelete, noDependents; simpl. repeat split.
  - intros i sg [_ Hq]%lookup_deleteMany. by apply bool_decide_eq_false in Hq.
  - intros i m [_ Hq]%lookup_deleteMany. by apply bool_decide_eq_false in Hq.
  - intros i u. rewrite lookup_updateMany.
    destruct (churchUsers s !! i) as [u0|]; [|done]. simpl.
    intros [= <-]. case_bool_decide as Hin; [|done].
    simpl. apply not_elem_of_pull.
Qed.

Lemma deleteGroup_succeeds user id g s :
  hasPermission (ReqUser.role user) "manage_groups" = true →
  groups s !! id = Some g →
  Group.church g = ReqUser.church user →
  deleteGroup user id s = (Json "Group deleted", writes (deleteGroupWrites id) s).
Proof.
  intros Hperm Hg Hch. unfold deleteGroup, findOneById.
  rewrite Hperm, Hg. simpl. by rewrite bool_decide_eq_true_2.
Qed.

Lemma deleteGroup_success user id s msg s' :
  deleteGroup user id s = (Json msg, s') →
  msg = "Group deleted" ∧ s' = writes (deleteGroupWrites id) s ∧
  hasPermission (ReqUser.role user) "manage_groups" = true ∧
  ∃ g, groups s !! id = Some g ∧ Group.church g = ReqUser.church user.
Proof.
  unfold deleteGroup, findOneById.
  destruct (hasPermission _ _); simpl; [|done].
  destruct (groups s !! id) as [g|] eqn:Hg; [|done].
  case_bool_decide; [|done]. intros [= <- <-]. split_and!; try done.
  by exists g.
Qed.

(** C1.  For a caller with the [manage_groups] permission and a group
    stored in the caller's church, [DELETE /api/groups/:id] answers with
    success, and the store it leaves has no Subgroup whose parentGroup is
    the group, no GroupMember whose group is the group, no ChurchUser whose
    groupLeaderships holds the group, and no Group document under that id.
    The handler's writes are the three dependent clean-ups followed by the
    deletion of the group: in the store just before that last write the
    dependents are already gone while the group document is still there. *)
Theorem deleteGroup_cascade user id g s :
  hasPermission (ReqUser.role user) "manage_groups" = true →
  groups s !! id = Some g →
  Group.church g = ReqUser.church user →
  ∃ s',
    deleteGroup user id s = (Json "Group deleted", s') ∧
    noDependents id s' ∧
    groups s' !! id = None ∧
    deleteGroupWrites id =
      ([ SubgroupDeleteManyByParent id; GroupMemberDeleteManyByGroup id;
         ChurchUserPullGroupLeadership id ] ++ [ GroupDeleteOne id ])%list ∧
    s' = write (GroupDeleteOne id) (beforeGroupDelete id s) ∧
    noDependents id (beforeGroupDelete id s) ∧
    groups (beforeGroupDelete id s) !! id = Some g.
Proof.
  intros Hperm Hg Hch. exists (writes (deleteGroupWrites id) s).
  pose proof (beforeGroupDelete_noDependents id s) as Hdep.
  split; [by apply (deleteGroup_succeeds _ _ g)|].
  split; [exact Hdep|].
  split; [simpl; unfold deleteOne; apply lookup_delete_eq|].
  split; [reflexivity|]. split; [reflexivity|]. split; [exact Hdep|].
  exact Hg.
Qed.

Lemma deleteGroup_cascade_witness :
  ∃ s',
    deleteGroup theAdmin 1 congregation = (Json "Group deleted", s') ∧
    noDependents 1 s' ∧
    groups s' !! 1 = None ∧
    noDependents 1 (beforeGroupDelete 1 congregation) ∧
    groups (beforeGroupDelete 1 congregation) !! 1 = Some youth.
Proof.
  destruct (deleteGroup_cascade theAdmin 1 youth congregation)
    as (s' & Hdel & Hdep & Hgone & _ & _ & Hbefore & Hstill);
    [reflexivity | reflexivity | reflexivity |].
  exists s'. split; [exact Hdel|]. split; [exact Hdep|].
  split; [exact Hgone|]. split; [exact Hbefore | exact Hstill].
Defined.

(** ** Deleting a subgroup *)

Lemma deleteSubgroup_members user id s msg s' :
  deleteSubgroup user id s = (Json msg, s') →
  groupMembers s' =
    updateMany (λ m, bool_decide (GroupMember.subgroup m = Some id))
      (GroupMember.set_subgroup None) (groupMembers s).
Proof.
  unfold deleteSubgroup, findById.
  destruct (subgroups s !! id) as [sg|]; [|done].
  destruct (negb (isAdmin user) && _); [done|].
  by intros [= _ <-].
Qed.

Lemma deleteSubgroup_succeeds user id sg s :
  subgroups s !! id = Some sg →
  isAdmin user = true ∨
    includes (ReqUser.groupLeaderships user)
      (HexString (Subgroup.parentGroup sg)) = true →
  deleteSubgroup user id s
    = (Json "Subgroup deleted", writes (deleteSubgroupWrites id) s).
Proof.
  intros Hsg Hacc. unfold deleteSubgroup, findById. rewrite Hsg.
  by destruct Hacc as [-> | ->]; [|rewrite andb_false_r].
Qed.

(** C2.  For a stored subgroup and a caller who is admin, holds
    [manage_groups] or leads the parent group, [DELETE /api/subgroups/:id]
    answers with success; every GroupMember that referred to the subgroup
    is still stored under the same id, with [subgroup] cleared and with
    person, group, role, joinDate, isActive, notes, attendance and church
    as before; every other GroupMember is untouched and none is added.
    The [pre('remove')] hook of the Subgroup schema leaves the same
    memberships. *)
Theorem deleteSubgroup_keeps_members user id sg s :
  subgroups s !! id = Some sg →
  isAdmin user = true ∨
    includes (ReqUser.groupLeaderships user)
      (HexString (Subgroup.parentGroup sg)) = true →
  ∃ s',
    deleteSubgroup user id s = (Json "Subgroup deleted", s') ∧
    (∀ i m, groupMembers s !! i = Some m →
       GroupMember.subgroup m = Some id →
       groupMembers s' !! i =
         Some (GroupMember.mk (GroupMember.person m) (GroupMember.group m) None
                 (GroupMember.role m) (GroupMember.joinDate m)
                 (GroupMember.isActive m) (GroupMember.notes m)
                 (GroupMember.attendance m) (GroupMember.church m))) ∧
    (∀ i m, groupMembers s !! i = Some m →
       GroupMember.subgroup m ≠ Some id →
       groupMembers s' !! i = Some m) ∧
    (∀ i, groupMembers s !! i = None → groupMembers s' !! i = None) ∧
    groupMembers s' = groupMembers (subgroupPreRemove id s).
Proof.
  intros Hsg Hacc. exists (writes (deleteSubgroupWrites id) s).
  pose proof (deleteSubgroup_succeeds _ _ _ _ Hsg Hacc) as Hdel.
  split; [exact Hdel|]. rewrite (deleteSubgroup_members _ _ _ _ _ Hdel).
  split; [|split; [|split]].
  - intros i m Hm Hsgm. rewrite lookup_updateMany, Hm. simpl.
    by rewrite bool_decide_eq_true_2.
  - intros i m Hm Hsgm. rewrite lookup_updateMany, Hm. simpl.
    by rewrite bool_decide_eq_false_2.
  - intros i Hm. by rewrite lookup_updateMany, Hm.
  - reflexivity.
Qed.

Lemma deleteSubgroup_keeps_members_witness :
  ∃ s',
    deleteSubgroup theAdmin 10 congregation = (Json "Subgroup deleted", s') ∧
    groupMembers s' !! 7 =
      Some (GroupMember.mk 51 1 None "member" 0 true None [] 900).
Proof.
  destruct (deleteSubgroup_keeps_members theAdmin 10 worshipTeam congregation)
    as (s' & Hdel & Hcleared & _); [reflexivity | by left |].
  exists s'. split; [exact Hdel|].
  apply (Hcleared 7 member51); reflexivity.
Defined.

(** ** Adding a member *)

Lemma existing_member_found p g s :
  hasMembership p g s →
  ∃ x, findOne (λ m, bool_decide (Some (GroupMember.person m) = Some p)
                     && bool_decide (GroupMember.group m = g))
         (groupMembers s) = Some x.
Proof.
  intros (i & m & Hm & Hp & Hg).
  destruct (findOne _ _) as [x|] eqn:Hf; [by exists x|].
  rewrite findOne_None in Hf. specialize (Hf i m Hm).
  rewrite Hp, Hg, !bool_decide_eq_true_2 in Hf; done.
Qed.

Lemma addMember_duplicate now user id body p s :
  hasMembership p id s →
  personId body = Some p →
  authorizeGroupAccess user (HexString id) = true →
  addMember now user id body s = (DuplicateMembership, s).
Proof.
  intros Hmem Hp Hauth. unfold addMember. rewrite Hauth, Hp. simpl.
  destruct (existing_member_found _ _ _ Hmem) as [x ->]. done.
Qed.

Lemma addMember_fails_unchanged now user id body s code msg s' :
  addMember now user id body s = (Status code msg, s') → s' = s.
Proof.
  unfold addMember.
  destruct (negb _); [by intros [= _ _ <-]|].
  destruct (findOne _ _); [by intros [= _ _ <-]|].
  destruct (newGroupMember _ _ _ _ _ _); [|by intros [= _ _ <-]].
  destruct (uniqueIndexFree _ _); [done|by intros [= _ _ <-]].
Qed.

Lemma addMember_existing_fails now user id body p s :
  hasMembership p id s →
  personId body = Some p →
  ∃ code msg, addMember now user id body s = (Status code msg, s).
Proof.
  intros Hmem Hp.
  destruct (authorizeGroupAccess user (HexString id)) eqn:Hauth.
  - eexists _, _. by apply (addMember_duplicate _ _ _ _ p).
  - unfold addMember. rewrite Hauth. simpl. by eexists _, _.
Qed.

Lemma newGroupMember_fields now person group subgroup role church m :
  newGroupMember now person group subgroup role church = Some m →
  person = Some (GroupMember.person m) ∧ GroupMember.group m = group ∧
  GroupMember.subgroup m = subgroup ∧ GroupMember.role m = role ∧
  church = Some (GroupMember.church m) ∧ GroupMember.attendance m = [].
Proof.
  unfold newGroupMember. destruct person, church; try done.
  case_bool_decide; [|done]. by intros [= <-].
Qed.

Lemma addMember_created now user id body s r s' :
  addMember now user id body s = (Json r, s') →
  personId body = Some (GroupMember.person r.2) ∧
  GroupMember.group r.2 = id ∧
  GroupMember.subgroup r.2 = subgroupId body ∧
  ¬ hasMembership (GroupMember.person r.2) id s ∧
  groupMembers s !! r.1 = None ∧
  s' = set_groupMembers (save r.1 r.2) s.
Proof.
  unfold addMember.
  destruct (negb _); [done|].
  destruct (findOne _ _) eqn:Hf; [done|].
  destruct (newGroupMember _ _ _ _ _ _) as [m|] eqn:Hnew; [|done].
  destruct (uniqueIndexFree _ _); [|done].
  intros [= <- <-]. simpl.
  apply newGroupMember_fields in Hnew as (Hp & Hg & Hsg & _).
  split_and!; try done.
  - intros (i & m' & Hm' & Hp' & Hg').
    rewrite findOne_None in Hf. specialize (Hf i m' Hm').
    rewrite Hp, Hp', Hg', !bool_decide_eq_true_2 in Hf; done.
  - apply not_elem_of_dom, is_fresh.
Qed.

Lemma no_membership_not_found p g s :
  ¬ hasMembership p g s →
  findOne (λ m, bool_decide (GroupMember.person m = p)
                && bool_decide (GroupMember.group m = g))
    (groupMembers s) = None.
Proof.
  intros Hno. apply findOne_None. intros i m Hm.
  apply not_true_is_false. intros [Hp Hg]%andb_true_iff.
  apply bool_decide_eq_true in Hp, Hg. apply Hno. by exists i, m.
Qed.

Lemma addMember_succeeds now user id body p c s :
  authorizeGroupAccess user (HexString id) = true →
  personId body = Some p →
  ReqUser.church user = Some c →
  orDefault (role body) "member" ∈ GroupMember.roleEnum →
  ¬ hasMembership p id s →
  let i := fresh (dom (groupMembers s)) in
  let m := GroupMember.mk p id (subgroupId body) (orDefault (role body) "member")
             now true None [] c in
  addMember now user id body s = (Json (i, m), set_groupMembers (save i m) s) ∧
  groupMembers s !! i = None.
Proof.
  intros Hauth Hp Hc Hrole Hno i m. split; [|apply not_elem_of_dom, is_fresh].
  unfold addMember, newGroupMember, uniqueIndexFree.
  rewrite Hauth, Hp, Hc. simpl.
  assert (findOne (λ m', bool_decide (Some (GroupMember.person m') = Some p)
                         && bool_decide (GroupMember.group m' = id))
            (groupMembers s) = None) as ->.
  { apply findOne_None. intros j m' Hm'.
    apply not_true_is_false. intros [Hp' Hg']%andb_true_iff.
    apply bool_decide_eq_true in Hp', Hg'. apply Hno. exists j, m'.
    by simplify_eq. }
  rewrite (bool_decide_eq_true_2 _ Hrole). simpl.
  by rewrite (no_membership_not_found _ _ _ Hno).
Qed.

(** C3.  For a person without a membership in the group, a caller who
    passes the access check and whose token names a church, and a role of
    the enum, [POST /api/groups/:id/members] succeeds and stores exactly
    one new GroupMember for that person and group.  From then on, in every
    store that holds a membership of the person in the group, a further
    call for the same person and group never succeeds and leaves the store
    as it is; for a caller who passes the access check the answer is
    DuplicateMembership. *)
Theorem addMember_at_most_once now user id body p c s :
  authorizeGroupAccess user (HexString id) = true →
  personId body = Some p →
  ReqUser.church user = Some c →
  orDefault (role body) "member" ∈ GroupMember.roleEnum →
  ¬ hasMembership p id s →
  ∃ i m s',
    addMember now user id body s = (Json (i, m), s') ∧
    groupMembers s !! i = None ∧
    groupMembers s' = <[i := m]> (groupMembers s) ∧
    GroupMember.person m = p ∧ GroupMember.group m = id ∧
    hasMembership p id s' ∧
    ∀ t now2 user2 body2,
      hasMembership p id t →
      personId body2 = Some p →
      (∃ code msg, addMember now2 user2 id body2 t = (Status code msg, t)) ∧
      (authorizeGroupAccess user2 (HexString id) = true →
       addMember now2 user2 id body2 t = (DuplicateMembership, t)).
Proof.
  intros Hauth Hp Hc Hrole Hno.
  destruct (addMember_succeeds now user id body p c s) as [Hadd Hfresh];
    try done.
  eexists _, _, _. split; [exact Hadd|]. split_and!; try done.
  - eexists _, _. simpl. unfold save. by rewrite lookup_insert_eq.
  - intros t now2 user2 body2 Hmem Hp2. split.
    + by apply (addMember_existing_fails _ _ _ _ p).
    + intros Hauth2. by apply (addMember_duplicate _ _ _ _ p).
Qed.

Lemma addMember_at_most_once_witness :
  ∃ i m,
    addMember 0 theAdmin 1 (mkAddMemberBody (Some 52) None None) congregation
      = (Json (i, m), afterFirstAdd) ∧
    hasMembership 52 1 afterFirstAdd ∧
    addMember 1 theAdmin 1 (mkAddMemberBody (Some 52) None (Some "leader"))
      afterFirstAdd
      = (DuplicateMembership, afterFirstAdd).
Proof.
  destruct (addMember_at_most_once 0 theAdmin 1
              (mkAddMemberBody (Some 52) None None) 52 900 congregation)
    as (i & m & s' & Hadd & _ & _ & _ & _ & Hmem & Hnext).
  - reflexivity.
  - reflexivity.
  - reflexivity.
  - left.
  - intros (j & m' & Hm' & Hp' & _). simpl in Hm'.
    apply lookup_singleton_Some in Hm' as [_ <-]. discriminate Hp'.
  - assert (s' = afterFirstAdd) as ->
      by (unfold afterFirstAdd; by rewrite Hadd).
    exists i, m. split; [exact Hadd|]. split; [exact Hmem|].
    apply (Hnext afterFirstAdd 1%Z theAdmin _ Hmem); reflexivity.
Defined.

(** ** Subgroup assignment *)

Lemma addMember_never_InvalidSubgroupAssignment now user id body s :
  (addMember now user id body s).1 ≠ InvalidSubgroupAssignment.
Proof.
  unfold addMember.
  destruct (negb _); [done|].
  destruct (findOne _ _); [done|].
  destruct (newGroupMember _ _ _ _ _ _); [|done].
  by destruct (uniqueIndexFree _ _).
Qed.

Lemma addToSubgroup_refuses user sgid sg q s :
  authorizeSubgroupAccess user sgid s = true →
  subgroups s !! sgid = Some sg →
  ¬ hasMembership q (Subgroup.parentGroup sg) s →
  addToSubgroup user sgid q s = (InvalidSubgroupAssignment, s).
Proof.
  intros Hsauth Hsg Hno. unfold addToSubgroup, findById.
  rewrite Hsauth, Hsg. simpl. by rewrite (no_membership_not_found _ _ _ Hno).
Qed.

Lemma addToSubgroup_accepts user sgid sg q s :
  authorizeSubgroupAccess user sgid s = true →
  subgroups s !! sgid = Some sg →
  hasMembership q (Subgroup.parentGroup sg) s →
  ∃ i m,
    groupMembers s !! i = Some m ∧
    GroupMember.person m = q ∧
    GroupMember.group m = Subgroup.parentGroup sg ∧
    addToSubgroup user sgid q s =
      (Json (i, GroupMember.set_subgroup (Some sgid) m),
       set_groupMembers (save i (GroupMember.set_subgroup (Some sgid) m)) s).
Proof.
  intros Hsauth Hsg (j & m' & Hm' & Hp' & Hg').
  unfold addToSubgroup, findById. rewrite Hsauth, Hsg. simpl.
  destruct (findOne _ _) as [[i m]|] eqn:Hf.
  - apply findOne_Some in Hf as [Hm [Hp Hg]%andb_true_iff].
    apply bool_decide_eq_true in Hp, Hg. by exists i, m.
  - rewrite findOne_None in Hf. specialize (Hf j m' Hm').
    by rewrite Hp', Hg', !bool_decide_eq_true_2 in Hf.
Qed.

(** C4, as the code has it.  [POST /api/groups/:id/members] does not look
    at the subgroup it is given: for a caller who passes the access check
    and whose token names a church, a person without a membership in the
    group and a role of the enum, the call succeeds and stores the new
    membership with [subgroup] set to the given id, whatever memberships
    the person has in that subgroup's parent group.  The rule is enforced
    where an existing member is put into a subgroup,
    [POST /api/subgroups/:id/members/:personId]: a person without a
    membership in the subgroup's parent group is refused with
    InvalidSubgroupAssignment and the store stays as it is; a person with
    one gets that membership's [subgroup] set. *)
Theorem subgroup_rule_at_assignment_only now user id body p c sgid sg s :
  authorizeGroupAccess user (HexString id) = true →
  personId body = Some p →
  subgroupId body = Some sgid →
  ReqUser.church user = Some c →
  orDefault (role body) "member" ∈ GroupMember.roleEnum →
  ¬ hasMembership p id s →
  subgroups s !! sgid = Some sg →
  authorizeSubgroupAccess user sgid s = true →
  (∃ i m,
     addMember now user id body s = (Json (i, m), set_groupMembers (save i m) s) ∧
     groupMembers s !! i = None ∧
     GroupMember.person m = p ∧ GroupMember.group m = id ∧
     GroupMember.subgroup m = Some sgid) ∧
  ∀ q,
    (¬ hasMembership q (Subgroup.parentGroup sg) s →
     addToSubgroup user sgid q s = (InvalidSubgroupAssignment, s)) ∧
    (hasMembership q (Subgroup.parentGroup sg) s →
     ∃ i m,
       groupMembers s !! i = Some m ∧
       GroupMember.person m = q ∧
       GroupMember.group m = Subgroup.parentGroup sg ∧
       addToSubgroup user sgid q s =
         (Json (i, GroupMember.set_subgroup (Some sgid) m),
          set_groupMembers (save i (GroupMember.set_subgroup (Some sgid) m)) s)).
Proof.
  intros Hauth Hp Hsgid Hc Hrole Hno Hsg Hsauth. split.
  - destruct (addMember_succeeds now user id body p c s) as [Hadd Hfresh]; try done.
    eexists _, _. split; [exact Hadd|]. by rewrite Hsgid.
  - intros q. split.
    + by apply addToSubgroup_refuses.
    + by apply addToSubgroup_accepts.
Qed.

Lemma congregation_no_membership_52 g : ¬ hasMembership 52 g congregation.
Proof.
  intros (i & m & Hm & Hp & _). simpl in Hm.
  apply lookup_singleton_Some in Hm as [_ <-]. discriminate Hp.
Qed.

Lemma subgroup_rule_at_assignment_only_witness :
  (∃ i m,
     addMember 0 theAdmin 1 (mkAddMemberBody (Some 52) (Some 10) None) congregation
       = (Json (i, m), set_groupMembers (save i m) congregation) ∧
     groupMembers congregation !! i = None ∧
     GroupMember.person m = 52 ∧ GroupMember.group m = 1 ∧
     GroupMember.subgroup m = Some 10) ∧
  addToSubgroup theAdmin 10 52 congregation = (InvalidSubgroupAssignment, congregation).
Proof.
  destruct (subgroup_rule_at_assignment_only 0 theAdmin 1
              (mkAddMemberBody (Some 52) (Some 10) None) 52 900 10 worshipTeam
              congregation) as [Hadd Hassign].
  - reflexivity.
  - reflexivity.
  - reflexivity.
  - reflexivity.
  - left.
  - apply congregation_no_membership_52.
  - reflexivity.
  - reflexivity.
  - split; [exact Hadd|].
    apply (Hassign 52). apply congregation_no_membership_52.
Defined.

(** C4, counterexample.  Person 52 has no GroupMember record at all, so
    none in "Youth", the parent group of "Worship Team"; adding the person
    to "Youth" with that subgroup is answered with the created membership,
    not with InvalidSubgroupAssignment. *)
Lemma addMember_subgroup_unchecked :
  subgroups congregation !! 10 = Some worshipTeam ∧
  ¬ hasMembership 52 (Subgroup.parentGroup worshipTeam) congregation ∧
  (addMember 0 theAdmin 1 (mkAddMemberBody (Some 52) (Some 10) None) congregation).1
    ≠ InvalidSubgroupAssignment ∧
  (addMember 0 theAdmin 1 (mkAddMemberBody (Some 52) (Some 10) None) congregation).1
    = Json (8, GroupMember.mk 52 1 (Some 10) "member" 0 true None [] 900) ∧
  groupMembers
    (addMember 0 theAdmin 1 (mkAddMemberBody (Some 52) (Some 10) None) congregation).2
    !! 8 = Some (GroupMember.mk 52 1 (Some 10) "member" 0 true None [] 900).
Proof.
  split; [reflexivity|]. split; [apply congregation_no_membership_52|].
  split; [apply addMember_never_InvalidSubgroupAssignment|].
  split; vm_compute; reflexivity.
Qed.

Lemma addToSubgroup_success user sgid pid s r s' :
  addToSubgroup user sgid pid s = (Json r, s') →
  ∃ sg m,
    subgroups s !! sgid = Some sg ∧
    groupMembers s !! r.1 = Some m ∧
    GroupMember.person m = pid ∧
    GroupMember.group m = Subgroup.parentGroup sg ∧
    r.2 = GroupMember.set_subgroup (Some sgid) m ∧
    s' = set_groupMembers (save r.1 r.2) s.
Proof.
  unfold addToSubgroup, findById.
  destruct (negb _); [done|].
  destruct (subgroups s !! sgid) as [sg|]; [|done].
  destruct (findOne _ _) as [[mid m]|] eqn:Hf; [|done].
  intros [= <- <-]. apply findOne_Some in Hf as [Hm [Hp Hg]%andb_true_iff].
  apply bool_decide_eq_true in Hp, Hg. by exists sg, m.
Qed.

(** C5, as the code has it.  No handler compares a subgroup's parentGroup
    with a member's group, and no SubgroupGroupMismatch answer exists.
    [PUT /api/groups/members/:memberId] with only [subgroupId] in the
    body, for a stored member whose group is stored and a caller who
    passes the access check, stores whatever it is given: a subgroup id
    is written to [subgroup] as it is, and null or the empty string clears
    the field; the other fields stay.  [POST
    /api/subgroups/:id/members/:personId], when it succeeds, updates the
    person's membership in the subgroup's parentGroup, so the record it
    writes has that group. *)
Theorem assignSubgroup_unchecked user memberId m g sg s :
  groupMembers s !! memberId = Some m →
  groups s !! GroupMember.group m = Some g →
  authorizeGroupAccess user (ObjectIdObj (GroupMember.group m)) = true →
  updateMember user memberId (mkUpdateMemberBody (Some sg) None None None) s =
    (Json (memberId, GroupMember.set_subgroup sg m),
     set_groupMembers (save memberId (GroupMember.set_subgroup sg m)) s) ∧
  ∀ user' sgid pid r s',
    addToSubgroup user' sgid pid s = (Json r, s') →
    ∃ sgd, subgroups s !! sgid = Some sgd ∧
           GroupMember.group r.2 = Subgroup.parentGroup sgd ∧
           GroupMember.subgroup r.2 = Some sgid.
Proof.
  intros Hm Hg Hauth. split.
  - unfold updateMember, findById. rewrite Hm, Hg, Hauth. reflexivity.
  - intros user' sgid pid r s' Hadd.
    apply addToSubgroup_success in Hadd as (sgd & m' & Hsg & _ & _ & Hgrp & -> & _).
    by exists sgd.
Qed.

Lemma assignSubgroup_unchecked_witness :
  updateMember theAdmin 7 (mkUpdateMemberBody (Some None) None None None)
    congregation =
    (Json (7, GroupMember.set_subgroup None member51),
     set_groupMembers (save 7 (GroupMember.set_subgroup None member51))
       congregation).
Proof.
  apply (assignSubgroup_unchecked theAdmin 7 member51 youth None congregation);
    reflexivity.
Defined.

(** C5, counterexample.  Member 7 belongs to "Youth" (1); "Altos" (20) is
    a subgroup of "Choir" (2).  The update that assigns "Altos" to the
    member is answered with the updated record and stored. *)
Lemma assignSubgroup_mismatch_accepted :
  groupMembers congregation !! 7 = Some member51 ∧
  subgroups congregation !! 20 = Some altos ∧
  Subgroup.parentGroup altos ≠ GroupMember.group member51 ∧
  GroupMember.subgroup member51 = Some 10 ∧
  (updateMember theAdmin 7 (mkUpdateMemberBody (Some (Some 20)) None None None)
     congregation).1
    = Json (7, GroupMember.mk 51 1 (Some 20) "member" 0 true None [] 900) ∧
  groupMembers
    (updateMember theAdmin 7 (mkUpdateMemberBody (Some (Some 20)) None None None)
       congregation).2 !! 7
    = Some (GroupMember.mk 51 1 (Some 20) "member" 0 true None [] 900).
Proof.
  split; [reflexivity|]. split; [reflexivity|]. split; [discriminate|].
  split; [reflexivity|]. split; vm_compute; reflexivity.
Qed.

(** ** Group leadership *)

Lemma addGroupLeadership_elem groupId u :
  groupId ∈ ChurchUser.groupLeaderships (ChurchUser.addGroupLeadership groupId u).
Proof.
  unfold ChurchUser.addGroupLeadership, mongooseIncludes, push.
  case_bool_decide; simpl; [done|]. apply elem_of_app. right. left.
Qed.

Lemma addGroupLeadership_person groupId u :
  ChurchUser.person (ChurchUser.addGroupLeadership groupId u) = ChurchUser.person u.
Proof. unfold ChurchUser.addGroupLeadership. by destruct (negb _). Qed.

Lemma addGroupLeadership_present groupId u :
  groupId ∈ ChurchUser.groupLeaderships u →
  ChurchUser.addGroupLeadership groupId u = u.
Proof.
  intros Hin. unfold ChurchUser.addGroupLeadership, mongooseIncludes.
  by rewrite bool_decide_eq_true_2.
Qed.

(** What a successful assignment read and what it wrote. *)
Lemma assignGroupLeadership_success caller userId groupId s r s' :
  assignGroupLeadership caller userId groupId s = (Json r, s') →
  ∃ u g,
    hasPermission (ReqUser.role caller) "manage_groups" = true ∧
    churchUsers s !! userId = Some u ∧
    groups s !! groupId = Some g ∧
    r = (userId, ChurchUser.addGroupLeadership groupId u) ∧
    churchUsers s' = <[userId := ChurchUser.addGroupLeadership groupId u]> (churchUsers s) ∧
    groups s' =
      (if bool_decide (ChurchUser.person u ∈ Group.leaders g) then groups s
       else <[groupId := Group.set_leaders
                           (Group.leaders g ++ [ChurchUser.person u])%list g]> (groups s)) ∧
    subgroups s' = subgroups s ∧ groupMembers s' = groupMembers s ∧
    people s' = people s.
Proof.
  unfold assignGroupLeadership, findById.
  destruct (hasPermission _ _) eqn:Hperm; [|done]. simpl.
  destruct (churchUsers s !! userId) as [u|] eqn:Hu; [|done].
  destruct (groups s !! groupId) as [g|] eqn:Hg; [|done].
  intros [= <- <-]. exists u, g. unfold mongooseIncludes, push, save.
  by case_bool_decide.
Qed.

Lemma assignGroupLeadership_succeeds caller userId groupId u g s :
  hasPermission (ReqUser.role caller) "manage_groups" = true →
  churchUsers s !! userId = Some u →
  groups s !! groupId = Some g →
  ∃ s', assignGroupLeadership caller userId groupId s
        = (Json (userId, ChurchUser.addGroupLeadership groupId u), s').
Proof.
  intros Hperm Hu Hg. unfold assignGroupLeadership, findById.
  rewrite Hperm, Hu, Hg. simpl. by eexists.
Qed.

Lemma assignGroupLeadership_post caller userId groupId s r s' :
  assignGroupLeadership caller userId groupId s = (Json r, s') →
  ∃ u' g',
    churchUsers s' !! userId = Some u' ∧
    groups s' !! groupId = Some g' ∧
    groupId ∈ ChurchUser.groupLeaderships u' ∧
    ChurchUser.person u' ∈ Group.leaders g'.
Proof.
  intros (u & g & _ & Hu & Hg & _ & Hcu & Hgs & _)%assignGroupLeadership_success.
  rewrite Hcu, Hgs. case_bool_decide as Hin.
  - exists (ChurchUser.addGroupLeadership groupId u), g.
    rewrite lookup_insert_eq, addGroupLeadership_person.
    split_and!; try done. apply addGroupLeadership_elem.
  - eexists (ChurchUser.addGroupLeadership groupId u), _.
    rewrite !lookup_insert_eq, addGroupLeadership_person.
    split_and!; try done; [apply addGroupLeadership_elem|].
    simpl. apply elem_of_app. right. left.
Qed.

Lemma removeGroupLeadership_post caller userId groupId u g s :
  hasPermission (ReqUser.role caller) "manage_groups" = true →
  churchUsers s !! userId = Some u →
  groups s !! groupId = Some g →
  ∃ r s' u' g',
    removeGroupLeadership caller userId groupId s = (Json r, s') ∧
    churchUsers s' !! userId = Some u' ∧
    groups s' !! groupId = Some g' ∧
    ChurchUser.person u' = ChurchUser.person u ∧
    (groupId ∉ ChurchUser.groupLeaderships u') ∧
    (ChurchUser.person u' ∉ Group.leaders g').
Proof.
  intros Hperm Hu Hg. unfold removeGroupLeadership, findById.
  rewrite Hperm, Hu, Hg. simpl. eexists _, _, _, _.
  split; [reflexivity|]. unfold save. simpl. rewrite !lookup_insert_eq.
  split_and!; try done; simpl;
    intros [Hne _]%list_elem_of_filter; by apply Hne.
Qed.

(** C6.  For a caller with the [manage_groups] permission, a stored
    ChurchUser and a stored Group, the assign handler succeeds and leaves
    the group in the user's groupLeaderships and the user's person in the
    group's leaders; the remove handler succeeds and leaves neither. *)
Theorem leadership_assign_remove caller userId groupId u g s :
  hasPermission (ReqUser.role caller) "manage_groups" = true →
  churchUsers s !! userId = Some u →
  groups s !! groupId = Some g →
  (∃ r s' u' g',
     assignGroupLeadership caller userId groupId s = (Json r, s') ∧
     churchUsers s' !! userId = Some u' ∧
     groups s' !! groupId = Some g' ∧
     ChurchUser.person u' = ChurchUser.person u ∧
     groupId ∈ ChurchUser.groupLeaderships u' ∧
     ChurchUser.person u' ∈ Group.leaders g') ∧
  (∃ r s' u' g',
     removeGroupLeadership caller userId groupId s = (Json r, s') ∧
     churchUsers s' !! userId = Some u' ∧
     groups s' !! groupId = Some g' ∧
     ChurchUser.person u' = ChurchUser.person u ∧
     (groupId ∉ ChurchUser.groupLeaderships u') ∧
     (ChurchUser.person u' ∉ Group.leaders g')).
Proof.
  intros Hperm Hu Hg. split; [|by apply (removeGroupLeadership_post _ _ _ u g)].
  destruct (assignGroupLeadership_succeeds _ _ _ _ _ _ Hperm Hu Hg) as [s' Hs'].
  destruct (assignGroupLeadership_post _ _ _ _ _ _ Hs') as (u' & g' & Hu' & Hg' & H1 & H2).
  exists (userId, ChurchUser.addGroupLeadership groupId u), s', u', g'.
  split_and!; try done.
  apply assignGroupLeadership_success in Hs' as (u0 & g0 & _ & Hu0 & _ & _ & Hcu & _).
  rewrite Hcu, lookup_insert_eq in Hu'. simplify_eq.
  apply addGroupLeadership_person.
Qed.

Lemma leadership_assign_remove_witness :
  (∃ r s' u' g',
     assignGroupLeadership theAdmin 5 2 congregation = (Json r, s') ∧
     churchUsers s' !! 5 = Some u' ∧ groups s' !! 2 = Some g' ∧
     ChurchUser.person u' = ChurchUser.person youthLeader ∧
     2 ∈ ChurchUser.groupLeaderships u' ∧
     ChurchUser.person u' ∈ Group.leaders g') ∧
  (∃ r s' u' g',
     removeGroupLeadership theAdmin 5 2 congregation = (Json r, s') ∧
     churchUsers s' !! 5 = Some u' ∧ groups s' !! 2 = Some g' ∧
     ChurchUser.person u' = ChurchUser.person youthLeader ∧
     (2 ∉ ChurchUser.groupLeaderships u') ∧
     (ChurchUser.person u' ∉ Group.leaders g')).
Proof.
  apply (leadership_assign_remove theAdmin 5 2 youthLeader choir congregation);
    reflexivity.
Defined.

Lemma occurrences_absent x l : x ∉ l → occurrences x l = 0%nat.
Proof.
  unfold occurrences. induction l as [|y l IH]; [done|].
  intros [Hne Hnin]%not_elem_of_cons. rewrite filter_cons.
  rewrite decide_False by (intros ->; by apply Hne). by apply IH.
Qed.

Lemma occurrences_NoDup x l : NoDup l → x ∈ l → occurrences x l = 1%nat.
Proof.
  induction 1 as [|y l Hy Hnd IH]; intros Hin.
  - by apply elem_of_nil in Hin.
  - unfold occurrences. rewrite filter_cons.
    apply elem_of_cons in Hin as [->|Hin].
    + rewrite decide_True by done. simpl. f_equal.
      by apply occurrences_absent.
    + rewrite decide_False; [by apply IH|]. intros ->. done.
Qed.

Lemma set_churchUsers_same userId u s :
  churchUsers s !! userId = Some u →
  set_churchUsers (save userId u) s = s.
Proof.
  intros Hu. destruct s as [gs sgs ms us ps]. unfold set_churchUsers, save.
  simpl in *. f_equal. by apply insert_id.
Qed.

Lemma NoDup_push (x : ObjectId) l : NoDup l → x ∉ l → NoDup (l ++ [x]).
Proof.
  intros Hnd Hnin. apply NoDup_app. split_and!; [done| |apply NoDup_singleton].
  intros y Hy ->%list_elem_of_singleton. done.
Qed.

Lemma addGroupLeadership_NoDup groupId u :
  NoDup (ChurchUser.groupLeaderships u) →
  NoDup (ChurchUser.groupLeaderships (ChurchUser.addGroupLeadership groupId u)).
Proof.
  intros Hnd. unfold ChurchUser.addGroupLeadership, mongooseIncludes, push.
  destruct (decide (groupId ∈ ChurchUser.groupLeaderships u)) as [Hin|Hin].
  - by rewrite bool_decide_eq_true_2.
  - rewrite bool_decide_eq_false_2 by done. simpl. by apply NoDup_push.
Qed.

(** A repeated assignment finds both entries and writes nothing new. *)
Lemma assignGroupLeadership_twice caller caller2 userId groupId s r s' :
  assignGroupLeadership caller userId groupId s = (Json r, s') →
  hasPermission (ReqUser.role caller2) "manage_groups" = true →
  assignGroupLeadership caller2 userId groupId s' = (Json r, s').
Proof.
  intros Hfirst Hperm2.
  destruct (assignGroupLeadership_post _ _ _ _ _ _ Hfirst)
    as (u' & g' & Hu' & Hg' & Hgl & Hld).
  apply assignGroupLeadership_success in Hfirst
    as (u & g & _ & Hu & Hg & -> & Hcu & _).
  rewrite Hcu, lookup_insert_eq in Hu'. injection Hu' as <-.
  unfold assignGroupLeadership, findById.
  rewrite Hperm2, Hcu, lookup_insert_eq, Hg'. simpl.
  unfold mongooseIncludes. rewrite (bool_decide_eq_true_2 _ Hld). simpl.
  rewrite (addGroupLeadership_present _ _ Hgl).
  rewrite set_churchUsers_same; [done|]. by rewrite Hcu, lookup_insert_eq.
Qed.

(** C7.  For a caller with the [manage_groups] permission, a stored user
    and a stored group, [assign-group-leadership] succeeds, and repeating
    the call gives the same answer and leaves the store exactly as the
    first call left it.  Where the user's groupLeaderships and the group's
    leaders held no repeated entry before the first call, as for the sets
    of the data model, the group then occurs exactly once in the user's
    groupLeaderships and the user's person exactly once in the group's
    leaders. *)
Theorem assignGroupLeadership_idempotent caller userId groupId u g s :
  hasPermission (ReqUser.role caller) "manage_groups" = true →
  churchUsers s !! userId = Some u →
  groups s !! groupId = Some g →
  NoDup (ChurchUser.groupLeaderships u) →
  NoDup (Group.leaders g) →
  ∃ r s',
    assignGroupLeadership caller userId groupId s = (Json r, s') ∧
    assignGroupLeadership caller userId groupId s' = (Json r, s') ∧
    ∃ u' g',
      churchUsers s' !! userId = Some u' ∧
      groups s' !! groupId = Some g' ∧
      occurrences groupId (ChurchUser.groupLeaderships u') = 1%nat ∧
      occurrences (ChurchUser.person u') (Group.leaders g') = 1%nat.
Proof.
  intros Hperm Hu Hg Hndu Hndg.
  destruct (assignGroupLeadership_succeeds _ _ _ _ _ _ Hperm Hu Hg) as [s' Hfirst].
  eexists _, s'. split; [exact Hfirst|].
  split; [by apply (assignGroupLeadership_twice caller caller _ _ s)|].
  pose proof Hfirst as (u0 & g0 & _ & Hu0 & Hg0 & _ & Hcu & Hgs & _)
    %assignGroupLeadership_success.
  simplify_eq.
  destruct (assignGroupLeadership_post _ _ _ _ _ _ Hfirst)
    as (u' & g' & Hu' & Hg' & Hgl & Hld).
  exists u', g'. split_and!; try done.
  - apply occurrences_NoDup; [|done].
    rewrite Hcu, lookup_insert_eq in Hu'. injection Hu' as <-.
    by apply addGroupLeadership_NoDup.
  - apply occurrences_NoDup; [|done].
    rewrite Hgs in Hg'.
    destruct (decide (ChurchUser.person u ∈ Group.leaders g)) as [Hin|Hin].
    + rewrite bool_decide_eq_true_2 in Hg' by done. by simplify_eq.
    + rewrite bool_decide_eq_false_2, lookup_insert_eq in Hg' by done.
      injection Hg' as <-. simpl. by apply NoDup_push.
Qed.

Lemma assignGroupLeadership_idempotent_witness :
  ∃ r s',
    assignGroupLeadership theAdmin 5 2 congregation = (Json r, s') ∧
    assignGroupLeadership theAdmin 5 2 s' = (Json r, s') ∧
    ∃ u' g',
      churchUsers s' !! 5 = Some u' ∧ groups s' !! 2 = Some g' ∧
      occurrences 2 (ChurchUser.groupLeaderships u') = 1%nat ∧
      occurrences (ChurchUser.person u') (Group.leaders g') = 1%nat.
Proof.
  apply (assignGroupLeadership_idempotent theAdmin 5 2 youthLeader choir congregation).
  - reflexivity.
  - reflexivity.
  - reflexivity.
  - apply NoDup_singleton.
  - apply NoDup_nil_2.
Defined.

(** ** Attendance reports *)

Lemma projectStage_memberId a b ppl im row :
  projectStage a b ppl im = Some row → Report.memberId row = im.1.
Proof.
  unfold projectStage. destruct (ppl !! _); [|done]. by intros [= <-].
Qed.

Lemma projectStage_expected a b ppl mid m p :
  ppl !! GroupMember.person m = Some p →
  projectStage a b ppl (mid, m) = Some (expectedRow a b mid m p).
Proof. intros Hp. unfold projectStage. simpl. by rewrite Hp. Qed.

Lemma rowsOf_absent a b ppl mid (l : list (ObjectId * GroupMember.doc)) :
  mid ∉ l.*1 → rowsOf mid (omap (projectStage a b ppl) l) = [].
Proof.
  unfold rowsOf. induction l as [|im l IH]; [done|].
  rewrite fmap_cons. intros [Hne Hnin]%not_elem_of_cons. simpl.
  destruct (projectStage a b ppl im) as [row|] eqn:Hrow; [|by apply IH].
  rewrite filter_cons_False; [by apply IH|].
  rewrite (projectStage_memberId _ _ _ _ _ Hrow). by intros <-.
Qed.

Lemma rowsOf_present a b ppl mid m row (l : list (ObjectId * GroupMember.doc)) :
  NoDup l.*1 → (mid, m) ∈ l →
  projectStage a b ppl (mid, m) = Some row →
  rowsOf mid (omap (projectStage a b ppl) l) = [row].
Proof.
  intros Hnd Hin Hrow. induction l as [|im l IH]; [by apply elem_of_nil in Hin|].
  rewrite fmap_cons in Hnd. apply NoDup_cons in Hnd as [Hhd Hnd].
  apply elem_of_cons in Hin as [<-|Hin].
  - simpl. rewrite Hrow. unfold rowsOf. rewrite filter_cons_True.
    + f_equal. by apply rowsOf_absent.
    + by rewrite (projectStage_memberId _ _ _ _ _ Hrow).
  - assert (im.1 ≠ mid) as Hne.
    { intros Heq. apply Hhd. rewrite Heq.
      apply list_elem_of_fmap. by exists (mid, m). }
    simpl. destruct (projectStage a b ppl im) as [row'|] eqn:Hrow'; [|by apply IH].
    unfold rowsOf. rewrite filter_cons_False; [by apply IH|].
    by rewrite (projectStage_memberId _ _ _ _ _ Hrow').
Qed.

(** The rows of the group report for one stored member. *)
Lemma getGroupAttendance_rowsOf gid a b s mid m p :
  groupMembers s !! mid = Some m →
  people s !! GroupMember.person m = Some p →
  rowsOf mid (getGroupAttendance gid a b s) =
    if matchStage gid a b m then [expectedRow a b mid m p] else [].
Proof.
  intros Hm Hp. unfold getGroupAttendance.
  destruct (matchStage gid a b m) eqn:Hmatch.
  - apply (rowsOf_present _ _ _ _ m).
    + apply NoDup_fst_find.
    + by apply elem_of_find.
    + by apply projectStage_expected.
  - apply rowsOf_absent. intros [[i m'] [Hi Hin]]%list_elem_of_fmap.
    simpl in Hi. subst i. apply elem_of_find in Hin as [Hm' Hq].
    rewrite Hm in Hm'. injection Hm' as <-. by rewrite Hmatch in Hq.
Qed.

Lemma inRange_spec a b e :
  inRange a b e = true ↔ (a ≤ Attendance.date e ∧ Attendance.date e ≤ b)%Z.
Proof.
  unfold inRange. rewrite andb_true_iff, !bool_decide_eq_true. done.
Qed.

(** An entry inside the range makes the [$match] stage accept the member. *)
Lemma matchStage_in_range gid a b m e :
  GroupMember.group m = gid →
  e ∈ GroupMember.attendance m →
  inRange a b e = true →
  matchStage gid a b m = true.
Proof.
  intros Hg Hin [Ha Hb]%inRange_spec. unfold matchStage.
  rewrite bool_decide_eq_true_2 by done. simpl.
  apply andb_true_iff. split; apply existsb_exists; exists e;
    (split; [by apply list_elem_of_In | by apply bool_decide_eq_true_2]).
Qed.

Lemma mapM_omap {A B} (f : A → option B) l k :
  mapM f l = Some k → omap f l = k.
Proof.
  revert k. induction l as [|x l IH]; intros k; simpl.
  - by intros [= <-].
  - destruct (f x) as [y|]; simpl; [|done].
    destruct (mapM f l) as [k'|]; simpl; [|done].
    intros [= <-]. f_equal. by apply IH.
Qed.




(** ** Recording attendance *)

Lemma recordGroupAttendance_single user id mid m date st n s :
  authorizeGroupAccess user (HexString id) = true →
  groupMembers s !! mid = Some m →
  GroupMember.group m = id →
  Some (GroupMember.church m) = ReqUser.church user →
  st ∈ GroupMember.statusEnum →
  recordGroupAttendance user id
    (mkAttendanceBody (Some date) (Some [mkAttendanceRecord mid (Some st) n])) s =
  (Json [mkAttendanceResult mid true "Attendance recorded"],
   set_groupMembers
     (save mid
        (GroupMember.set_attendance
           (GroupMember.attendance m ++ [Attendance.mk date st (orDefault n "")])%list
           m)) s).
Proof.
  intros Hauth Hm Hg Hch Hst. unfold recordGroupAttendance. simpl.
  rewrite Hauth. simpl. unfold findOneById, validStatus. rewrite Hm.
  rewrite !bool_decide_eq_true_2 by done. reflexivity.
Qed.

(** C8.  [recordAttendance] and the attendance route push one entry and
    never look for an entry of the same date.  For a member of the group
    in the caller's church and statuses of the enum, recording twice for
    the same date leaves the member's earlier entries followed by the two
    new ones, both with that date, and the group report over any range
    that contains the date shows both, after the member's earlier entries
    of the range. *)
Theorem recordAttendance_no_dedup user id mid m date st1 n1 st2 n2 s :
  authorizeGroupAccess user (HexString id) = true →
  groupMembers s !! mid = Some m →
  GroupMember.group m = id →
  Some (GroupMember.church m) = ReqUser.church user →
  st1 ∈ GroupMember.statusEnum →
  st2 ∈ GroupMember.statusEnum →
  GroupMember.attendance (GroupMember.recordAttendance date st1 (orDefault n1 "") m)
    = (GroupMember.attendance m ++ [Attendance.mk date st1 (orDefault n1 "")])%list ∧
  ∃ s1 s2,
    recordGroupAttendance user id
      (mkAttendanceBody (Some date) (Some [mkAttendanceRecord mid (Some st1) n1])) s
      = (Json [mkAttendanceResult mid true "Attendance recorded"], s1) ∧
    groupMembers s1 =
      <[mid := GroupMember.set_attendance
                 (GroupMember.attendance m
                  ++ [Attendance.mk date st1 (orDefault n1 "")])%list m]>
        (groupMembers s) ∧
    recordGroupAttendance user id
      (mkAttendanceBody (Some date) (Some [mkAttendanceRecord mid (Some st2) n2])) s1
      = (Json [mkAttendanceResult mid true "Attendance recorded"], s2) ∧
    groupMembers s2 =
      <[mid := GroupMember.set_attendance
                 (GroupMember.attendance m
                  ++ [Attendance.mk date st1 (orDefault n1 "");
                      Attendance.mk date st2 (orDefault n2 "")])%list m]>
        (groupMembers s) ∧
    ∀ a b p,
      (a ≤ date)%Z → (date ≤ b)%Z →
      people s !! GroupMember.person m = Some p →
      ∃ report,
        groupAttendanceReport user id (Some a) (Some b) s2 = Json report ∧
        rowsOf mid report =
          [Report.mk mid (Person.firstName p) (Person.lastName p)
             (filter (λ e, inRange a b e = true) (GroupMember.attendance m)
              ++ [Attendance.mk date st1 (orDefault n1 "");
                  Attendance.mk date st2 (orDefault n2 "")])%list].
Proof.
  intros Hauth Hm Hg Hch Hst1 Hst2. split; [done|].
  set (e1 := Attendance.mk date st1 (orDefault n1 "")).
  set (e2 := Attendance.mk date st2 (orDefault n2 "")).
  set (m1 := GroupMember.set_attendance (GroupMember.attendance m ++ [e1])%list m).
  set (m2 := GroupMember.set_attendance
               (GroupMember.attendance m ++ [e1; e2])%list m).
  set (s1 := set_groupMembers (save mid m1) s).
  exists s1, (set_groupMembers (save mid m2) s).
  split; [by apply recordGroupAttendance_single|].
  split; [done|].
  assert (groupMembers s1 !! mid = Some m1) as Hm1
    by (simpl; unfold save; apply lookup_insert_eq).
  split.
  { rewrite (recordGroupAttendance_single user id mid m1 date st2 n2 s1); try done.
    f_equal. unfold s1, set_groupMembers, save. simpl.
    rewrite insert_insert_eq. unfold m2, m1, GroupMember.set_attendance. simpl.
    by rewrite <- app_assoc. }
  split; [done|].
  intros a b p Ha Hb Hp.
  exists (getGroupAttendance id a b (set_groupMembers (save mid m2) s)).
  unfold groupAttendanceReport. rewrite Hauth. split; [done|].
  assert (inRange a b e1 = true ∧ inRange a b e2 = true) as [Hin1 Hin2]
    by (by rewrite !inRange_spec).
  rewrite (getGroupAttendance_rowsOf id a b _ mid m2 p).
  - rewrite (matchStage_in_range id a b m2 e1); [|done| |done].
    + unfold expectedRow. f_equal. f_equal. simpl.
      rewrite filter_app, !filter_cons, filter_nil.
      by rewrite !decide_True by done.
    + simpl. apply elem_of_app. right. left.
  - simpl. unfold save. apply lookup_insert_eq.
  - done.
Qed.

Lemma recordAttendance_no_dedup_witness :
  ∃ s1 s2,
    recordGroupAttendance theAdmin 1
      (mkAttendanceBody (Some 7%Z) (Some [mkAttendanceRecord 7 (Some "present") None]))
      congregation
      = (Json [mkAttendanceResult 7 true "Attendance recorded"], s1) ∧
    recordGroupAttendance theAdmin 1
      (mkAttendanceBody (Some 7%Z) (Some [mkAttendanceRecord 7 (Some "present") None]))
      s1
      = (Json [mkAttendanceResult 7 true "Attendance recorded"], s2) ∧
    ∃ report,
      groupAttendanceReport theAdmin 1 (Some 1%Z) (Some 31%Z) s2 = Json report ∧
      rowsOf 7 report =
        [Report.mk 7 "Ben" "Cole"
           [Attendance.mk 7 "present" ""; Attendance.mk 7 "present" ""]].
Proof.
  destruct (recordAttendance_no_dedup theAdmin 1 7 member51 7%Z
              "present" None "present" None congregation)
    as (_ & s1 & s2 & H1 & _ & H2 & _ & Hrep);
    [reflexivity | reflexivity | reflexivity | reflexivity
    | left | left |].
  exists s1, s2. split; [exact H1|]. split; [exact H2|].
  apply (Hrep 1%Z 31%Z (Person.mk "Ben" "Cole")); [lia | lia | reflexivity].
Defined.

(** ** Group update and the leadership mirror *)

Lemma congregation_mirror : leadershipMirror congregation.
Proof.
  intros uid u gid g Hu Hg. simpl in Hu, Hg.
  apply lookup_singleton_Some in Hu as [_ <-].
  apply lookup_insert_Some in Hg as [[<- <-] | [_ Hg]].
  - split; intros _; left.
  - apply lookup_singleton_Some in Hg as [<- <-]. simpl. split; intros Hin.
    + apply list_elem_of_singleton in Hin. discriminate Hin.
    + by apply elem_of_nil in Hin.
Qed.

(** C10, the code at the failing input.  In the congregation the mirror
    holds.  [PUT /api/groups/:id] for "Choir" with [leaders] set to person
    50 stores the new leaders list and leaves every ChurchUser as it was:
    afterwards person 50 leads "Choir" while the person's account, church
    user 5, does not list the group. *)
Theorem updateGroup_breaks_mirror :
  leadershipMirror congregation ∧
  ∃ g' s',
    updateGroup theAdmin 2 (newLeadersBody [50]) congregation = (Json (2, g'), s') ∧
    groups s' !! 2 = Some g' ∧
    Group.leaders g' = [50] ∧
    churchUsers s' = churchUsers congregation ∧
    churchUsers s' !! 5 = Some youthLeader ∧
    ChurchUser.person youthLeader ∈ Group.leaders g' ∧
    (2 ∉ ChurchUser.groupLeaderships youthLeader) ∧
    ¬ leadershipMirror s'.
Proof.
  split; [apply congregation_mirror|].
  eexists _, _. split; [reflexivity|].
  split; [reflexivity|]. split; [reflexivity|]. split; [reflexivity|].
  split; [reflexivity|]. split; [left|].
  assert (2 ∉ ChurchUser.groupLeaderships youthLeader) as Hnot.
  { intros Hin. apply list_elem_of_singleton in Hin. discriminate Hin. }
  split; [exact Hnot|].
  intros Hmirror. apply Hnot.
  eapply (Hmirror 5 youthLeader 2); [reflexivity | reflexivity | left].
Qed.

(** * Further properties of the handlers *)

Section MoreModelFacts.
Context {D : Type}.
Implicit Types (c : gmap ObjectId D) (q : D → bool).

(** A query that only one stored document meets finds that document. *)
Lemma findOne_unique q c i d :
  c !! i = Some d → q d = true →
  (∀ j d', c !! j = Some d' → q d' = true → j = i) →
  findOne q c = Some (i, d).
Proof.
  intros Hi Hq Huniq. destruct (findOne q c) as [[j d']|] eqn:Hf.
  - apply findOne_Some in Hf as [Hj Hq'].
    rewrite (Huniq j d' Hj Hq') in Hj |- *. by simplify_eq.
  - rewrite findOne_None in Hf. by rewrite (Hf i d Hi) in Hq.
Qed.

Lemma elem_of_find_insert_fresh q c i d j d' :
  c !! i = None →
  (j, d') ∈ find q (<[i := d]> c) ↔
  (j, d') ∈ find q c ∨ ((j, d') = (i, d) ∧ q d = true).
Proof.
  intros Hfresh. rewrite !elem_of_find, lookup_insert_Some. split.
  - intros [[[<- <-] | [Hne Hj]] Hq]; [right | left]; done.
  - intros [[Hj Hq] | [[= -> ->] Hq]]; (split; [|done]).
    + right. split; [|done]. intros <-. by rewrite Hfresh in Hj.
    + by left.
Qed.
End MoreModelFacts.

Lemma set_groupMembers_delete_insert i m s :
  groupMembers s !! i = None →
  set_groupMembers (deleteOne i) (set_groupMembers (save i m) s) = s.
Proof.
  intros Hi. destruct s as [gs sgs ms us ps]. unfold set_groupMembers, deleteOne, save.
  simpl in *. f_equal. by apply delete_insert_id.
Qed.

Lemma isAdmin_authorizes user g : isAdmin user = true → authorizeGroupAccess user g = true.
Proof. intros H. unfold authorizeGroupAccess. by rewrite H. Qed.

Lemma not_admin_object_id user g :
  isAdmin user = false → authorizeGroupAccess user (ObjectIdObj g) = false.
Proof. intros H. unfold authorizeGroupAccess. by rewrite H. Qed.

(** ** Removing a member *)

Lemma removeMember_succeeds user memberId m g s :
  groupMembers s !! memberId = Some m →
  groups s !! GroupMember.group m = Some g →
  isAdmin user = true →
  removeMember user memberId s =
    (Json "Member removed from group", set_groupMembers (deleteOne memberId) s).
Proof.
  intros Hm Hg Hadmin. unfold removeMember, findById. rewrite Hm, Hg.
  by rewrite (isAdmin_authorizes _ _ Hadmin).
Qed.

(** Adding a person to a stored group and removing the new membership
    again gives back the store as it was, so the same add succeeds once
    more: the membership is unique only while it exists. *)
Theorem addMember_removeMember_roundtrip now user id body p c g s :
  isAdmin user = true →
  groups s !! id = Some g →
  personId body = Some p →
  ReqUser.church user = Some c →
  orDefault (role body) "member" ∈ GroupMember.roleEnum →
  ¬ hasMembership p id s →
  ∃ i m s1,
    addMember now user id body s = (Json (i, m), s1) ∧
    hasMembership p id s1 ∧
    removeMember user i s1 = (Json "Member removed from group", s).
Proof.
  intros Hadmin Hg Hp Hc Hrole Hno.
  destruct (addMember_succeeds now user id body p c s) as [Hadd Hfresh];
    try done; [by apply isAdmin_authorizes|].
  set (i := fresh (dom (groupMembers s))) in *.
  set (m := GroupMember.mk p id (subgroupId body) (orDefault (role body) "member")
              now true None [] c) in *.
  exists i, m, (set_groupMembers (save i m) s).
  assert (groupMembers (set_groupMembers (save i m) s) !! i = Some m) as Hi
    by (simpl; unfold save; apply lookup_insert_eq).
  split; [exact Hadd|]. split; [by exists i, m|].
  rewrite (removeMember_succeeds user i m g _ Hi Hg Hadmin).
  by rewrite set_groupMembers_delete_insert.
Qed.

Lemma addMember_removeMember_roundtrip_witness :
  ∃ i m s1,
    addMember 0 theAdmin 1 (mkAddMemberBody (Some 52) None None) congregation
      = (Json (i, m), s1) ∧
    hasMembership 52 1 s1 ∧
    removeMember theAdmin i s1 = (Json "Member removed from group", congregation).
Proof.
  apply (addMember_removeMember_roundtrip 0 theAdmin 1
           (mkAddMemberBody (Some 52) None None) 52 900 youth congregation).
  - reflexivity.
  - reflexivity.
  - reflexivity.
  - reflexivity.
  - left.
  - apply congregation_no_membership_52.
Defined.

(** ** Listing members *)

(** After a successful add, the member list of the group shows, for a
    caller of the same church, the memberships it showed before and the
    new one, and nothing else. *)
Theorem listGroupMembers_after_add now user id body p c s :
  authorizeGroupAccess user (HexString id) = true →
  personId body = Some p →
  ReqUser.church user = Some c →
  orDefault (role body) "member" ∈ GroupMember.roleEnum →
  ¬ hasMembership p id s →
  ∃ i m s1,
    addMember now user id body s = (Json (i, m), s1) ∧
    (i, m) ∈ listGroupMembers user id s1 ∧
    (∀ j m', (j, m') ∈ listGroupMembers user id s1 ↔
             (j, m') ∈ listGroupMembers user id s ∨ (j, m') = (i, m)) ∧
    NoDup (listGroupMembers user id s1).*1.
Proof.
  intros Hauth Hp Hc Hrole Hno.
  destruct (addMember_succeeds now user id body p c s) as [Hadd Hfresh];
    try done.
  set (i := fresh (dom (groupMembers s))) in *.
  set (m := GroupMember.mk p id (subgroupId body) (orDefault (role body) "member")
              now true None [] c) in *.
  exists i, m, (set_groupMembers (save i m) s).
  assert (bool_decide (GroupMember.group m = id)
          && bool_decide (Some (GroupMember.church m) = ReqUser.church user) = true)
    as Hq by (simpl; by rewrite Hc, !bool_decide_eq_true_2).
  assert (∀ j m', (j, m') ∈ listGroupMembers user id (set_groupMembers (save i m) s) ↔
                  (j, m') ∈ listGroupMembers user id s ∨ (j, m') = (i, m)) as Hlist.
  { intros j m'. unfold listGroupMembers. simpl. unfold save.
    rewrite (elem_of_find_insert_fresh _ _ i m j m' Hfresh). rewrite Hq. tauto. }
  split; [exact Hadd|]. split; [apply Hlist; by right|].
  split; [exact Hlist | apply NoDup_fst_find].
Qed.

Lemma listGroupMembers_after_add_witness :
  ∃ i m s1,
    addMember 0 theAdmin 1 (mkAddMemberBody (Some 52) None None) congregation
      = (Json (i, m), s1) ∧
    (i, m) ∈ listGroupMembers theAdmin 1 s1 ∧
    (7, member51) ∈ listGroupMembers theAdmin 1 s1.
Proof.
  destruct (listGroupMembers_after_add 0 theAdmin 1
              (mkAddMemberBody (Some 52) None None) 52 900 congregation)
    as (i & m & s1 & Hadd & Hin & Hlist & _).
  - reflexivity.
  - reflexivity.
  - reflexivity.
  - left.
  - apply congregation_no_membership_52.
  - exists i, m, s1. split; [exact Hadd|]. split; [exact Hin|].
    apply Hlist. left. apply elem_of_find. split; reflexivity.
Defined.

(** ** Who may update and remove members *)

(** The member routes hand the group's ObjectId, not its string, to the
    access check, and the leadership list of the request user holds
    strings.  So a caller who is neither admin nor holds [manage_groups]
    is refused by the update and by the removal of any stored member of a
    stored group, also a caller who leads that group and passes the check
    of the routes that take the group from the URL. *)
Theorem member_routes_refuse_leaders user memberId m g body s :
  isAdmin user = false →
  groupMembers s !! memberId = Some m →
  groups s !! GroupMember.group m = Some g →
  GroupMember.group m ∈ ReqUser.groupLeaderships user →
  authorizeGroupAccess user (HexString (GroupMember.group m)) = true ∧
  updateMember user memberId body s =
    (Status 403 "Not authorized to update this group member", s) ∧
  removeMember user memberId s =
    (Status 403 "Not authorized to remove members from this group", s).
Proof.
  intros Hadmin Hm Hg Hlead. split; [|split].
  - unfold authorizeGroupAccess, includes. rewrite Hadmin.
    by rewrite bool_decide_eq_true_2.
  - unfold updateMember, findById. rewrite Hm, Hg.
    by rewrite (not_admin_object_id _ _ Hadmin).
  - unfold removeMember, findById. rewrite Hm, Hg.
    by rewrite (not_admin_object_id _ _ Hadmin).
Qed.

Lemma member_routes_refuse_leaders_witness :
  authorizeGroupAccess youthLeaderToken (HexString 1) = true ∧
  updateMember youthLeaderToken 7
    (mkUpdateMemberBody None (Some "assistant") None None) congregation =
    (Status 403 "Not authorized to update this group member", congregation) ∧
  removeMember youthLeaderToken 7 congregation =
    (Status 403 "Not authorized to remove members from this group", congregation).
Proof.
  apply (member_routes_refuse_leaders youthLeaderToken 7 member51 youth
           (mkUpdateMemberBody None (Some "assistant") None None) congregation).
  - reflexivity.
  - reflexivity.
  - reflexivity.
  - left.
Defined.

(** ** Memberships of groups that are not stored *)

(** The add route never reads the Group collection: a membership is
    created for a group id under which nothing is stored.  Such a
    membership can then be neither updated nor removed through the member
    routes, whoever asks: both end in the 500 branch and leave it in
    place. *)
Theorem orphan_membership_stuck now user id body p c s :
  authorizeGroupAccess user (HexString id) = true →
  personId body = Some p →
  ReqUser.church user = Some c →
  orDefault (role body) "member" ∈ GroupMember.roleEnum →
  ¬ hasMembership p id s →
  groups s !! id = None →
  ∃ i m s1,
    addMember now user id body s = (Json (i, m), s1) ∧
    groupMembers s1 !! i = Some m ∧
    ∀ user' body',
      updateMember user' i body' s1 = (Status 500 "Server Error", s1) ∧
      removeMember user' i s1 = (Status 500 "Server Error", s1).
Proof.
  intros Hauth Hp Hc Hrole Hno Hnone.
  destruct (addMember_succeeds now user id body p c s) as [Hadd Hfresh];
    try done.
  eexists _, _, _. split; [exact Hadd|].
  assert (∀ i m, groupMembers (set_groupMembers (save i m) s) !! i = Some m) as Hi
    by (intros; simpl; unfold save; apply lookup_insert_eq).
  split; [apply Hi|]. intros user' body'.
  unfold updateMember, removeMember, findById. rewrite Hi. simpl.
  by rewrite Hnone.
Qed.

Lemma orphan_membership_stuck_witness :
  ∃ i m s1,
    addMember 0 theAdmin 99 (mkAddMemberBody (Some 52) None None) congregation
      = (Json (i, m), s1) ∧
    groupMembers s1 !! i = Some m ∧
    removeMember theAdmin i s1 = (Status 500 "Server Error", s1).
Proof.
  destruct (orphan_membership_stuck 0 theAdmin 99
              (mkAddMemberBody (Some 52) None None) 52 900 congregation)
    as (i & m & s1 & Hadd & Hm & Hstuck).
  - reflexivity.
  - reflexivity.
  - reflexivity.
  - left.
  - apply congregation_no_membership_52.
  - reflexivity.
  - exists i, m, s1. split; [exact Hadd|]. split; [exact Hm|].
    apply (Hstuck theAdmin (mkUpdateMemberBody None None None None)).
Defined.

(** ** What recording attendance can change *)

Lemma set_attendance_same m :
  GroupMember.set_attendance (GroupMember.attendance m ++ [])%list m = m.
Proof. destruct m. unfold GroupMember.set_attendance. simpl. by rewrite app_nil_r. Qed.

Lemma attendanceGrown_refl date q s : attendanceGrown date q s s.
Proof.
  repeat split. intros i. destruct (groupMembers s !! i) as [m|] eqn:Hm; [|done].
  exists []. by rewrite set_attendance_same.
Qed.

Lemma attendanceGrown_trans date user id s1 s2 s3 :
  attendanceGrown date (inGroupOfCaller user id) s1 s2 →
  attendanceGrown date (inGroupOfCaller user id) s2 s3 →
  attendanceGrown date (inGroupOfCaller user id) s1 s3.
Proof.
  intros (Hg1 & Hsg1 & Hu1 & Hp1 & Hm1) (Hg2 & Hsg2 & Hu2 & Hp2 & Hm2).
  split_and!; try congruence. intros i. specialize (Hm1 i). specialize (Hm2 i).
  destruct (groupMembers s1 !! i) as [m|].
  - destruct Hm1 as (x & Hx & Hdx & Hqx). rewrite Hx in Hm2.
    destruct Hm2 as (y & Hy & Hdy & Hqy). exists (x ++ y)%list.
    split; [|split].
    + rewrite Hy. simpl. by rewrite app_assoc.
    + by apply Forall_app.
    + intros Hne. destruct x as [|e x]; [|by apply Hqx].
      simpl in Hne. by apply Hqy in Hne.
  - by rewrite Hm1 in Hm2.
Qed.

Lemma attendanceGrown_step date user id mid m st notes s :
  groupMembers s !! mid = Some m →
  inGroupOfCaller user id m →
  attendanceGrown (Some date) (inGroupOfCaller user id) s
    (set_groupMembers
       (save mid (GroupMember.set_attendance
                    (push (GroupMember.attendance m) (Attendance.mk date st notes)) m))
       s).
Proof.
  intros Hm Hq. repeat split. intros i. simpl. unfold save.
  destruct (decide (i = mid)) as [->|Hne].
  - rewrite Hm, lookup_insert_eq. eexists [_]. split; [done|].
    split; [by apply Forall_singleton|done].
  - rewrite lookup_insert_ne by done.
    destruct (groupMembers s !! i) as [m'|]; [|done].
    exists []. by rewrite set_attendance_same.
Qed.

Lemma recordAttendanceLoop_grows user id date data results s r s' :
  recordAttendanceLoop user id date data results s = (r, s') →
  attendanceGrown (Some date) (inGroupOfCaller user id) s s'.
Proof.
  revert results s. induction data as [|record rest IH]; intros results s; simpl.
  - intros [= _ <-]. apply attendanceGrown_refl.
  - unfold findOneById.
    destruct (groupMembers s !! rec_memberId record) as [m|] eqn:Hm;
      [|by apply IH].
    destruct (bool_decide (GroupMember.group m = id)
              && bool_decide (Some (GroupMember.church m) = ReqUser.church user))
      eqn:Hq; [|by apply IH].
    apply andb_true_iff in Hq as [Hq1 Hq2]. apply bool_decide_eq_true in Hq1, Hq2.
    destruct (validStatus (rec_status record)) as [st|].
    + intros Hloop. eapply attendanceGrown_trans; [|by eapply IH].
      by apply attendanceGrown_step.
    + intros [= _ <-]. apply attendanceGrown_refl.
Qed.

(** Whatever the request and whatever its answer, the attendance route of
    a group only ever appends: every member is still stored with all its
    earlier entries in place, followed by entries for the date of the
    request; members outside the group or outside the caller's church get
    no entry; groups, subgroups, accounts and people are untouched.  This
    includes the requests that end in 500 after some entries were
    saved. *)
Theorem recordGroupAttendance_append_only user id body s :
  attendanceGrown (body_date body) (inGroupOfCaller user id) s
    (recordGroupAttendance user id body s).2.
Proof.
  unfold recordGroupAttendance.
  destruct (body_date body) as [date|]; [|apply attendanceGrown_refl].
  destruct (attendanceData body) as [data|]; [|apply attendanceGrown_refl].
  destruct (negb _); [apply attendanceGrown_refl|].
  destruct (recordAttendanceLoop user id date data [] s) as [[rs|] s'] eqn:Hloop;
    simpl; by eapply recordAttendanceLoop_grows.
Qed.

Lemma recordAttendanceLoop_results user id date data results s rs s' :
  recordAttendanceLoop user id date data results s = (Some rs, s') →
  ∃ new,
    rs = (results ++ new)%list ∧
    res_memberId <$> new = rec_memberId <$> data ∧
    Forall (λ r, (success r = true ∧ message r = "Attendance recorded") ∨
                 (success r = false ∧ message r = "Member not found")) new.
Proof.
  revert results s. induction data as [|record rest IH]; intros results s; simpl.
  - intros [= <- _]. exists []. by rewrite app_nil_r.
  - destruct (findOneById _ _ _) as [m|].
    + destruct (validStatus _) as [st|]; [|done].
      intros (new & -> & Hids & Hall)%IH. eexists (_ :: new).
      unfold push. rewrite <- app_assoc. split; [done|].
      split; [by rewrite !fmap_cons, Hids|]. constructor; [by left|done].
    + intros (new & -> & Hids & Hall)%IH. eexists (_ :: new).
      unfold push. rewrite <- app_assoc. split; [done|].
      split; [by rewrite !fmap_cons, Hids|]. constructor; [by right|done].
Qed.

(** When the attendance route answers with results, there is one result
    per record of the request, in the order of the records and with their
    member ids; each either reports the recording or that the member was
    not found. *)
Theorem recordGroupAttendance_results user id body s rs s' :
  recordGroupAttendance user id body s = (Json rs, s') →
  ∃ data,
    attendanceData body = Some data ∧
    res_memberId <$> rs = rec_memberId <$> data ∧
    Forall (λ r, (success r = true ∧ message r = "Attendance recorded") ∨
                 (success r = false ∧ message r = "Member not found")) rs.
Proof.
  unfold recordGroupAttendance.
  destruct (body_date body) as [date|]; [|done].
  destruct (attendanceData body) as [data|]; [|done].
  destruct (negb _); [done|].
  destruct (recordAttendanceLoop user id date data [] s) as [[rs'|] s1] eqn:Hloop;
    [|done].
  intros [= <- <-]. exists data. split; [done|].
  by apply recordAttendanceLoop_results in Hloop as (new & -> & Hids & Hall).
Qed.

Lemma recordGroupAttendance_results_witness :
  ∃ rs s',
    recordGroupAttendance theAdmin 1
      (mkAttendanceBody (Some 7%Z)
         (Some [mkAttendanceRecord 7 (Some "present") None;
                mkAttendanceRecord 8 (Some "absent") None])) congregation
      = (Json rs, s') ∧
    res_memberId <$> rs = [7; 8].
Proof.
  eexists _, _. split; [reflexivity|].
  destruct (recordGroupAttendance_results theAdmin 1
              (mkAttendanceBody (Some 7%Z)
                 (Some [mkAttendanceRecord 7 (Some "present") None;
                        mkAttendanceRecord 8 (Some "absent") None]))
              congregation _ _ eq_refl) as (data & Hdata & Hids & _).
  injection Hdata as <-. exact Hids.
Defined.

(** A record whose status is not of the enum stops the request with 500;
    the entry recorded for the record before it stays stored, and the
    records after it are not looked at. *)
Theorem recordGroupAttendance_partial user id date good bad rest m1 m2 st s :
  authorizeGroupAccess user (HexString id) = true →
  groupMembers s !! rec_memberId good = Some m1 →
  inGroupOfCaller user id m1 →
  rec_status good = Some st →
  st ∈ GroupMember.statusEnum →
  groupMembers s !! rec_memberId bad = Some m2 →
  inGroupOfCaller user id m2 →
  validStatus (rec_status bad) = None →
  recordGroupAttendance user id
    (mkAttendanceBody (Some date) (Some (good :: bad :: rest))) s =
  (Status 500 "Server Error",
   set_groupMembers
     (save (rec_memberId good)
        (GroupMember.set_attendance
           (GroupMember.attendance m1
            ++ [Attendance.mk date st (orDefault (rec_notes good) "")])%list m1))
     s).
Proof.
  intros Hauth Hm1 [Hg1 Hc1] Hst Hin Hm2 [Hg2 Hc2] Hbad.
  unfold recordGroupAttendance. simpl. rewrite Hauth. simpl.
  unfold findOneById at 1. rewrite Hm1.
  rewrite !bool_decide_eq_true_2 by done. simpl.
  rewrite Hst. unfold validStatus at 1. rewrite (bool_decide_eq_true_2 _ Hin).
  unfold findOneById. simpl. unfold save.
  destruct (decide (rec_memberId bad = rec_memberId good)) as [Heq|Hne].
  - rewrite Heq, lookup_insert_eq. simpl.
    rewrite !bool_decide_eq_true_2 by done. simpl. by rewrite Hbad.
  - rewrite lookup_insert_ne by done. rewrite Hm2.
    rewrite !bool_decide_eq_true_2 by done. simpl. by rewrite Hbad.
Qed.

Lemma recordGroupAttendance_partial_witness :
  recordGroupAttendance theAdmin 1
    (mkAttendanceBody (Some 7%Z)
       (Some [mkAttendanceRecord 7 (Some "present") None;
              mkAttendanceRecord 7 (Some "late") None])) congregation =
  (Status 500 "Server Error",
   set_groupMembers
     (save 7 (GroupMember.set_attendance [Attendance.mk 7 "present" ""] member51))
     congregation).
Proof.
  apply (recordGroupAttendance_partial theAdmin 1 7%Z
           (mkAttendanceRecord 7 (Some "present") None)
           (mkAttendanceRecord 7 (Some "late") None) [] member51 member51 "present"
           congregation).
  - reflexivity.
  - reflexivity.
  - split; reflexivity.
  - reflexivity.
  - left.
  - reflexivity.
  - split; reflexivity.
  - reflexivity.
Defined.

(** ** What deleting a group removes and what it leaves *)

Lemma pull_absent x l : x ∉ l → pull x l = l.
Proof.
  unfold pull. induction l as [|y l IH]; [done|].
  intros [Hne Hnin]%not_elem_of_cons. rewrite filter_cons.
  rewrite decide_True by (intros ->; by apply Hne). by rewrite IH.
Qed.

Lemma elem_of_pull x y l : y ∈ pull x l ↔ y ≠ x ∧ y ∈ l.
Proof. unfold pull. by rewrite list_elem_of_filter. Qed.

Lemma deleteGroup_store user id s msg s' :
  deleteGroup user id s = (Json msg, s') →
  groups s' = delete id (groups s) ∧
  subgroups s' =
    deleteMany (λ sg, bool_decide (Subgroup.parentGroup sg = id)) (subgroups s) ∧
  groupMembers s' =
    deleteMany (λ m, bool_decide (GroupMember.group m = id)) (groupMembers s) ∧
  churchUsers s' =
    updateMany (λ u, bool_decide (id ∈ ChurchUser.groupLeaderships u))
      (λ u, ChurchUser.set_groupLeaderships
              (pull id (ChurchUser.groupLeaderships u)) u) (churchUsers s) ∧
  people s' = people s.
Proof. intros (_ & -> & _)%deleteGroup_success. done. Qed.

(** A successful group deletion removes exactly the group, its subgroups
    and its memberships: every other group, the subgroups and memberships
    of other groups, and all people stay as they were.  Asking again for
    the same deletion is answered with 404 and changes nothing. *)
Theorem deleteGroup_removes_exactly user id s msg s' :
  deleteGroup user id s = (Json msg, s') →
  (∀ j, j ≠ id → groups s' !! j = groups s !! j) ∧
  (∀ i sg, subgroups s' !! i = Some sg ↔
           subgroups s !! i = Some sg ∧ Subgroup.parentGroup sg ≠ id) ∧
  (∀ i m, groupMembers s' !! i = Some m ↔
          groupMembers s !! i = Some m ∧ GroupMember.group m ≠ id) ∧
  people s' = people s ∧
  deleteGroup user id s' = (Status 404 "Group not found", s').
Proof.
  intros Hdel.
  destruct (deleteGroup_store _ _ _ _ _ Hdel) as (Hg & Hsg & Hm & Hu & Hp).
  apply deleteGroup_success in Hdel as (_ & _ & Hperm & _).
  split_and!.
  - intros j Hne. rewrite Hg. by apply lookup_delete_ne.
  - intros i sg. rewrite Hsg, lookup_deleteMany, bool_decide_eq_false. done.
  - intros i m. rewrite Hm, lookup_deleteMany, bool_decide_eq_false. done.
  - done.
  - unfold deleteGroup, findOneById. rewrite Hperm, Hg, lookup_delete_eq. done.
Qed.

Lemma deleteGroup_removes_exactly_witness :
  ∃ s',
    deleteGroup theAdmin 2 congregation = (Json "Group deleted", s') ∧
    groups s' !! 1 = Some youth ∧
    groupMembers s' !! 7 = Some member51 ∧
    subgroups s' !! 10 = Some worshipTeam ∧
    subgroups s' !! 20 = None ∧
    deleteGroup theAdmin 2 s' = (Status 404 "Group not found", s').
Proof.
  eexists. split; [reflexivity|].
  destruct (deleteGroup_removes_exactly theAdmin 2 congregation _ _ eq_refl)
    as (Hg & Hsg & Hm & _ & Hagain).
  split; [by rewrite Hg|]. split; [by apply Hm|]. split; [by apply Hsg|].
  split; [reflexivity | exact Hagain].
Defined.

(** The group deletion pulls the group from the accounts'
    [groupLeaderships] and leaves every other field of every account,
    [subgroupLeaderships] included: an account that led a subgroup of the
    deleted group still lists that subgroup, which is no longer stored. *)
Theorem deleteGroup_keeps_subgroupLeaderships user id s msg s' i u sgid sg :
  deleteGroup user id s = (Json msg, s') →
  churchUsers s !! i = Some u →
  subgroups s !! sgid = Some sg →
  Subgroup.parentGroup sg = id →
  sgid ∈ ChurchUser.subgroupLeaderships u →
  ∃ u',
    churchUsers s' !! i = Some u' ∧
    ChurchUser.groupLeaderships u' = pull id (ChurchUser.groupLeaderships u) ∧
    ChurchUser.subgroupLeaderships u' = ChurchUser.subgroupLeaderships u ∧
    sgid ∈ ChurchUser.subgroupLeaderships u' ∧
    subgroups s' !! sgid = None.
Proof.
  intros Hdel Hu Hsg Hparent Hin.
  destruct (deleteGroup_store _ _ _ _ _ Hdel) as (_ & Hsgs & _ & Hus & _).
  rewrite Hus, Hsgs, lookup_updateMany, Hu. simpl.
  eexists. split; [reflexivity|]. split_and!.
  - case_bool_decide as Hl; simpl; [done|]. by rewrite pull_absent.
  - by case_bool_decide.
  - by case_bool_decide.
  - apply eq_None_not_Some. intros [sg' [Hsg' Hq]%lookup_deleteMany].
    rewrite Hsg in Hsg'. injection Hsg' as <-.
    by rewrite bool_decide_eq_true_2 in Hq.
Qed.

Lemma deleteGroup_keeps_subgroupLeaderships_witness :
  ∃ s' u',
    deleteGroup theAdmin 1 congregationWithTeamLeader = (Json "Group deleted", s') ∧
    churchUsers s' !! 6 = Some u' ∧
    10 ∈ ChurchUser.subgroupLeaderships u' ∧
    subgroups s' !! 10 = None.
Proof.
  destruct (deleteGroup_keeps_subgroupLeaderships theAdmin 1
              congregationWithTeamLeader "Group deleted"
              (deleteGroup theAdmin 1 congregationWithTeamLeader).2
              6 teamLeader 10 worshipTeam)
    as (u' & Hu' & _ & _ & Hin & Hgone).
  - reflexivity.
  - reflexivity.
  - reflexivity.
  - reflexivity.
  - left.
  - eexists _, u'. split; [reflexivity|]. split; [exact Hu'|].
    split; [exact Hin | exact Hgone].
Defined.

(** ** What deleting a subgroup removes and what it leaves *)

Lemma deleteSubgroup_success user id s msg s' :
  deleteSubgroup user id s = (Json msg, s') →
  msg = "Subgroup deleted" ∧ s' = writes (deleteSubgroupWrites id) s ∧
  ∃ sg, subgroups s !! id = Some sg ∧
        (isAdmin user = true ∨
         includes (ReqUser.groupLeaderships user)
           (HexString (Subgroup.parentGroup sg)) = true).
Proof.
  unfold deleteSubgroup, findById.
  destruct (subgroups s !! id) as [sg|]; [|done].
  destruct (isAdmin user) eqn:Hadmin;
    destruct (includes (ReqUser.groupLeaderships user)
                (HexString (Subgroup.parentGroup sg))) eqn:Hinc;
    cbn [negb andb]; try done; intros [= <- <-];
    (split; [done|]; split; [done|]; exists sg; split; [done|]; auto).
Qed.

Lemma deleteSubgroup_no_member user id s msg s' :
  deleteSubgroup user id s = (Json msg, s') →
  ∀ i m, groupMembers s' !! i = Some m → GroupMember.subgroup m ≠ Some id.
Proof.
  intros (_ & -> & _)%deleteSubgroup_success i m. simpl.
  rewrite lookup_updateMany.
  destruct (groupMembers s !! i) as [m0|]; [|done]. simpl.
  intros [= <-]. case_bool_decide as Hsg; [done|]. exact Hsg.
Qed.

(** A successful subgroup deletion leaves no reference to the subgroup:
    the subgroup document is gone, no membership names it, no account
    lists it in [subgroupLeaderships].  The groups, the other subgroups,
    the accounts' [groupLeaderships] and the people stay as they were, and
    asking again is answered with 404 without any change. *)
Theorem deleteSubgroup_cascade user id s msg s' :
  deleteSubgroup user id s = (Json msg, s') →
  subgroups s' !! id = None ∧
  (∀ j, j ≠ id → subgroups s' !! j = subgroups s !! j) ∧
  (∀ i m, groupMembers s' !! i = Some m → GroupMember.subgroup m ≠ Some id) ∧
  (∀ i u, churchUsers s' !! i = Some u → id ∉ ChurchUser.subgroupLeaderships u) ∧
  (∀ i u, churchUsers s !! i = Some u →
     ∃ u', churchUsers s' !! i = Some u' ∧
           ChurchUser.groupLeaderships u' = ChurchUser.groupLeaderships u ∧
           ChurchUser.person u' = ChurchUser.person u) ∧
  groups s' = groups s ∧ people s' = people s ∧
  deleteSubgroup user id s' = (Status 404 "Subgroup not found", s').
Proof.
  intros (_ & -> & _)%deleteSubgroup_success. simpl. split_and!; try done.
  - apply lookup_delete_eq.
  - intros j Hne. by apply lookup_delete_ne.
  - intros i m. rewrite lookup_updateMany.
    destruct (groupMembers s !! i) as [m0|]; [|done]. simpl.
    intros [= <-]. case_bool_decide as Hsg; [done|]. exact Hsg.
  - intros i u. rewrite lookup_updateMany.
    destruct (churchUsers s !! i) as [u0|]; [|done]. simpl.
    intros [= <-]. case_bool_decide as Hin; [|done].
    simpl. apply not_elem_of_pull.
  - intros i u Hu. rewrite lookup_updateMany, Hu. simpl.
    eexists. split; [reflexivity|]. by case_bool_decide.
  - unfold deleteSubgroup, findById. simpl. unfold deleteOne.
    by rewrite lookup_delete_eq.
Qed.

Lemma deleteSubgroup_cascade_witness :
  ∃ s',
    deleteSubgroup theAdmin 10 congregationWithTeamLeader
      = (Json "Subgroup deleted", s') ∧
    subgroups s' !! 10 = None ∧
    subgroups s' !! 20 = Some altos ∧
    (∀ i u, churchUsers s' !! i = Some u → 10 ∉ ChurchUser.subgroupLeaderships u) ∧
    deleteSubgroup theAdmin 10 s' = (Status 404 "Subgroup not found", s').
Proof.
  eexists. split; [reflexivity|].
  destruct (deleteSubgroup_cascade theAdmin 10 congregationWithTeamLeader _ _ eq_refl)
    as (Hgone & Hother & _ & Husers & _ & _ & _ & Hagain).
  split; [exact Hgone|]. split; [by rewrite Hother|].
  split; [exact Husers | exact Hagain].
Defined.

(** ** Who may manage and who may delete a subgroup *)

(** The access check of the subgroup routes passes exactly for an admin
    or holder of [manage_groups], for a caller whose token lists the
    subgroup, and for a caller whose token lists the parent group of the
    stored subgroup.  The deletion is stricter: a caller who only leads
    the subgroup passes the check and is still refused the deletion. *)
Theorem subgroup_access user id s :
  (authorizeSubgroupAccess user id s = true ↔
   isAdmin user = true ∨
   id ∈ ReqUser.subgroupLeaderships user ∨
   ∃ sg, subgroups s !! id = Some sg ∧
         Subgroup.parentGroup sg ∈ ReqUser.groupLeaderships user) ∧
  (∀ sg, subgroups s !! id = Some sg →
         isAdmin user = false →
         Subgroup.parentGroup sg ∉ ReqUser.groupLeaderships user →
         deleteSubgroup user id s =
           (Status 403 "Not authorized to delete this subgroup", s)).
Proof.
  split.
  - unfold authorizeSubgroupAccess, includes, findById.
    destruct (isAdmin user) eqn:Hadmin; [by split; [left|]|].
    destruct (decide (id ∈ ReqUser.subgroupLeaderships user)) as [Hsl|Hsl].
    { rewrite bool_decide_eq_true_2 by done.
      split; [intros _; right; by left | done]. }
    rewrite bool_decide_eq_false_2 by done.
    destruct (subgroups s !! id) as [sg|] eqn:Hsg.
    + destruct (decide (Subgroup.parentGroup sg ∈ ReqUser.groupLeaderships user))
        as [Hgl|Hgl].
      * rewrite bool_decide_eq_true_2 by done.
        split; [|done]. intros _. right. right. by exists sg.
      * rewrite bool_decide_eq_false_2 by done. split; [done|].
        intros [Hc | [Hc | (sg' & Heq & Hin)]]; try done.
        injection Heq as <-. done.
    + split; [done|]. intros [Hc | [Hc | (sg' & Heq & _)]]; done.
  - intros sg Hsg Hadmin Hnot. unfold deleteSubgroup, findById, includes.
    rewrite Hsg, Hadmin. by rewrite bool_decide_eq_false_2.
Qed.

Lemma subgroup_access_witness :
  authorizeSubgroupAccess teamLeaderToken 10 congregation = true ∧
  deleteSubgroup teamLeaderToken 10 congregation =
    (Status 403 "Not authorized to delete this subgroup", congregation).
Proof.
  destruct (subgroup_access teamLeaderToken 10 congregation) as [Hacc Hdel].
  split.
  - apply Hacc. right. left. left.
  - apply (Hdel worshipTeam); [reflexivity | reflexivity |].
    intros Hin. by apply elem_of_nil in Hin.
Defined.

(** ** Putting a member into a subgroup and taking it out again *)

Lemma set_groupMembers_insert_back i m m' s :
  groupMembers s !! i = Some m →
  set_groupMembers (save i m) (set_groupMembers (save i m') s) = s.
Proof.
  intros Hi. destruct s as [gs sgs ms us ps]. unfold set_groupMembers, save.
  simpl in *. f_equal. rewrite insert_insert_eq. by apply insert_id.
Qed.

Lemma authorizeSubgroupAccess_members user id f s :
  authorizeSubgroupAccess user id (set_groupMembers f s)
  = authorizeSubgroupAccess user id s.
Proof. reflexivity. Qed.

(** For a person whose only membership is in the subgroup's parent group
    and carries no subgroup, putting the person into the subgroup and
    removing the person from it again gives back the store as it was: the
    membership in the parent group is kept, with its attendance, and only
    the subgroup field went to the subgroup and back. *)
Theorem addToSubgroup_removeFromSubgroup_roundtrip user id sg i m s :
  authorizeSubgroupAccess user id s = true →
  subgroups s !! id = Some sg →
  onlyMembershipOf i m s →
  GroupMember.group m = Subgroup.parentGroup sg →
  GroupMember.subgroup m = None →
  ∃ s1,
    addToSubgroup user id (GroupMember.person m) s
      = (Json (i, GroupMember.set_subgroup (Some id) m), s1) ∧
    groupMembers s1 !! i = Some (GroupMember.set_subgroup (Some id) m) ∧
    removeFromSubgroup user id (GroupMember.person m) s1
      = (Json "Member removed from subgroup", s).
Proof.
  intros Hauth Hsg [Hi Honly] Hgroup Hnone.
  set (m1 := GroupMember.set_subgroup (Some id) m).
  exists (set_groupMembers (save i m1) s).
  assert (groupMembers (set_groupMembers (save i m1) s) !! i = Some m1) as Hi1
    by (simpl; unfold save; apply lookup_insert_eq).
  split; [|split; [exact Hi1|]].
  - unfold addToSubgroup, findById. rewrite Hauth, Hsg. simpl.
    rewrite (findOne_unique _ _ i m); [done|done| |].
    + by rewrite Hgroup, !bool_decide_eq_true_2.
    + intros j m' Hj [Hp _]%andb_true_iff. apply bool_decide_eq_true in Hp.
      by apply (Honly j m').
  - unfold removeFromSubgroup. rewrite authorizeSubgroupAccess_members, Hauth.
    simpl. rewrite (findOne_unique _ _ i m1); [|exact Hi1| |].
    + assert (GroupMember.set_subgroup None m1 = m) as ->.
      { destruct m. simpl in *. by subst. }
      by rewrite set_groupMembers_insert_back.
    + simpl. by rewrite !bool_decide_eq_true_2.
    + intros j m' Hj [Hp _]%andb_true_iff. apply bool_decide_eq_true in Hp.
      simpl in Hj. unfold save in Hj.
      apply lookup_insert_Some in Hj as [[<- _] | [Hne Hj]]; [done|].
      by apply (Honly j m').
Qed.

Lemma addToSubgroup_removeFromSubgroup_roundtrip_witness :
  ∃ s1,
    addToSubgroup theAdmin 10 51 congregationPlain
      = (Json (7, member51), s1) ∧
    groupMembers s1 !! 7 = Some member51 ∧
    removeFromSubgroup theAdmin 10 51 s1
      = (Json "Member removed from subgroup", congregationPlain).
Proof.
  apply (addToSubgroup_removeFromSubgroup_roundtrip theAdmin 10 worshipTeam 7
           member51Plain congregationPlain).
  - reflexivity.
  - reflexivity.
  - split; [reflexivity|]. intros j m' Hj _.
    change (groupMembers congregationPlain)
      with (<[7 := member51Plain]> ({[7 := member51]} : gmap nat GroupMember.doc))
      in Hj.
    apply lookup_insert_Some in Hj as [[<- _] | [Hne Hj]]; [done|].
    by apply lookup_singleton_Some in Hj as [<- _].
  - reflexivity.
  - reflexivity.
Defined.

(** ** Attendance of a subgroup that was deleted *)

Lemma recordSubgroupAttendanceLoop_no_member user id date data results s :
  (∀ i m, groupMembers s !! i = Some m → GroupMember.subgroup m ≠ Some id) →
  recordSubgroupAttendanceLoop user id date data results s =
    (Some (results ++
           ((λ r, mkAttendanceResult (rec_memberId r) false
                    "Member not found in this subgroup") <$> data))%list, s).
Proof.
  intros Hnone. revert results.
  induction data as [|record rest IH]; intros results; simpl.
  - by rewrite app_nil_r.
  - unfold findOneById.
    destruct (groupMembers s !! rec_memberId record) as [m|] eqn:Hm.
    + rewrite (bool_decide_eq_false_2 _ (Hnone _ _ Hm)). simpl.
      rewrite IH. unfold push. by rewrite <- app_assoc.
    + rewrite IH. unfold push. by rewrite <- app_assoc.
Qed.

(** Once a subgroup is deleted, its attendance route records nothing for
    anybody: whatever the caller and the request, the store stays as the
    deletion left it, and an answer with results reports every record as
    not found.  The subgroup report, where it answers, is empty. *)
Theorem deleted_subgroup_keeps_no_attendance user id s msg s' :
  deleteSubgroup user id s = (Json msg, s') →
  ∀ user' body,
    (recordSubgroupAttendance user' id body s').2 = s' ∧
    (∀ rs, (recordSubgroupAttendance user' id body s').1 = Json rs →
           Forall (λ r, success r = false) rs) ∧
    (∀ a b rows, subgroupAttendanceReport user' id a b s' = Json rows → rows = []).
Proof.
  intros Hdel user' body.
  pose proof (deleteSubgroup_no_member _ _ _ _ _ Hdel) as Hnone.
  split_and!.
  - unfold recordSubgroupAttendance.
    destruct (body_date body) as [date|]; [|done].
    destruct (attendanceData body) as [data|]; [|done].
    destruct (negb _); [done|].
    by rewrite recordSubgroupAttendanceLoop_no_member.
  - intros rs. unfold recordSubgroupAttendance.
    destruct (body_date body) as [date|]; [|done].
    destruct (attendanceData body) as [data|]; [|done].
    destruct (negb _); [done|].
    rewrite recordSubgroupAttendanceLoop_no_member by done. simpl.
    intros [= <-]. apply Forall_fmap. by apply Forall_true.
  - intros a b rows. unfold subgroupAttendanceReport.
    destruct a as [a|], b as [b|]; try done.
    destruct (negb _); [done|].
    set (q := λ m' : GroupMember.doc, _).
    assert (find q (groupMembers s') = []) as ->.
    { destruct (find q (groupMembers s')) as [|[i m] l] eqn:Hf; [done|].
      assert ((i, m) ∈ find q (groupMembers s')) as [Hm Hq]%elem_of_find
        by (rewrite Hf; left).
      unfold q in Hq. apply andb_true_iff in Hq as [Hq _].
      apply bool_decide_eq_true in Hq. by destruct (Hnone i m Hm). }
    simpl. by intros [= <-].
Qed.

Lemma deleted_subgroup_keeps_no_attendance_witness :
  ∃ s',
    deleteSubgroup theAdmin 10 congregation = (Json "Subgroup deleted", s') ∧
    (recordSubgroupAttendance theAdmin 10
       (mkAttendanceBody (Some 7%Z) (Some [mkAttendanceRecord 7 (Some "present") None]))
       s').2 = s' ∧
    (∀ a b rows, subgroupAttendanceReport theAdmin 10 a b s' = Json rows → rows = []).
Proof.
  eexists. split; [reflexivity|].
  destruct (deleted_subgroup_keeps_no_attendance theAdmin 10 congregation _ _ eq_refl
              theAdmin
              (mkAttendanceBody (Some 7%Z)
                 (Some [mkAttendanceRecord 7 (Some "present") None])))
    as (Hstore & _ & Hreport).
  split; [exact Hstore | exact Hreport].
Defined.

(** ** Edge cases of the reports *)

Lemma elem_of_omap_projectStage a b ppl (l : list (ObjectId * GroupMember.doc)) row :
  row ∈ omap (projectStage a b ppl) l ↔
  ∃ i m p, (i, m) ∈ l ∧ ppl !! GroupMember.person m = Some p ∧
           row = expectedRow a b i m p.
Proof.
  rewrite list_elem_of_omap. split.
  - intros ([i m] & Hin & Hrow). unfold projectStage in Hrow. simpl in Hrow.
    destruct (ppl !! GroupMember.person m) as [p|] eqn:Hp; [|done].
    injection Hrow as <-. by exists i, m, p.
  - intros (i & m & p & Hin & Hp & ->). exists (i, m). split; [done|].
    by apply projectStage_expected.
Qed.

Lemma memberIds_sublist a b ppl (l : list (ObjectId * GroupMember.doc)) :
  Report.memberId <$> omap (projectStage a b ppl) l `sublist_of` l.*1.
Proof.
  induction l as [|im l IH]; [done|]. simpl.
  destruct (projectStage a b ppl im) as [row|] eqn:Hrow.
  - rewrite fmap_cons, (projectStage_memberId _ _ _ _ _ Hrow).
    by apply sublist_skip.
  - by apply sublist_cons.
Qed.

(** Every row of the group report belongs to a stored member of that
    group whose person is stored, and is that member's row; no member has
    two rows.  Members of other groups never appear. *)
Theorem getGroupAttendance_rows_sound gid a b s :
  (∀ row, row ∈ getGroupAttendance gid a b s →
     ∃ m p,
       groupMembers s !! Report.memberId row = Some m ∧
       GroupMember.group m = gid ∧
       people s !! GroupMember.person m = Some p ∧
       row = expectedRow a b (Report.memberId row) m p) ∧
  NoDup (Report.memberId <$> getGroupAttendance gid a b s).
Proof.
  split.
  - intros row (i & m & p & Hin & Hp & ->)%elem_of_omap_projectStage.
    apply elem_of_find in Hin as [Hm Hq]. exists m, p. simpl.
    unfold matchStage in Hq.
    apply andb_true_iff in Hq as [[Hg _]%andb_true_iff _].
    apply bool_decide_eq_true in Hg. done.
  - eapply sublist_NoDup; [|apply memberIds_sublist]. apply NoDup_fst_find.
Qed.

Lemma getGroupAttendance_rows_sound_witness :
  getGroupAttendance 1 6 30 attended =
    [Report.mk 7 "Ben" "Cole"
       [Attendance.mk 20 "absent" ""; Attendance.mk 7 "excused" "ill"]] ∧
  ∀ row, row ∈ getGroupAttendance 1 6 30 attended →
         ∃ m, groupMembers attended !! Report.memberId row = Some m ∧
              GroupMember.group m = 1.
Proof.
  split; [vm_compute; reflexivity|]. intros row Hrow.
  destruct (getGroupAttendance_rows_sound 1 6 30 attended) as [Hsound _].
  destruct (Hsound row Hrow) as (m & p & Hm & Hg & _). by exists m.
Defined.

Lemma inRange_reversed a b e : (b < a)%Z → inRange a b e = false.
Proof.
  intros Hlt. apply not_true_is_false. rewrite inRange_spec. lia.
Qed.

Lemma expectedRow_reversed a b i m p :
  (b < a)%Z → Report.attendance (expectedRow a b i m p) = [].
Proof.
  intros Hlt. simpl. induction (GroupMember.attendance m) as [|e l IH]; [done|].
  rewrite filter_cons, decide_False; [done|].
  by rewrite (inRange_reversed a b e Hlt).
Qed.

(** A range whose end lies before its start is not refused: both reports
    answer, and every row they hold has an empty attendance list. *)
Theorem reports_reversed_range user id a b s :
  (b < a)%Z →
  (∀ rows, groupAttendanceReport user id (Some a) (Some b) s = Json rows →
           Forall (λ row, Report.attendance row = []) rows) ∧
  (∀ rows, subgroupAttendanceReport user id (Some a) (Some b) s = Json rows →
           Forall (λ row, Report.attendance row = []) rows).
Proof.
  intros Hlt. split; intros rows.
  - unfold groupAttendanceReport. destruct (negb _); [done|]. intros [= <-].
    apply Forall_forall.
    intros row (i & m & p & _ & _ & ->)%elem_of_omap_projectStage.
    by apply expectedRow_reversed.
  - unfold subgroupAttendanceReport. destruct (negb _); [done|].
    destruct (mapM _ _) as [rs|] eqn:Hmap; [|done]. intros [= <-].
    rewrite <- (mapM_omap _ _ _ Hmap). apply Forall_forall.
    intros row (i & m & p & _ & _ & ->)%elem_of_omap_projectStage.
    by apply expectedRow_reversed.
Qed.

Lemma reports_reversed_range_witness :
  groupAttendanceReport theAdmin 1 (Some 10%Z) (Some 6%Z) attended
    = Json [Report.mk 7 "Ben" "Cole" []] ∧
  Forall (λ row, Report.attendance row = []) [Report.mk 7 "Ben" "Cole" []].
Proof.
  destruct (reports_reversed_range theAdmin 1 10%Z 6%Z attended) as [Hgroup _];
    [lia|].
  assert (groupAttendanceReport theAdmin 1 (Some 10%Z) (Some 6%Z) attended
          = Json [Report.mk 7 "Ben" "Cole" []]) as Hrep
    by (vm_compute; reflexivity).
  split; [exact Hrep|]. by apply Hgroup.
Defined.

(** ** The leadership lists under assign and remove *)

Lemma elem_of_addGroupLeadership x groupId u :
  x ∈ ChurchUser.groupLeaderships (ChurchUser.addGroupLeadership groupId u) ↔
  x = groupId ∨ x ∈ ChurchUser.groupLeaderships u.
Proof.
  unfold ChurchUser.addGroupLeadership, mongooseIncludes, push.
  destruct (decide (groupId ∈ ChurchUser.groupLeaderships u)) as [Hin|Hin].
  - rewrite bool_decide_eq_true_2 by done. simpl. split; [by right|].
    by intros [->|?].
  - rewrite bool_decide_eq_false_2 by done. simpl.
    rewrite elem_of_app, list_elem_of_singleton. tauto.
Qed.

Lemma assignGroupLeadership_fails caller userId groupId s code msg s' :
  assignGroupLeadership caller userId groupId s = (Status code msg, s') → s' = s.
Proof.
  unfold assignGroupLeadership, findById.
  destruct (negb _); [by intros [= _ _ <-]|].
  destruct (churchUsers s !! userId); [|by intros [= _ _ <-]].
  destruct (groups s !! groupId); [done|by intros [= _ _ <-]].
Qed.

Lemma assignGroupLeadership_consistent caller userId groupId s r s' :
  assignGroupLeadership caller userId groupId s = (r, s') →
  leadershipConsistent s → leadershipConsistent s'.
Proof.
  destruct r as [body|code msg];
    [|by intros ->%assignGroupLeadership_fails].
  intros (u & g & _ & Hu & Hg & _ & Hcu & Hgs & _)%assignGroupLeadership_success
         (Hmirror & Hdistinct & Hstored).
  assert (∃ g1, groups s' = <[groupId := g1]> (groups s) ∧
                ∀ x, x ∈ Group.leaders g1 ↔
                     x ∈ Group.leaders g ∨ x = ChurchUser.person u)
    as (g1 & Hgs1 & Hg1).
  { destruct (decide (ChurchUser.person u ∈ Group.leaders g)) as [Hin|Hin].
    - rewrite bool_decide_eq_true_2 in Hgs by done. exists g.
      split; [by rewrite insert_id|]. intros x. split; [by left|].
      by intros [?| ->].
    - rewrite bool_decide_eq_false_2 in Hgs by done. eexists. split; [exact Hgs|].
      intros x. simpl. rewrite elem_of_app, list_elem_of_singleton. tauto. }
  clear Hgs. split; [|split].
  - intros i u' j g' Hu' Hg'. rewrite Hcu in Hu'. rewrite Hgs1 in Hg'.
    apply lookup_insert_Some in Hu' as [[<- <-] | [Hne Hu']];
      apply lookup_insert_Some in Hg' as [[<- <-] | [Hneg Hg']].
    + rewrite elem_of_addGroupLeadership, Hg1, addGroupLeadership_person. tauto.
    + rewrite elem_of_addGroupLeadership, addGroupLeadership_person.
      rewrite <- (Hmirror _ _ _ _ Hu Hg'). split; [|tauto].
      by intros [->|?].
    + rewrite Hg1, <- (Hmirror _ _ _ _ Hu' Hg). split; [tauto|].
      intros [?|Heq]; [done|]. by destruct (Hne (Hdistinct _ _ _ _ Hu Hu' (eq_sym Heq))).
    + exact (Hmirror _ _ _ _ Hu' Hg').
  - intros i j u' v' Hu' Hv' Heq. rewrite Hcu in Hu', Hv'.
    apply lookup_insert_Some in Hu' as [[<- <-] | [Hne Hu']];
      apply lookup_insert_Some in Hv' as [[<- <-] | [Hnev Hv']];
      rewrite ?addGroupLeadership_person in Heq; try done.
    + by apply (Hdistinct _ _ _ _ Hu Hv').
    + by apply (Hdistinct _ _ _ _ Hu' Hu).
    + by apply (Hdistinct _ _ _ _ Hu' Hv').
  - intros i u' x Hu' Hx. rewrite Hcu in Hu'. rewrite Hgs1.
    apply lookup_insert_Some in Hu' as [[<- <-] | [Hne Hu']].
    + apply elem_of_addGroupLeadership in Hx as [->|Hx].
      * by rewrite lookup_insert_eq.
      * apply lookup_insert_is_Some'. right. by apply (Hstored _ _ _ Hu).
    + apply lookup_insert_is_Some'. right. by apply (Hstored _ _ _ Hu').
Qed.

Lemma removeGroupLeadership_store caller userId groupId s r s' :
  removeGroupLeadership caller userId groupId s = (r, s') →
  s' = s ∨
  ∃ u g,
    churchUsers s !! userId = Some u ∧ groups s !! groupId = Some g ∧
    churchUsers s' =
      <[userId := ChurchUser.set_groupLeaderships
                    (filter (λ x, x ≠ groupId) (ChurchUser.groupLeaderships u)) u]>
        (churchUsers s) ∧
    groups s' =
      <[groupId := Group.set_leaders
                     (filter (λ x, x ≠ ChurchUser.person u) (Group.leaders g)) g]>
        (groups s).
Proof.
  unfold removeGroupLeadership, findById.
  destruct (negb _); [intros [= _ <-]; by left|].
  destruct (churchUsers s !! userId) as [u|] eqn:Hu; [|intros [= _ <-]; by left].
  destruct (groups s !! groupId) as [g|] eqn:Hg; [|intros [= _ <-]; by left].
  intros [= _ <-]. right. by exists u, g.
Qed.

Lemma removeGroupLeadership_consistent caller userId groupId s r s' :
  removeGroupLeadership caller userId groupId s = (r, s') →
  leadershipConsistent s → leadershipConsistent s'.
Proof.
  intros [-> | (u & g & Hu & Hg & Hcu & Hgs)]%removeGroupLeadership_store; [done|].
  intros (Hmirror & Hdistinct & Hstored). split; [|split].
  - intros i u' j g' Hu' Hg'. rewrite Hcu in Hu'. rewrite Hgs in Hg'.
    apply lookup_insert_Some in Hu' as [[<- <-] | [Hne Hu']];
      apply lookup_insert_Some in Hg' as [[<- <-] | [Hneg Hg']]; simpl.
    + rewrite !list_elem_of_filter. tauto.
    + rewrite list_elem_of_filter, <- (Hmirror _ _ _ _ Hu Hg'). split; [tauto|].
      intros Hin. split; [|done]. by intros ->.
    + rewrite list_elem_of_filter, <- (Hmirror _ _ _ _ Hu' Hg). split; [|tauto].
      intros Hin. split; [|done]. intros Heq.
      by destruct (Hne (Hdistinct _ _ _ _ Hu Hu' (eq_sym Heq))).
    + exact (Hmirror _ _ _ _ Hu' Hg').
  - intros i j u' v' Hu' Hv' Heq. rewrite Hcu in Hu', Hv'.
    apply lookup_insert_Some in Hu' as [[<- <-] | [Hne Hu']];
      apply lookup_insert_Some in Hv' as [[<- <-] | [Hnev Hv']];
      simpl in Heq; try done.
    + by apply (Hdistinct _ _ _ _ Hu Hv').
    + by apply (Hdistinct _ _ _ _ Hu' Hu).
    + by apply (Hdistinct _ _ _ _ Hu' Hv').
  - intros i u' x Hu' Hx. rewrite Hcu in Hu'. rewrite Hgs.
    apply lookup_insert_is_Some'. right.
    apply lookup_insert_Some in Hu' as [[<- <-] | [Hne Hu']].
    + simpl in Hx. apply list_elem_of_filter in Hx as [_ Hx].
      by apply (Hstored _ _ _ Hu).
    + by apply (Hstored _ _ _ Hu').
Qed.

(** Where accounts have distinct persons and list stored groups only,
    the assign and the remove handler keep the two leadership lists
    mirrored, whatever they answer: a store that is consistent before a
    call is consistent after it. *)
Theorem leadership_handlers_keep_mirror caller userId groupId s :
  leadershipConsistent s →
  leadershipConsistent (assignGroupLeadership caller userId groupId s).2 ∧
  leadershipConsistent (removeGroupLeadership caller userId groupId s).2.
Proof.
  intros Hcons. split.
  - destruct (assignGroupLeadership caller userId groupId s) as [r s'] eqn:Hcall.
    by apply (assignGroupLeadership_consistent _ _ _ _ _ _ Hcall).
  - destruct (removeGroupLeadership caller userId groupId s) as [r s'] eqn:Hcall.
    by apply (removeGroupLeadership_consistent _ _ _ _ _ _ Hcall).
Qed.

Lemma congregation_consistent : leadershipConsistent congregation.
Proof.
  split; [apply congregation_mirror|]. split.
  - intros i j u v Hu Hv _. simpl in Hu, Hv.
    apply lookup_singleton_Some in Hu as [<- _].
    by apply lookup_singleton_Some in Hv as [<- _].
  - intros i u g Hu Hg. simpl in Hu.
    apply lookup_singleton_Some in Hu as [_ <-].
    apply list_elem_of_singleton in Hg as ->. by exists youth.
Qed.

Lemma leadership_handlers_keep_mirror_witness :
  leadershipConsistent (assignGroupLeadership theAdmin 5 2 congregation).2 ∧
  leadershipConsistent (removeGroupLeadership theAdmin 5 1 congregation).2.
Proof.
  split.
  - apply (leadership_handlers_keep_mirror theAdmin 5 2 congregation).
    apply congregation_consistent.
  - apply (leadership_handlers_keep_mirror theAdmin 5 1 congregation).
    apply congregation_consistent.
Defined.

(** ** Creating a group *)

Lemma foldl_save_accounts (f : ChurchUser.doc → ChurchUser.doc)
    (l : list (ObjectId * ChurchUser.doc)) s :
  NoDup l.*1 →
  let s' := foldl (λ acc iu, set_churchUsers (save iu.1 (f iu.2)) acc) s l in
  groups s' = groups s ∧ subgroups s' = subgroups s ∧
  groupMembers s' = groupMembers s ∧ people s' = people s ∧
  (∀ i u, (i, u) ∈ l → churchUsers s' !! i = Some (f u)) ∧
  (∀ i, i ∉ l.*1 → churchUsers s' !! i = churchUsers s !! i).
Proof.
  revert s. induction l as [|[j v] l IH]; intros s Hnd; simpl.
  - split_and!; try done. intros i u Hin. by apply elem_of_nil in Hin.
  - rewrite fmap_cons in Hnd. apply NoDup_cons in Hnd as [Hj Hnd].
    destruct (IH (set_churchUsers (save j (f v)) s) Hnd)
      as (Hg & Hsg & Hm & Hp & Hin & Hout).
    split_and!; try done.
    + intros i u [[= -> ->] | Hiu]%elem_of_cons.
      * rewrite (Hout j Hj). simpl. unfold save. apply lookup_insert_eq.
      * by apply Hin.
    + intros i [Hne Hnin]%not_elem_of_cons. rewrite (Hout i Hnin). simpl.
      unfold save. by apply lookup_insert_ne.
Qed.

Lemma elem_of_accountsOf leaders s i u :
  (i, u) ∈ accountsOf leaders s ↔
  churchUsers s !! i = Some u ∧ ChurchUser.person u ∈ default [] leaders.
Proof.
  unfold accountsOf. destruct leaders as [[|p ps]|]; simpl.
  - split; [by intros ?%elem_of_nil | by intros [_ ?%elem_of_nil]].
  - by rewrite elem_of_find, bool_decide_eq_true.
  - split; [by intros ?%elem_of_nil | by intros [_ ?%elem_of_nil]].
Qed.

Lemma NoDup_accountsOf leaders s : NoDup (accountsOf leaders s).*1.
Proof.
  unfold accountsOf. destruct leaders as [[|p ps]|]; simpl;
    [apply NoDup_nil_2 | apply NoDup_fst_find | apply NoDup_nil_2].
Qed.

Lemma foldl_save_accountsOf (f : ChurchUser.doc → ChurchUser.doc) leaders s :
  let s' := foldl (λ acc iu, set_churchUsers (save iu.1 (f iu.2)) acc) s
              (accountsOf leaders s) in
  groups s' = groups s ∧ subgroups s' = subgroups s ∧
  groupMembers s' = groupMembers s ∧ people s' = people s ∧
  ∀ i, churchUsers s' !! i =
       (λ u, if bool_decide (ChurchUser.person u ∈ default [] leaders)
             then f u else u) <$> churchUsers s !! i.
Proof.
  destruct (foldl_save_accounts f (accountsOf leaders s) s (NoDup_accountsOf _ _))
    as (Hg & Hsg & Hm & Hp & Hin & Hout).
  split_and!; try done. intros i.
  destruct (churchUsers s !! i) as [u|] eqn:Hu; simpl.
  - destruct (decide (ChurchUser.person u ∈ default [] leaders)) as [Hl|Hl].
    + rewrite bool_decide_eq_true_2 by done. apply Hin.
      by apply elem_of_accountsOf.
    + rewrite bool_decide_eq_false_2 by done. rewrite Hout; [done|].
      intros [[i' u'] [Hi' [Hu' Hl']%elem_of_accountsOf]]%list_elem_of_fmap.
      simpl in Hi'. subst i'. by simplify_eq.
  - rewrite Hout; [done|].
    intros [[i' u'] [Hi' [Hu' _]%elem_of_accountsOf]]%list_elem_of_fmap.
    simpl in Hi'. subst i'. by simplify_eq.
Qed.

Lemma newGroup_leaders body createdBy church g :
  newGroup body createdBy church = Some g →
  Group.leaders g = default [] (cg_leaders body).
Proof.
  unfold newGroup.
  destruct (requiredTrimmed (cg_name body)); [|done].
  destruct (enumOrDefault meetingFrequencyEnum "weekly" (cg_meetingFrequency body));
    [|done].
  destruct (enumOrDefault meetingDayEnum "sunday" (cg_meetingDay body)); [|done].
  by intros [= <-].
Qed.

Lemma createGroup_success user body s r s' :
  createGroup user body s = (Json r, s') →
  hasPermission (ReqUser.role user) "manage_groups" = true ∧
  newGroup body (ReqUser._id user) (ReqUser.church user) = Some r.2 ∧
  r.1 = fresh (dom (groups s)) ∧
  groups s !! r.1 = None ∧
  groups s' = <[r.1 := r.2]> (groups s) ∧
  subgroups s' = subgroups s ∧ groupMembers s' = groupMembers s ∧
  people s' = people s ∧
  ∀ i, churchUsers s' !! i =
       (λ u, if bool_decide (ChurchUser.person u ∈ Group.leaders r.2)
             then ChurchUser.addGroupLeadership r.1 u else u)
         <$> churchUsers s !! i.
Proof.
  unfold createGroup.
  destruct (hasPermission _ _); simpl; [|done].
  destruct (newGroup _ _ _) as [g|] eqn:Hnew; [|done].
  intros [= <- <-]. simpl.
  destruct (foldl_save_accountsOf
              (ChurchUser.addGroupLeadership (fresh (dom (groups s))))
              (cg_leaders body)
              (set_groups (save (fresh (dom (groups s))) g) s))
    as (Hg & Hsg & Hm & Hp & Hu).
  pose proof (newGroup_leaders _ _ _ _ Hnew) as Hleaders.
  split_and!; try done.
  - apply not_elem_of_dom, is_fresh.
  - intros i. rewrite Hu, Hleaders. done.
Qed.

(** A created group is stored under a new id with the leaders of the
    body, and the group is added to the [groupLeaderships] of exactly the
    accounts whose person is among those leaders; no other account and no
    other collection changes.  On a consistent store the result is
    consistent: the new group is mirrored from the start. *)
Theorem createGroup_links_leaders user body s r s' :
  createGroup user body s = (Json r, s') →
  groups s !! r.1 = None ∧
  groups s' = <[r.1 := r.2]> (groups s) ∧
  Group.leaders r.2 = default [] (cg_leaders body) ∧
  (∀ i u, churchUsers s !! i = Some u →
     ChurchUser.person u ∈ Group.leaders r.2 →
     ∃ u', churchUsers s' !! i = Some u' ∧
           ChurchUser.person u' = ChurchUser.person u ∧
           ∀ x, x ∈ ChurchUser.groupLeaderships u' ↔
                x = r.1 ∨ x ∈ ChurchUser.groupLeaderships u) ∧
  (∀ i u, churchUsers s !! i = Some u →
     ChurchUser.person u ∉ Group.leaders r.2 →
     churchUsers s' !! i = Some u) ∧
  (∀ i, churchUsers s !! i = None → churchUsers s' !! i = None) ∧
  (leadershipConsistent s → leadershipConsistent s').
Proof.
  intros Hcreate.
  destruct (createGroup_success _ _ _ _ _ Hcreate)
    as (_ & Hnew & _ & Hfresh & Hgs & _ & _ & _ & Hus).
  pose proof (newGroup_leaders _ _ _ _ Hnew) as Hleaders.
  assert (∀ i u, churchUsers s !! i = Some u →
            ChurchUser.person u ∈ Group.leaders r.2 →
            churchUsers s' !! i = Some (ChurchUser.addGroupLeadership r.1 u)) as Hin.
  { intros i u Hu Hl. rewrite Hus, Hu. simpl. by rewrite bool_decide_eq_true_2. }
  assert (∀ i u, churchUsers s !! i = Some u →
            ChurchUser.person u ∉ Group.leaders r.2 →
            churchUsers s' !! i = Some u) as Hout.
  { intros i u Hu Hl. rewrite Hus, Hu. simpl. by rewrite bool_decide_eq_false_2. }
  split_and!; try done.
  - intros i u Hu Hl. eexists. split; [by apply Hin|].
    split; [apply addGroupLeadership_person|].
    intros x. apply elem_of_addGroupLeadership.
  - intros i Hu. by rewrite Hus, Hu.
  - intros (Hmirror & Hdistinct & Hstored).
    assert (∀ i u', churchUsers s' !! i = Some u' →
              ∃ u, churchUsers s !! i = Some u ∧
                   ChurchUser.person u' = ChurchUser.person u ∧
                   (ChurchUser.person u ∈ Group.leaders r.2 →
                    ∀ x, x ∈ ChurchUser.groupLeaderships u' ↔
                         x = r.1 ∨ x ∈ ChurchUser.groupLeaderships u) ∧
                   (ChurchUser.person u ∉ Group.leaders r.2 → u' = u)) as Hback.
    { intros i u' Hu'. rewrite Hus in Hu'.
      destruct (churchUsers s !! i) as [u|] eqn:Hu; [|done]. simpl in Hu'.
      exists u. split; [done|]. injection Hu' as <-.
      destruct (decide (ChurchUser.person u ∈ Group.leaders r.2)) as [Hl|Hl].
      - rewrite bool_decide_eq_true_2 by done.
        split; [apply addGroupLeadership_person|]. split; [|done].
        intros _ x. apply elem_of_addGroupLeadership.
      - rewrite bool_decide_eq_false_2 by done. done. }
    assert (∀ i u, churchUsers s !! i = Some u →
              r.1 ∉ ChurchUser.groupLeaderships u) as Hnew_unlisted.
    { intros i u Hu Hx. destruct (Hstored _ _ _ Hu Hx) as [g Hg].
      by rewrite Hfresh in Hg. }
    split; [|split].
    + intros i u' j g' Hu' Hg'.
      destruct (Hback _ _ Hu') as (u & Hu & Hperson & Hyes & Hno).
      rewrite Hperson. rewrite Hgs in Hg'.
      apply lookup_insert_Some in Hg' as [[<- <-] | [Hne Hg']].
      * destruct (decide (ChurchUser.person u ∈ Group.leaders r.2)) as [Hl|Hl].
        -- rewrite (Hyes Hl). tauto.
        -- rewrite (Hno Hl). split; [|done].
           intros Hx. by destruct (Hnew_unlisted _ _ Hu Hx).
      * rewrite <- (Hmirror _ _ _ _ Hu Hg').
        destruct (decide (ChurchUser.person u ∈ Group.leaders r.2)) as [Hl|Hl].
        -- rewrite (Hyes Hl). split; [|tauto]. by intros [->|?].
        -- by rewrite (Hno Hl).
    + intros i j u' v' Hu' Hv' Heq.
      destruct (Hback _ _ Hu') as (u & Hu & Hpu & _).
      destruct (Hback _ _ Hv') as (v & Hv & Hpv & _).
      apply (Hdistinct _ _ _ _ Hu Hv). congruence.
    + intros i u' x Hu' Hx.
      destruct (Hback _ _ Hu') as (u & Hu & _ & Hyes & Hno).
      rewrite Hgs. apply lookup_insert_is_Some'.
      destruct (decide (ChurchUser.person u ∈ Group.leaders r.2)) as [Hl|Hl].
      * destruct (proj1 (Hyes Hl x) Hx) as [Heq|Hx']; [by left|].
        right. by apply (Hstored _ _ _ Hu).
      * rewrite (Hno Hl) in Hx. right. by apply (Hstored _ _ _ Hu).
Qed.

Lemma createGroup_links_leaders_witness :
  ∃ r s' u',
    createGroup theAdmin (namedGroupBody " Ushers " [50; 52]) congregation
      = (Json r, s') ∧
    Group.name r.2 = "Ushers" ∧
    Group.leaders r.2 = [50; 52] ∧
    churchUsers s' !! 5 = Some u' ∧
    r.1 ∈ ChurchUser.groupLeaderships u' ∧
    leadershipConsistent s'.
Proof.
  eexists _, _, _. split; [reflexivity|].
  destruct (createGroup_links_leaders theAdmin (namedGroupBody " Ushers " [50; 52])
              congregation _ _ eq_refl)
    as (_ & _ & _ & Hin & _ & _ & Hcons).
  split; [reflexivity|]. split; [reflexivity|].
  split; [reflexivity|]. split.
  - apply elem_of_app. right. left.
  - apply Hcons, congregation_consistent.
Defined.

Lemma deleteGroup_fails user id s code msg s' :
  deleteGroup user id s = (Status code msg, s') → s' = s.
Proof.
  unfold deleteGroup.
  destruct (negb _); [by intros [= _ _ <-]|].
  destruct (findOneById _ _ _); [done | by intros [= _ _ <-]].
Qed.

(** The group deletion keeps the leadership lists consistent, whatever it
    answers: the deleted group leaves the store together with every
    listing of it. *)
Theorem deleteGroup_keeps_mirror user id s :
  leadershipConsistent s →
  leadershipConsistent (deleteGroup user id s).2.
Proof.
  intros (Hmirror & Hdistinct & Hstored).
  destruct (deleteGroup user id s) as [[msg|code msg] s'] eqn:Hdel; simpl;
    [|by rewrite (deleteGroup_fails _ _ _ _ _ _ Hdel)].
  destruct (deleteGroup_store _ _ _ _ _ Hdel) as (Hg & _ & _ & Hu & _).
  assert (∀ i u', churchUsers s' !! i = Some u' →
            ∃ u, churchUsers s !! i = Some u ∧
                 ChurchUser.person u' = ChurchUser.person u ∧
                 ∀ x, x ∈ ChurchUser.groupLeaderships u' ↔
                      x ≠ id ∧ x ∈ ChurchUser.groupLeaderships u) as Hback.
  { intros i u' Hu'. rewrite Hu, lookup_updateMany in Hu'.
    destruct (churchUsers s !! i) as [u|]; [|done]. simpl in Hu'.
    exists u. split; [done|]. injection Hu' as <-.
    case_bool_decide as Hin; simpl.
    - split; [done|]. intros x. apply elem_of_pull.
    - split; [done|]. intros x. split; [|tauto].
      intros Hx. split; [|done]. by intros ->. }
  split; [|split].
  - intros i u' j g' Hu' Hg'.
    destruct (Hback _ _ Hu') as (u & Hu0 & Hperson & Hgl).
    rewrite Hg in Hg'. apply lookup_delete_Some in Hg' as [Hne Hg'].
    rewrite Hperson, Hgl, <- (Hmirror _ _ _ _ Hu0 Hg'). split; [tauto|].
    intros Hin. split; [|done]. by intros ->.
  - intros i j u' v' Hu' Hv' Heq.
    destruct (Hback _ _ Hu') as (u & Hu0 & Hpu & _).
    destruct (Hback _ _ Hv') as (v & Hv0 & Hpv & _).
    apply (Hdistinct _ _ _ _ Hu0 Hv0). congruence.
  - intros i u' x Hu' Hx.
    destruct (Hback _ _ Hu') as (u & Hu0 & _ & Hgl).
    destruct (proj1 (Hgl x) Hx) as [Hne Hx']. rewrite Hg.
    apply lookup_delete_is_Some. split; [done|]. by apply (Hstored _ _ _ Hu0).
Qed.

Lemma deleteGroup_keeps_mirror_witness :
  leadershipConsistent (deleteGroup theAdmin 1 congregation).2.
Proof.
  apply (deleteGroup_keeps_mirror theAdmin 1 congregation).
  apply congregation_consistent.
Defined.

(** ** Creating a subgroup *)

Lemma authorizeGroupAccess_string user g :
  authorizeGroupAccess user (HexString g) =
    negb (negb (isAdmin user)
          && negb (includes (ReqUser.groupLeaderships user) (HexString g))).
Proof.
  unfold authorizeGroupAccess.
  by destruct (isAdmin user),
       (includes (ReqUser.groupLeaderships user) (HexString g)).
Qed.

(** The two routes that create a subgroup agree whenever the parent group
    is stored.  They differ when it is not: the subgroup route answers 404
    and stores nothing, the group route does not look for the group and
    creates the subgroup under the id it was given. *)
Theorem createSubgroup_routes user g body parent s :
  cs_parentGroup body = Some g →
  (groups s !! g = Some parent →
   createSubgroup user body s = createSubgroupOfGroup user g body s) ∧
  (groups s !! g = None →
   createSubgroup user body s = (Status 404 "Parent group not found", s) ∧
   ∀ sg, isAdmin user = true →
         newSubgroup body (Some g) (ReqUser._id user) (ReqUser.church user) = Some sg →
         ∃ i s',
           createSubgroupOfGroup user g body s = (Json (i, sg), s') ∧
           subgroups s' !! i = Some sg ∧
           Subgroup.parentGroup sg = g ∧
           groups s' !! g = None).
Proof.
  intros Hparent. split.
  - intros Hg. unfold createSubgroup, createSubgroupOfGroup, findById.
    rewrite Hparent. simpl. rewrite Hg, authorizeGroupAccess_string.
    by destruct (negb (isAdmin user) && _).
  - intros Hg. split.
    + unfold createSubgroup, findById. rewrite Hparent. simpl. by rewrite Hg.
    + intros sg Hadmin Hnew. unfold createSubgroupOfGroup, saveSubgroup.
      rewrite (isAdmin_authorizes _ _ Hadmin), Hnew. simpl.
      eexists _, _. split; [reflexivity|].
      destruct (foldl_save_accountsOf
                  (λ u, ChurchUser.set_subgroupLeaderships
                          (push (ChurchUser.subgroupLeaderships u)
                             (fresh (dom (subgroups s)))) u)
                  (cs_leaders body)
                  (set_subgroups (save (fresh (dom (subgroups s))) sg) s))
        as (Hgs & Hsgs & _).
      rewrite Hgs, Hsgs. simpl. unfold save. rewrite lookup_insert_eq.
      split_and!; try done.
      unfold newSubgroup in Hnew.
      destruct (requiredTrimmed (cs_name body)); [|done].
      destruct (ReqUser.church user); [|done].
      destruct (enumOrDefault meetingDayEnum "sunday" (cs_meetingDay body)); [|done].
      by injection Hnew as <-.
Qed.

Lemma createSubgroup_routes_witness :
  createSubgroup theAdmin (namedSubgroupBody "Band" 1) congregation
    = createSubgroupOfGroup theAdmin 1 (namedSubgroupBody "Band" 1) congregation ∧
  createSubgroup theAdmin (namedSubgroupBody "Band" 99) congregation
    = (Status 404 "Parent group not found", congregation) ∧
  ∃ i sg s',
    createSubgroupOfGroup theAdmin 99 (namedSubgroupBody "Band" 99) congregation
      = (Json (i, sg), s') ∧
    Subgroup.parentGroup sg = 99 ∧ groups s' !! 99 = None.
Proof.
  destruct (createSubgroup_routes theAdmin 1 (namedSubgroupBody "Band" 1) youth
              congregation eq_refl) as [Hsame _].
  destruct (createSubgroup_routes theAdmin 99 (namedSubgroupBody "Band" 99) youth
              congregation eq_refl) as [_ Hmissing].
  destruct (Hmissing eq_refl) as [H404 Hcreated].
  split; [by apply Hsame|]. split; [exact H404|].
  destruct (Hcreated (Subgroup.mk "Band" None 99 [] "sunday" None None true 100 900)
              eq_refl eq_refl) as (i & s' & Hc & _ & Hp & Hg).
  exists i, (Subgroup.mk "Band" None 99 [] "sunday" None None true 100 900), s'.
  split; [exact Hc|]. split; [exact Hp | exact Hg].
Defined.

(** ** Logging in *)

Lemma addGroupLeadership_credentials groupId u :
  ChurchUser.username (ChurchUser.addGroupLeadership groupId u) = ChurchUser.username u ∧
  ChurchUser.password (ChurchUser.addGroupLeadership groupId u) = ChurchUser.password u.
Proof. unfold ChurchUser.addGroupLeadership. by destruct (negb _). Qed.

(** A leadership that was assigned shows in the next token: after a
    successful assign, logging in with the account's user name and
    password gives a request user for that account that lists the group
    and passes the access check of the group's routes. *)
Theorem login_after_assign caller userId groupId u g s :
  hasPermission (ReqUser.role caller) "manage_groups" = true →
  usernameOf userId u s →
  groups s !! groupId = Some g →
  ∃ r s' tok,
    assignGroupLeadership caller userId groupId s = (Json r, s') ∧
    login (ChurchUser.username u) (ChurchUser.password u) s' = Json tok ∧
    ReqUser._id tok = userId ∧
    groupId ∈ ReqUser.groupLeaderships tok ∧
    authorizeGroupAccess tok (HexString groupId) = true.
Proof.
  intros Hperm [Hu Huniq] Hg.
  destruct (assignGroupLeadership_succeeds _ _ _ _ _ _ Hperm Hu Hg) as [s' Hassign].
  destruct (assignGroupLeadership_post _ _ _ _ _ _ Hassign)
    as (u' & g' & Hu' & Hg' & Hgl & _).
  pose proof Hassign as (u0 & g0 & _ & Hu0 & _ & _ & Hcu & _)
    %assignGroupLeadership_success.
  rewrite Hu in Hu0. injection Hu0 as <-.
  rewrite Hcu, lookup_insert_eq in Hu'. injection Hu' as <-.
  destruct (addGroupLeadership_credentials groupId u) as [Hname Hpass].
  eexists _, s', _. split; [exact Hassign|].
  unfold login.
  rewrite (findOne_unique _ _ userId (ChurchUser.addGroupLeadership groupId u)).
  - rewrite Hpass, bool_decide_eq_true_2 by done. simpl.
    split; [reflexivity|]. split; [reflexivity|].
    assert (groupId ∈ filter (λ x, is_Some (groups s' !! x))
              (ChurchUser.groupLeaderships
                 (ChurchUser.addGroupLeadership groupId u))) as Hin
      by (apply list_elem_of_filter; split; [by exists g'|done]).
    split; [exact Hin|].
    rewrite authorizeGroupAccess_string. simpl.
    rewrite (bool_decide_eq_true_2 _ Hin). by rewrite andb_false_r.
  - by rewrite Hcu, lookup_insert_eq.
  - by rewrite Hname, bool_decide_eq_true_2.
  - intros j v Hj Hq. apply bool_decide_eq_true in Hq.
    rewrite Hcu in Hj. apply lookup_insert_Some in Hj as [[<- _] | [_ Hj]]; [done|].
    by apply (Huniq j v).
Qed.

Lemma login_after_assign_witness :
  ∃ r s' tok,
    assignGroupLeadership theAdmin 5 2 congregation = (Json r, s') ∧
    login "u1" "secret" s' = Json tok ∧
    ReqUser._id tok = 5 ∧
    2 ∈ ReqUser.groupLeaderships tok ∧
    authorizeGroupAccess tok (HexString 2) = true.
Proof.
  apply (login_after_assign theAdmin 5 2 youthLeader choir congregation).
  - reflexivity.
  - split; [reflexivity|]. intros j v Hj _. simpl in Hj.
    by apply lookup_singleton_Some in Hj as [<- _].
  - reflexivity.
Defined.

Lemma find_nil {D} (q : D → bool) (c : gmap ObjectId D) :
  (∀ i d, c !! i = Some d → q d = false) → find q c = [].
Proof.
  intros Hall. destruct (find q c) as [|[i d] l] eqn:Hf; [done|].
  assert ((i, d) ∈ find q c) as [Hi Hq]%elem_of_find by (rewrite Hf; left).
  by rewrite (Hall _ _ Hi) in Hq.
Qed.

Lemma recordAttendanceLoop_no_church user id date data results s :
  ReqUser.church user = None →
  (recordAttendanceLoop user id date data results s).2 = s.
Proof.
  intros Hnone. revert results.
  induction data as [|record rest IH]; intros results; simpl; [done|].
  unfold findOneById.
  destruct (groupMembers s !! rec_memberId record) as [m|]; [|apply IH].
  rewrite Hnone. rewrite (bool_decide_eq_false_2 (Some _ = None)) by done.
  rewrite andb_false_r. apply IH.
Qed.

(** The token that the login route signs carries no church, and the
    membership routes take the church from the token.  With the request
    user of any login, the add route creates no membership, the attendance
    route of a group records nothing, the member list of a group is empty
    and no subgroup is created, in any store and for any request. *)
Theorem login_token_reaches_no_member username password s0 tok :
  login username password s0 = Json tok →
  ∀ now id s,
    (∀ body, ∃ code msg, addMember now tok id body s = (Status code msg, s)) ∧
    (∀ body, (recordGroupAttendance tok id body s).2 = s) ∧
    listGroupMembers tok id s = [] ∧
    (∀ body, ∃ code msg, createSubgroup tok body s = (Status code msg, s)) ∧
    (∀ body, ∃ code msg, createSubgroupOfGroup tok id body s = (Status code msg, s)).
Proof.
  intros Hlogin.
  assert (ReqUser.church tok = None) as Hnone.
  { unfold login in Hlogin. destruct (findOne _ _) as [[uid u]|]; [|done].
    destruct (negb _); [done|]. by injection Hlogin as <-. }
  intros now id s. split_and!.
  - intros body. unfold addMember, newGroupMember. rewrite Hnone.
    destruct (negb _); [by eexists _, _|].
    destruct (findOne _ _); [by eexists _, _|].
    destruct (personId body); by eexists _, _.
  - intros body. unfold recordGroupAttendance.
    destruct (body_date body) as [date|]; [|done].
    destruct (attendanceData body) as [data|]; [|done].
    destruct (negb _); [done|].
    pose proof (recordAttendanceLoop_no_church tok id date data [] s Hnone) as Hloop.
    by destruct (recordAttendanceLoop tok id date data [] s) as [[rs|] s'].
  - unfold listGroupMembers. apply find_nil. intros i m _. rewrite Hnone.
    rewrite (bool_decide_eq_false_2 (Some _ = None)) by done.
    apply andb_false_r.
  - intros body. unfold createSubgroup, saveSubgroup, newSubgroup. rewrite Hnone.
    destruct (_ ≫= _); [|by eexists _, _].
    destruct (negb (isAdmin tok) && _); [by eexists _, _|].
    destruct (requiredTrimmed _), (cs_parentGroup body); by eexists _, _.
  - intros body. unfold createSubgroupOfGroup, saveSubgroup, newSubgroup.
    rewrite Hnone. destruct (negb _); [by eexists _, _|].
    destruct (requiredTrimmed _); by eexists _, _.
Qed.

Lemma login_token_reaches_no_member_witness :
  (∃ tok, login "u1" "secret" congregation = Json tok) ∧
  ∀ tok, login "u1" "secret" congregation = Json tok →
    (∃ code msg,
       addMember 0 tok 1 (mkAddMemberBody (Some 52) None None) congregation
         = (Status code msg, congregation)) ∧
    listGroupMembers tok 1 congregation = [].
Proof.
  split; [eexists; reflexivity|]. intros tok Hlogin.
  destruct (login_token_reaches_no_member "u1" "secret" congregation tok Hlogin
              0%Z 1 congregation) as (Hadd & _ & Hlist & _).
  split; [apply Hadd | exact Hlist].
Defined.

(** ** The two permission tables *)

(** The table of the account model and the table of [utils/roles.js]
    differ, but for every role of the enum each permission the model
    gives the role is one the utility table gives it too, and the two
    agree on [manage_groups].  So for a token whose permissions are those
    of its role, the permission gate of the routes and the admin test of
    the access helpers decide alike. *)
Theorem role_tables_agree role :
  role ∈ ROLES →
  (∀ p, p ∈ rolePermissions role → hasPermission role p = true) ∧
  ("manage_groups" ∈ rolePermissions role ↔
   hasPermission role "manage_groups" = true) ∧
  (∀ user, ReqUser.role user = role →
           ReqUser.permissions user = rolePermissions role →
           isAdmin user = hasPermission role "manage_groups").
Proof.
  intros _.
  assert ((∀ p, p ∈ rolePermissions role → hasPermission role p = true) ∧
          bool_decide ("manage_groups" ∈ rolePermissions role)
            = hasPermission role "manage_groups" ∧
          (role = "admin" → hasPermission role "manage_groups" = true))
    as (Hsub & Hagree & Hadmin).
  { role_case role "admin".
    { split; [|done]. intros p Hp.
      repeat (apply elem_of_cons in Hp as [->|Hp]; [reflexivity|]).
      by apply elem_of_nil in Hp. }
    role_case role "event_manager".
    { split; [|done]. intros p Hp.
      repeat (apply elem_of_cons in Hp as [->|Hp]; [reflexivity|]).
      by apply elem_of_nil in Hp. }
    role_case role "team_lead".
    { split; [|done]. intros p Hp.
      repeat (apply elem_of_cons in Hp as [->|Hp]; [reflexivity|]).
      by apply elem_of_nil in Hp. }
    role_case role "group_leader".
    { split; [|done]. intros p Hp.
      repeat (apply elem_of_cons in Hp as [->|Hp]; [reflexivity|]).
      by apply elem_of_nil in Hp. }
    role_case role "group_admin".
    { split; [|done]. intros p Hp.
      repeat (apply elem_of_cons in Hp as [->|Hp]; [reflexivity|]).
      by apply elem_of_nil in Hp. }
    role_case role "check_in_staff".
    { split; [|done]. intros p Hp.
      repeat (apply elem_of_cons in Hp as [->|Hp]; [reflexivity|]).
      by apply elem_of_nil in Hp. }
    role_case role "user".
    { split; [|done]. intros p Hp.
      repeat (apply elem_of_cons in Hp as [->|Hp]; [reflexivity|]).
      by apply elem_of_nil in Hp. }
    split; [|done]. intros p Hp. by apply elem_of_nil in Hp. }
  split; [exact Hsub|]. split.
  - by rewrite <- Hagree, bool_decide_eq_true.
  - intros user Hrole Hperms. unfold isAdmin. rewrite Hrole, Hperms, Hagree.
    destruct (decide (role = "admin")) as [Heq|Hne].
    + rewrite bool_decide_eq_true_2 by done. by rewrite (Hadmin Heq).
    + by rewrite bool_decide_eq_false_2.
Qed.

Lemma role_tables_agree_witness :
  isAdmin groupAdminToken = true ∧
  hasPermission "group_admin" "manage_groups" = true.
Proof.
  assert ("group_admin" ∈ ROLES) as Hrole
    by (unfold ROLES; rewrite !elem_of_cons; tauto).
  destruct (role_tables_agree "group_admin" Hrole) as (_ & _ & Hadmin).
  rewrite <- (Hadmin groupAdminToken eq_refl eq_refl). split; reflexivity.
Defined.

(** ** Deleting a person *)

(** The person route deletes the memberships before it looks for the
    person.  So whatever it answers, no membership of that person is left
    and the memberships of everybody else are as before; when the person
    is not stored the answer is 404 and the memberships are gone all the
    same.  Groups and accounts are not touched: a group keeps the person
    among its leaders. *)
Theorem deletePerson_drops_memberships id s :
  let s' := (deletePerson id s).2 in
  (∀ i m, groupMembers s' !! i = Some m ↔
          groupMembers s !! i = Some m ∧ GroupMember.person m ≠ id) ∧
  people s' = delete id (people s) ∧
  groups s' = groups s ∧ subgroups s' = subgroups s ∧
  churchUsers s' = churchUsers s ∧
  (people s !! id = None →
   (deletePerson id s).1 = Status 404 "Person not found") ∧
  (is_Some (people s !! id) →
   (deletePerson id s).1 = Json "Person deleted successfully").
Proof.
  unfold deletePerson, findById. simpl.
  destruct (people s !! id) as [p|] eqn:Hp; simpl;
    (split; [intros i m; by rewrite lookup_deleteMany, bool_decide_eq_false|]);
    split_and!; try done.
  by rewrite delete_id.
Qed.

Lemma deletePerson_drops_memberships_witness :
  (deletePerson 51 congregation).1 = Json "Person deleted successfully" ∧
  groupMembers (deletePerson 51 congregation).2 !! 7 = None ∧
  (deletePerson 77 afterFirstAdd).1 = Status 404 "Person not found".
Proof.
  destruct (deletePerson_drops_memberships 51 congregation)
    as (Hm & _ & _ & _ & _ & _ & Hok).
  destruct (deletePerson_drops_memberships 77 afterFirstAdd)
    as (_ & _ & _ & _ & _ & H404 & _).
  split; [apply Hok; by eexists|]. split; [|by apply H404].
  apply eq_None_not_Some. intros [m Hm7]. apply Hm in Hm7 as [Hm7 Hne].
  simpl in Hm7. apply lookup_singleton_Some in Hm7 as [_ <-]. by apply Hne.
Defined.

(** ** The groups of a person *)

(** For a stored person the groups route answers; [asLeader] holds
    exactly the stored groups whose leaders include the person, each once.
    On a store whose leadership lists mirror each other this is the list a
    login of the person's account puts into the token: the person's view
    and the account's view name the same groups. *)
Theorem personGroups_asLeader p pd s :
  people s !! p = Some pd →
  ∃ pg,
    personGroups p s = Json pg ∧
    NoDup (asLeader pg) ∧
    (∀ g, g ∈ asLeader pg ↔
          ∃ gd, groups s !! g = Some gd ∧ p ∈ Group.leaders gd) ∧
    (leadershipMirror s →
     ∀ uid u username password tok,
       churchUsers s !! uid = Some u →
       ChurchUser.person u = p →
       login username password s = Json tok →
       ReqUser._id tok = uid →
       ∀ g, g ∈ asLeader pg ↔ g ∈ ReqUser.groupLeaderships tok).
Proof.
  intros Hp. unfold personGroups, findById. rewrite Hp.
  eexists. split; [reflexivity|]. simpl.
  assert (∀ g, g ∈ (find (λ gd, bool_decide (p ∈ Group.leaders gd)) (groups s)).*1 ↔
               ∃ gd, groups s !! g = Some gd ∧ p ∈ Group.leaders gd) as Hleader.
  { intros g. rewrite list_elem_of_fmap. split.
    - intros ([g' gd] & -> & [Hg Hq]%elem_of_find). exists gd.
      by apply bool_decide_eq_true in Hq.
    - intros (gd & Hg & Hq). exists (g, gd). split; [done|].
      apply elem_of_find. by rewrite bool_decide_eq_true. }
  split; [apply NoDup_fst_find|]. split; [exact Hleader|].
  intros Hmirror uid u username password tok Hu Hperson Hlogin Hid g.
  unfold login in Hlogin.
  destruct (findOne _ _) as [[uid' u']|] eqn:Hf; [|done].
  destruct (negb _); [done|]. injection Hlogin as <-. simpl in Hid. subst uid'.
  apply findOne_Some in Hf as [Hu' _]. rewrite Hu in Hu'. injection Hu' as <-.
  simpl. rewrite Hleader, list_elem_of_filter. split.
  - intros (gd & Hg & Hin). split; [by exists gd|].
    apply (Hmirror _ _ _ _ Hu Hg). by rewrite Hperson.
  - intros [[gd Hg] Hin]. exists gd. split; [done|].
    rewrite <- Hperson. by apply (Hmirror _ _ _ _ Hu Hg).
Qed.

Lemma personGroups_asLeader_witness :
  ∃ pg,
    personGroups 50 congregation = Json pg ∧
    asLeader pg = [1] ∧
    ∀ tok, login "u1" "secret" congregation = Json tok →
           ∀ g, g ∈ asLeader pg ↔ g ∈ ReqUser.groupLeaderships tok.
Proof.
  destruct (personGroups_asLeader 50 (Person.mk "Ada" "Obi") congregation eq_refl)
    as (pg & Hpg & _ & _ & Hview).
  exists pg. split; [exact Hpg|]. split.
  - assert (Json pg = Json (mkPersonGroups [] [1] [])) as Heq
      by (rewrite <- Hpg; vm_compute; reflexivity).
    by injection Heq as ->.
  - intros tok Hlogin.
    apply (Hview congregation_mirror 5 youthLeader "u1" "secret" tok);
      [reflexivity | reflexivity | exact Hlogin |].
    assert (Json tok = login "u1" "secret" congregation) as Heq by done.
    vm_compute in Heq. by injection Heq as ->.
Defined.

(** ** Updating a group without fields *)

Lemma setGroupFields_empty g : setGroupFields emptyGroupBody g = g.
Proof. by destruct g. Qed.

(** An update that carries no field, or only an empty name, answers with
    the stored group and leaves the store exactly as it was; an update
    whose only field is an empty [leaders] array is a real update and
    empties the leaders. *)
Theorem updateGroup_without_fields user id g s :
  authorizeGroupAccess user (HexString id) = true →
  groups s !! id = Some g →
  Group.church g = ReqUser.church user →
  updateGroup user id emptyGroupBody s = (Json (id, g), s) ∧
  updateGroup user id
    (mkUpdateGroupBody (Some "") None None None None None None None None None) s
    = (Json (id, g), s) ∧
  ∃ s', updateGroup user id (newLeadersBody []) s
          = (Json (id, Group.set_leaders [] g), s') ∧
        groups s' !! id = Some (Group.set_leaders [] g).
Proof.
  intros Hauth Hg Hch.
  assert (set_groups (save id g) s = s) as Hsame.
  { destruct s as [gs sgs ms us ps]. unfold set_groups, save. simpl in *.
    f_equal. by apply insert_id. }
  unfold updateGroup, findOneById. rewrite Hauth, Hg. simpl.
  rewrite (bool_decide_eq_true_2 _ Hch).
  split; [|split].
  - by rewrite setGroupFields_empty, Hsame.
  - assert (setGroupFields
              (mkUpdateGroupBody (Some "") None None None None None None None None None)
              g = g) as -> by (by destruct g).
    by rewrite Hsame.
  - eexists. split.
    + assert (setGroupFields (newLeadersBody []) g = Group.set_leaders [] g) as ->
        by (by destruct g).
      reflexivity.
    + simpl. unfold save. apply lookup_insert_eq.
Qed.

Lemma updateGroup_without_fields_witness :
  updateGroup theAdmin 1 emptyGroupBody congregation = (Json (1, youth), congregation).
Proof.
  apply (updateGroup_without_fields theAdmin 1 youth congregation); reflexivity.
Defined.

(** ** The leaders of a new subgroup *)

Lemma newSubgroup_fields body parent createdBy church sg :
  newSubgroup body parent createdBy church = Some sg →
  parent = Some (Subgroup.parentGroup sg) ∧
  Subgroup.leaders sg = default [] (cs_leaders body) ∧
  church = Some (Subgroup.church sg).
Proof.
  unfold newSubgroup.
  destruct (requiredTrimmed (cs_name body)); [|done].
  destruct parent; [|done]. destruct church; [|done].
  destruct (enumOrDefault meetingDayEnum "sunday" (cs_meetingDay body)); [|done].
  by intros [= <-].
Qed.

(** A subgroup created under a group is stored under a new id with that
    group as parent, and its id is appended to the [subgroupLeaderships]
    of exactly the accounts whose person is among the leaders of the body;
    the other accounts, the groups and the memberships stay as they
    were. *)
Theorem createSubgroup_links_leaders user id body s r s' :
  createSubgroupOfGroup user id body s = (Json r, s') →
  subgroups s !! r.1 = None ∧
  subgroups s' = <[r.1 := r.2]> (subgroups s) ∧
  Subgroup.parentGroup r.2 = id ∧
  Subgroup.leaders r.2 = default [] (cs_leaders body) ∧
  (∀ i u, churchUsers s !! i = Some u →
     churchUsers s' !! i =
       Some (if bool_decide (ChurchUser.person u ∈ Subgroup.leaders r.2)
             then ChurchUser.set_subgroupLeaderships
                    (ChurchUser.subgroupLeaderships u ++ [r.1])%list u
             else u)) ∧
  (∀ i, churchUsers s !! i = None → churchUsers s' !! i = None) ∧
  groups s' = groups s ∧ groupMembers s' = groupMembers s ∧ people s' = people s.
Proof.
  intros Hcreate. unfold createSubgroupOfGroup, saveSubgroup in Hcreate.
  destruct (negb _); [done|].
  destruct (newSubgroup _ _ _ _) as [sg|] eqn:Hnew; [|done].
  injection Hcreate as <- <-. simpl.
  destruct (foldl_save_accountsOf
              (λ u, ChurchUser.set_subgroupLeaderships
                      (push (ChurchUser.subgroupLeaderships u)
                         (fresh (dom (subgroups s)))) u)
              (cs_leaders body)
              (set_subgroups (save (fresh (dom (subgroups s))) sg) s))
    as (Hg & Hsg & Hm & Hp & Hu).
  destruct (newSubgroup_fields _ _ _ _ _ Hnew) as (Hparent & Hleaders & _).
  split_and!; try done.
  - apply not_elem_of_dom, is_fresh.
  - by injection Hparent.
  - intros i u Hi. rewrite Hu. simpl. by rewrite Hi, Hleaders.
  - intros i Hi. rewrite Hu. simpl. by rewrite Hi.
Qed.

Lemma createSubgroup_links_leaders_witness :
  ∃ r s' u',
    createSubgroupOfGroup theAdmin 1 ledSubgroupBody congregation = (Json r, s') ∧
    Subgroup.parentGroup r.2 = 1 ∧
    churchUsers s' !! 5 = Some u' ∧
    ChurchUser.subgroupLeaderships u' = [r.1].
Proof.
  eexists _, _, _. split; [reflexivity|].
  destruct (createSubgroup_links_leaders theAdmin 1 ledSubgroupBody congregation
              _ _ eq_refl) as (_ & _ & Hparent & _ & Haccounts & _).
  split; [exact Hparent|]. split; [by apply (Haccounts 5 youthLeader)|].
  reflexivity.
Defined.

(** ** The methods of the account schema *)

(** [isGroupLeaderFor] and [isSubgroupLeaderFor] answer whether the list
    holds the id; [addGroupLeadership] and [addSubgroupLeadership] make
    the answer yes, change nothing when it already was, and touch neither
    the other list nor the person. *)
Theorem account_methods g u :
  (isGroupLeaderFor g u = true ↔ g ∈ ChurchUser.groupLeaderships u) ∧
  (isSubgroupLeaderFor g u = true ↔ g ∈ ChurchUser.subgroupLeaderships u) ∧
  isGroupLeaderFor g (ChurchUser.addGroupLeadership g u) = true ∧
  isSubgroupLeaderFor g (addSubgroupLeadership g u) = true ∧
  ChurchUser.addGroupLeadership g (ChurchUser.addGroupLeadership g u)
    = ChurchUser.addGroupLeadership g u ∧
  addSubgroupLeadership g (addSubgroupLeadership g u) = addSubgroupLeadership g u ∧
  (∀ x, isSubgroupLeaderFor x (ChurchUser.addGroupLeadership g u)
        = isSubgroupLeaderFor x u) ∧
  (∀ x, isGroupLeaderFor x (addSubgroupLeadership g u) = isGroupLeaderFor x u).
Proof.
  assert (∀ (x : ObjectId) (l : list ObjectId),
            existsb (λ id, bool_decide (id = x)) l = true ↔ x ∈ l) as Hex.
  { intros x l. rewrite existsb_exists. split.
    - intros (y & Hy%list_elem_of_In & ->%bool_decide_eq_true). done.
    - intros Hx. exists x. split; [by apply list_elem_of_In|].
      by apply bool_decide_eq_true. }
  assert (g ∈ ChurchUser.subgroupLeaderships (addSubgroupLeadership g u)) as Hsub.
  { unfold addSubgroupLeadership, mongooseIncludes, push.
    case_bool_decide; simpl; [done|]. apply elem_of_app. right. left. }
  split_and!.
  - apply Hex.
  - apply Hex.
  - apply Hex, addGroupLeadership_elem.
  - by apply Hex.
  - apply addGroupLeadership_present, addGroupLeadership_elem.
  - unfold addSubgroupLeadership at 1. unfold mongooseIncludes.
    by rewrite (bool_decide_eq_true_2 _ Hsub).
  - intros x. unfold ChurchUser.addGroupLeadership. by destruct (negb _).
  - intros x. unfold addSubgroupLeadership. by destruct (negb _).
Qed.



(** Deleting an account removes the account only.  Its user name no
    longer logs in, the leadership lists stay consistent, and the groups
    keep the person among their leaders: the person's groups route
    answers as before the deletion. *)
Theorem deleteUser_leaves_leaders id u s :
  usernameOf id u s →
  ∃ s',
    deleteUser id s = (Json "User deleted successfully", s') ∧
    churchUsers s' = delete id (churchUsers s) ∧
    groups s' = groups s ∧ subgroups s' = subgroups s ∧
    groupMembers s' = groupMembers s ∧ people s' = people s ∧
    (∀ password,
       login (ChurchUser.username u) password s' = Status 401 "User not found") ∧
    (leadershipConsistent s → leadershipConsistent s') ∧
    personGroups (ChurchUser.person u) s' = personGroups (ChurchUser.person u) s.
Proof.
  intros [Hu Huniq]. unfold deleteUser, findById. rewrite Hu.
  eexists. split; [reflexivity|]. simpl. unfold deleteOne.
  split_and!; try done.
  - intros password. unfold login.
    destruct (findOne _ _) as [[j v]|] eqn:Hf; [|done].
    apply findOne_Some in Hf as [Hj Hq]. simpl in Hj.
    apply bool_decide_eq_true in Hq.
    apply lookup_delete_Some in Hj as [Hne Hj].
    by destruct Hne; symmetry; apply (Huniq j v).
  - intros (Hmirror & Hdistinct & Hstored). split; [|split].
    + intros uid v gid g Hv Hg. simpl in Hv, Hg.
      apply lookup_delete_Some in Hv as [_ Hv].
      exact (Hmirror _ _ _ _ Hv Hg).
    + intros i j v w Hv Hw. simpl in Hv, Hw.
      apply lookup_delete_Some in Hv as [_ Hv].
      apply lookup_delete_Some in Hw as [_ Hw].
      exact (Hdistinct _ _ _ _ Hv Hw).
    + intros i v g Hv Hg. simpl in Hv |- *.
      apply lookup_delete_Some in Hv as [_ Hv].
      exact (Hstored _ _ _ Hv Hg).
Qed.

Lemma deleteUser_leaves_leaders_witness :
  ∃ s',
    deleteUser 5 congregation = (Json "User deleted successfully", s') ∧
    churchUsers s' = delete 5 (churchUsers congregation) ∧
    groups s' = groups congregation ∧ subgroups s' = subgroups congregation ∧
    groupMembers s' = groupMembers congregation ∧
    people s' = people congregation ∧
    (∀ password, login "u1" password s' = Status 401 "User not found") ∧
    (leadershipConsistent congregation → leadershipConsistent s') ∧
    personGroups 50 s' = personGroups 50 congregation.
Proof.
  apply (deleteUser_leaves_leaders 5 youthLeader congregation).
  split; [reflexivity|]. intros j v Hj _. simpl in Hj.
  by apply lookup_singleton_Some in Hj as [<- _].
Defined.
